(** * cat-ai-frontend: the classification backend and the minute pruner

    A shallow embedding of [backend/main.py] (category discovery, paginated
    listing, collision-safe naming, classify and undo over the in-memory move
    history) and of [scripts/prune_by_minute.py] (minute keys, survivor
    choice, the keep/delete plan), followed by the properties of the
    specification stated over these definitions.

    Conventions of the embedding.
    - A Python [str] is a [string]; the character operations ([lower],
      [capitalize], the classes of the regular expression) are the ASCII
      ones.
    - A [pathlib.Path] is the list of its parts, the root ("/" or "//")
      being the first part of an absolute path; [suffix] and [stem] split a
      name at its last dot when that dot is neither first nor last.
    - The disk is a finite map from paths to nodes: a regular file carries a
      number standing for its content, so that "the same file" can be said; a
      directory is one entry, and the entries beneath it are keyed by their
      own paths.  Symbolic links, [..] and the working directory are not
      interpreted.
    - A call returns an [outcome]: a value, a raised exception, or [Diverge]
      for a loop whose fuel ran out; the only loop with fuel is the one of
      [_unique_path], which is proved never to run out.
    - Python [int]s are [Z]; [st_mtime] is read from a snapshot
      [Path -> Z]; the identifiers [uuid.uuid4()] draws are read from a
      sequence. *)

From Stdlib Require Import Ascii ZArith.
From stdpp Require Import gmap strings list sorting pretty.

(** ** Python strings *)

Module PyStr.

Definition is_upper (c : ascii) : bool :=
  (65 <=? nat_of_ascii c) && (nat_of_ascii c <=? 90).
Definition is_lower (c : ascii) : bool :=
  (97 <=? nat_of_ascii c) && (nat_of_ascii c <=? 122).
Definition is_digit (c : ascii) : bool :=
  (48 <=? nat_of_ascii c) && (nat_of_ascii c <=? 57).
Definition is_alnum (c : ascii) : bool :=
  is_upper c || is_lower c || is_digit c.

Definition lower_char (c : ascii) : ascii :=
  if is_upper c then ascii_of_nat (nat_of_ascii c + 32) else c.
Definition upper_char (c : ascii) : ascii :=
  if is_lower c then ascii_of_nat (nat_of_ascii c - 32) else c.

(** [s.lower()] *)
Fixpoint lower (s : string) : string :=
  match s with
  | EmptyString => EmptyString
  | String c s' => String (lower_char c) (lower s')
  end.

(** [s.capitalize()] *)
Definition capitalize (s : string) : string :=
  match s with
  | EmptyString => EmptyString
  | String c s' => String (upper_char c) (lower s')
  end.

(** [s.split(sep)] for a one-character separator: the pieces between the
    occurrences of [sep], empty pieces included. *)
Fixpoint split (sep : ascii) (s : string) : list string :=
  match s with
  | EmptyString => [EmptyString]
  | String c s' =>
      if decide (c = sep) then EmptyString :: split sep s'
      else match split sep s' with
           | [] => [String c EmptyString]
           | w :: ws => String c w :: ws
           end
  end.

(** [s.split(sep, 1)] unpacked into two names: the text before and after
    the first [sep]; [None] is the [ValueError] of the unpacking when
    [sep] does not occur. *)
Fixpoint split_once (sep : ascii) (s : string) : option (string * string) :=
  match s with
  | EmptyString => None
  | String c s' =>
      if decide (c = sep) then Some (EmptyString, s')
      else match split_once sep s' with
           | Some (a, b) => Some (String c a, b)
           | None => None
           end
  end.

(** [sep.join(ws)] *)
Fixpoint join (sep : string) (ws : list string) : string :=
  match ws with
  | [] => EmptyString
  | [w] => w
  | w :: ws' => w +:+ sep +:+ join sep ws'
  end.

(** [s.replace(a, b)] for one-character [a] and [b]. *)
Fixpoint replace (a b : ascii) (s : string) : string :=
  match s with
  | EmptyString => EmptyString
  | String c s' => String (if decide (c = a) then b else c) (replace a b s')
  end.

(** [s.rfind(c)]: the index of the last occurrence. *)
Fixpoint rfind (c : ascii) (s : string) : option nat :=
  match s with
  | EmptyString => None
  | String a s' =>
      match rfind c s' with
      | Some i => Some (S i)
      | None => if decide (a = c) then Some 0 else None
      end
  end.

(** [s.startswith(p)] *)
Fixpoint startswith (p s : string) : bool :=
  match p, s with
  | EmptyString, _ => true
  | String a p', String b s' => bool_decide (a = b) && startswith p' s'
  | String _ _, EmptyString => false
  end.

(** [c in s] *)
Fixpoint has_char (c : ascii) (s : string) : bool :=
  match s with
  | EmptyString => false
  | String a s' => bool_decide (a = c) || has_char c s'
  end.

(** [str(i)] for a natural number *)
Definition of_nat (i : nat) : string := pretty i.

End PyStr.

(** ** pathlib *)

(** A path is the list of its parts. *)
Abbreviation Path := (list string).

Module PyPath.

Definition is_root (part : string) : bool :=
  bool_decide (part = "/") || bool_decide (part = "//").

Definition is_absolute (p : Path) : bool :=
  match p with
  | part :: _ => is_root part
  | [] => false
  end.

(** The root of a POSIX path string: none without a leading slash, "//"
    for exactly two leading slashes, "/" otherwise. *)
Definition root_of (s : string) : option string :=
  if negb (PyStr.startswith "/" s) then None
  else if negb (PyStr.startswith "//" s) || PyStr.startswith "///" s then Some "/"
  else Some "//".

Definition keep_part (w : string) : bool :=
  negb (bool_decide (w = "")) && negb (bool_decide (w = ".")).

(** [Path(s)]: the root, then the pieces between slashes, the empty ones
    and the "." ones dropped. *)
Definition of_str (s : string) : Path :=
  let parts := List.filter keep_part (PyStr.split "/" s) in
  match root_of s with
  | Some r => r :: parts
  | None => parts
  end.

(** [str(p)] *)
Definition to_str (p : Path) : string :=
  match p with
  | [] => "."
  | part :: rest =>
      if is_root part then part +:+ PyStr.join "/" rest
      else PyStr.join "/" p
  end.

(** [p.name]: the last part, empty for the bare root and for ".". *)
Definition name (p : Path) : string :=
  match last p with
  | Some part => if is_root part then "" else part
  | None => ""
  end.

(** [p.parent]: the path without its last part; the bare root and "." are
    their own parents. *)
Definition parent (p : Path) : Path :=
  if bool_decide (name p = "") then p else removelast p.

(** [p.suffix]: from the last dot of the name on, when that dot is neither
    the first nor the last character. *)
Definition suffix (p : Path) : string :=
  let n := name p in
  match PyStr.rfind "." n with
  | Some i =>
      if (0 <? i) && (i <? String.length n - 1)
      then String.substring i (String.length n - i) n
      else ""
  | None => ""
  end.

(** [p.stem]: the name without its suffix. *)
Definition stem (p : Path) : string :=
  let n := name p in
  match PyStr.rfind "." n with
  | Some i =>
      if (0 <? i) && (i <? String.length n - 1)
      then String.substring 0 i n
      else n
  | None => n
  end.

(** [p.with_name(n)]; [None] is the [ValueError] raised for a path with an
    empty name. *)
Definition with_name (p : Path) (n : string) : option Path :=
  if bool_decide (name p = "") then None else Some (removelast p ++ [n]).

(** [p / q] for a path [q] *)
Definition join (p q : Path) : Path :=
  if is_absolute q then q else p ++ q.

(** [p / s] for a string [s] *)
Definition joinpath (p : Path) (s : string) : Path := join p (of_str s).

(** [p.relative_to(base)]; [None] is the [ValueError] raised when [p] does
    not start with [base]. *)
Fixpoint relative_to (p base : Path) : option Path :=
  match base, p with
  | [], _ => Some p
  | b :: base', x :: p' => if decide (b = x) then relative_to p' base' else None
  | _ :: _, [] => None
  end.

(** The order of paths: part by part, each part as a string. *)
Fixpoint leb (p q : Path) : bool :=
  match p, q with
  | [], _ => true
  | _ :: _, [] => false
  | x :: p', y :: q' =>
      if decide (x = y) then leb p' q' else bool_decide (String.le x y)
  end.

Definition le (p q : Path) : Prop := leb p q = true.

Global Instance le_dec : RelDecision le.
Proof. intros p q. unfold le. apply _. Defined.

End PyPath.

Infix "//" := PyPath.joinpath (at level 40, left associativity).

(** [sorted(paths)] *)
Definition sorted (paths : list Path) : list Path := merge_sort PyPath.le paths.

(** ** The file system *)

Inductive node : Type :=
| File (content : nat)
| Dir.

Global Instance node_eq_dec : EqDecision node.
Proof. solve_decision. Defined.

Abbreviation FS := (gmap Path node).

Module Fs.

(** [p.exists()] *)
Definition exists_ (fs : FS) (p : Path) : bool :=
  bool_decide (is_Some (fs !! p)).

(** [p.is_file()] *)
Definition is_file (fs : FS) (p : Path) : bool :=
  match fs !! p with
  | Some (File _) => true
  | _ => false
  end.

(** [p.is_dir()] *)
Definition is_dir (fs : FS) (p : Path) : bool :=
  bool_decide (fs !! p = Some Dir).

(** [q] is an entry directly inside [p]. *)
Definition child_of (p q : Path) : bool :=
  bool_decide (PyPath.parent q = p ∧ q ≠ p).

Definition children (fs : FS) (p : Path) : list Path :=
  List.filter (child_of p) (map_to_list fs).*1.

(** [p.iterdir()]; [None] is the [NotADirectoryError] (or
    [FileNotFoundError]) raised when [p] is not a directory. *)
Definition iterdir (fs : FS) (p : Path) : option (list Path) :=
  if is_dir fs p then Some (children fs p) else None.

(** [p.glob('*')]: the entries directly inside [p], none when [p] is not a
    directory. *)
Definition glob_star (fs : FS) (p : Path) : list Path :=
  if is_dir fs p then children fs p else [].

(** [p.mkdir(parents=True, exist_ok=True)], part by part from the top: a
    part that is a directory is kept, a missing one is created, and a regular
    file in the way is the [FileExistsError] or [NotADirectoryError] of the
    call ([None]). *)
Fixpoint mkdir_from (fs : FS) (above : Path) (parts : list string) : option FS :=
  match parts with
  | [] => Some fs
  | part :: parts' =>
      let q := above ++ [part] in
      match fs !! q with
      | Some Dir => mkdir_from fs q parts'
      | Some (File _) => None
      | None => mkdir_from (<[q := Dir]> fs) q parts'
      end
  end.

Definition mkdir (fs : FS) (p : Path) : option FS := mkdir_from fs [] p.

(** [shutil.move(src, dst)]: into [dst] when [dst] is a directory (refused
    when the name is taken there), else onto [dst]; the entry at [src] is
    re-keyed.  [None] is the exception of a failed move: no [src], or no
    directory to hold the destination. *)
Definition move (fs : FS) (src dst : Path) : option FS :=
  match fs !! src with
  | None => None
  | Some n =>
      let real_dst :=
        if is_dir fs dst then PyPath.joinpath dst (PyPath.name src) else dst in
      if is_dir fs dst && exists_ fs real_dst then None
      else if is_dir fs (PyPath.parent real_dst)
           then Some (<[real_dst := n]> (delete src fs))
           else None
  end.

(** The directories above [p]: its proper prefixes, from the top; a
    relative path starts from ".", the empty path. *)
Fixpoint prefixes_from (above : Path) (parts : list string) : list Path :=
  match parts with
  | [] => []
  | part :: parts' => (above ++ [part]) :: prefixes_from (above ++ [part]) parts'
  end.

Definition ancestors (p : Path) : list Path :=
  (if PyPath.is_absolute p then [] else [[]]) ++ prefixes_from [] (removelast p).

(** A well-formed disk: "." and the root are directories, and every entry
    lies in directories all the way up. *)
Definition wf (fs : FS) : Prop :=
  map_Forall (λ p n, (PyPath.name p = "" → n = Dir) ∧
                     Forall (λ q, fs !! q = Some Dir) (ancestors p)) fs.

Global Instance wf_dec fs : Decision (wf fs).
Proof. unfold wf. apply _. Defined.

End Fs.

(** ** Outcomes of a call *)

Inductive exn : Type :=
| HTTPException (status_code : nat) (detail : string)
| ValueError
| IndexError
| OSError.

Inductive outcome (A : Type) : Type :=
| Ret (a : A)
| Raise (e : exn)
| Diverge.

Arguments Ret {A} a.
Arguments Raise {A} e.
Arguments Diverge {A}.

(** The failure kinds of the specification, as the handlers raise them. *)
Definition InvalidCategory : exn := HTTPException 400 "Invalid category".
Definition MalformedReference : exn := HTTPException 400 "Bad image id".
Definition SourceNotFound : exn :=
  HTTPException 404 "Original image not found (was it already classified?)".
Definition RelocationFailed : exn := HTTPException 500 "Failed to move file".
Definition NoSuchMove : exn := HTTPException 404 "No move to undo for image".
Definition RestoreFailed : exn := HTTPException 500 "Failed to restore file".
Definition DirectoryNotFound : exn := HTTPException 404 "Feeder/source not found".

(** [l[start:stop]] *)
Definition slice {A} (l : list A) (start stop : Z) : list A :=
  let len := Z.of_nat (length l) in
  let norm i := if (i <? 0)%Z then Z.max 0 (len + i) else Z.min i len in
  take (Z.to_nat (norm stop - norm start)) (drop (Z.to_nat (norm start)) l).

(** ** backend/main.py *)

(** [{ 'id': ..., 'url': ..., 'filename': ... }] *)
Record image : Type := {
  id : string;
  url : string;
  filename : string
}.

(** The value [list_images] returns. *)
Record listing : Type := {
  images : list image;
  total : nat;
  offset : Z;
  limit : Z
}.

(** An entry of [MOVE_HISTORY]. *)
Record move_record : Type := {
  image_id : string;
  original_path : Path;
  new_path : Path
}.

Global Instance move_record_eq_dec : EqDecision move_record.
Proof. solve_decision. Defined.

(** An entry of the list [list_categories] returns. *)
Record category : Type := {
  key : string;
  label : string;
  reference : option string
}.

(** A category name that does not begin with a slash, as every name made
    from a file stem is: joined to a directory it stays below it. *)
Definition plain_name (c : string) : Prop := PyPath.root_of c = None.

(** The process: the disk and the module-level [MOVE_HISTORY]. *)
Record state : Type := {
  fs : FS;
  MOVE_HISTORY : list move_record
}.

Definition FEEDER_FOLDERS : list string :=
  ["dualfeeder/cam1"; "dualfeeder/cam2"; "officefeeder1"; "officefeeder2";
   "studyfeeder"].

Definition SPECIAL_CATEGORIES : list string := ["unknown"; "not_a_cat"].

(** The set literal of image extensions, the same in [_discover_cat_names]
    and in [list_images]. *)
Definition exts : gset string :=
  {[ ".jpg"; ".jpeg"; ".png"; ".gif"; ".webp" ]}.

(** [f"{path.stem}_{i}{path.suffix}"] *)
Definition numbered_name (path : Path) (i : nat) : string :=
  PyPath.stem path +:+ "_" +:+ PyStr.of_nat i +:+ PyPath.suffix path.

(** The sibling of [path] that carries the number [i]. *)
Definition numbered (path : Path) (i : nat) : Path :=
  removelast path ++ [numbered_name path i].

Section Backend.

(** [Path(__file__).resolve().parent.parent / 'public'], fixed by where the
    program is installed. *)
Variable public_dir : Path.

Definition ROOT : Path := public_dir // "cat_pics".
Definition CLASSIFIED_ROOT : Path := ROOT // "classified".
Definition REFERENCE_DIR : Path := ROOT // "reference".

(** The body of the loop of [_discover_cat_names] over the sorted entries. *)
Fixpoint discover_names (fs : FS) (entries : list Path) : list string :=
  match entries with
  | [] => []
  | p :: entries' =>
      if Fs.is_file fs p && bool_decide (PyStr.lower (PyPath.suffix p) ∈ exts)
      then
        let stem := PyStr.lower (PyPath.stem p) in
        if bool_decide (stem ∈ ["unknown"; "not_cat"])
        then discover_names fs entries'
        else stem :: discover_names fs entries'
      else discover_names fs entries'
  end.

Definition _discover_cat_names (fs : FS) : outcome (list string) :=
  if Fs.exists_ fs REFERENCE_DIR then
    match Fs.iterdir fs REFERENCE_DIR with
    | Some entries => Ret (discover_names fs (sorted entries))
    | None => Raise OSError
    end
  else Ret [].

(** [CAT_NAMES = _discover_cat_names()], computed once when the module is
    loaded. *)
Variable CAT_NAMES : list string.

Definition VALID_CATEGORIES : gset string :=
  list_to_set (CAT_NAMES ++ SPECIAL_CATEGORIES).

(** The loop of [list_images] over the page; [uuid4 k] is the identifier
    drawn for the [k]-th item. *)
Fixpoint list_items (uuid4 : nat → string) (k : nat) (slice_files : list Path)
  : outcome (list image) :=
  match slice_files with
  | [] => Ret []
  | p :: rest =>
      match PyPath.relative_to p (PyPath.parent ROOT) with
      | None => Raise ValueError
      | Some rel =>
          match list_items uuid4 (S k) rest with
          | Ret items =>
              Ret ({| id := uuid4 k +:+ "|" +:+ PyPath.to_str p;
                      url := "/" +:+ PyStr.replace "\" "/" (PyPath.to_str rel);
                      filename := PyPath.name p |} :: items)
          | other => other
          end
      end
  end.

Definition all_files (fs : FS) (feeder_path : Path) : list Path :=
  List.filter
    (λ p, Fs.is_file fs p && bool_decide (PyStr.lower (PyPath.suffix p) ∈ exts))
    (sorted (Fs.glob_star fs feeder_path)).

Definition list_images (uuid4 : nat → string) (fs : FS)
    (feeder source : string) (offset limit : Z) : outcome listing :=
  let feeder_path := ROOT // feeder // source in
  if negb (Fs.exists_ fs feeder_path) then Raise DirectoryNotFound
  else
    let all_files := all_files fs feeder_path in
    let total := length all_files in
    let offset := if (offset <? 0)%Z then 0%Z else offset in
    let limit := Z.max 1 (Z.min limit 1000) in
    let slice_files := slice all_files offset (offset + limit) in
    match list_items uuid4 0 slice_files with
    | Ret images =>
        Ret {| images := images; total := total; offset := offset;
               limit := limit |}
    | Raise e => Raise e
    | Diverge => Diverge
    end.

(** The [while True] loop of [_unique_path], with [i] the counter; [fuel]
    bounds the number of turns. *)
Fixpoint unique_path_loop (fs : FS) (path : Path) (fuel i : nat) : outcome Path :=
  match fuel with
  | 0 => Diverge
  | S fuel' =>
      match PyPath.with_name path (numbered_name path i) with
      | None => Raise ValueError
      | Some candidate =>
          if negb (Fs.exists_ fs candidate) then Ret candidate
          else unique_path_loop fs path fuel' (S i)
      end
  end.

(** One more turn than the disk has entries is enough (see
    [unique_path_loop_terminates]). *)
Definition _unique_path (fs : FS) (path : Path) : outcome Path :=
  if negb (Fs.exists_ fs path) then Ret path
  else unique_path_loop fs path (S (size fs)) 1.

(** [n] requests for the same [path] in a row, each returned path being
    taken (a file is created there) before the next request. *)
Fixpoint successive (fs : FS) (path : Path) (n : nat) : list (outcome Path) :=
  match n with
  | 0 => []
  | S n' =>
      match _unique_path fs path with
      | Ret q => Ret q :: successive (<[q := File 0]> fs) path n'
      | other => [other]
      end
  end.

(** What [classify] returns: [stored_at]; [status] and [moved] are
    constants. *)
Record classified : Type := {
  stored_at : string
}.

Definition classify (st : state) (req_image_id req_category : string)
  : outcome classified * state :=
  if negb (bool_decide (req_category ∈ VALID_CATEGORIES))
  then (Raise InvalidCategory, st)
  else
    match PyStr.split_once "|" req_image_id with
    | None => (Raise MalformedReference, st)
    | Some (_uuid_part, orig_path_str) =>
        let orig_path := PyPath.of_str orig_path_str in
        if negb (Fs.exists_ (fs st) orig_path) then (Raise SourceNotFound, st)
        else
          let target_dir := CLASSIFIED_ROOT // req_category in
          match Fs.mkdir (fs st) target_dir with
          | None => (Raise OSError, st)
          | Some fs1 =>
              let st1 := {| fs := fs1; MOVE_HISTORY := MOVE_HISTORY st |} in
              match _unique_path fs1 (target_dir // PyPath.name orig_path) with
              | Raise e => (Raise e, st1)
              | Diverge => (Diverge, st1)
              | Ret target_path =>
                  match Fs.move fs1 orig_path target_path with
                  | None => (Raise RelocationFailed, st1)
                  | Some fs2 =>
                      match PyPath.relative_to target_path (PyPath.parent ROOT) with
                      | None =>
                          (Raise ValueError,
                           {| fs := fs2;
                              MOVE_HISTORY := MOVE_HISTORY st ++
                                [{| image_id := req_image_id;
                                    original_path := orig_path;
                                    new_path := target_path |}] |})
                      | Some rel =>
                          (Ret {| stored_at := PyPath.to_str rel |},
                           {| fs := fs2;
                              MOVE_HISTORY := MOVE_HISTORY st ++
                                [{| image_id := req_image_id;
                                    original_path := orig_path;
                                    new_path := target_path |}] |})
                      end
                  end
              end
          end
    end.

(** What [undo] returns: [restored_to]; [status] is a constant. *)
Record undone : Type := {
  restored_to : string
}.

(** The body of the loop of [undo] once the entry [m] at index [i] has the
    requested [image_id]. *)
Definition undo_record (st : state) (i : nat) (m : move_record)
  : outcome undone * state :=
  let new_path := new_path m in
  let orig_path := original_path m in
  let popped (fs' : FS) :=
    (Ret {| restored_to := PyPath.to_str orig_path |},
     {| fs := fs'; MOVE_HISTORY := delete i (MOVE_HISTORY st) |}) in
  if Fs.exists_ (fs st) new_path then
    let orig_parent := PyPath.parent orig_path in
    match Fs.mkdir (fs st) orig_parent with
    | None => (Raise OSError, st)
    | Some fs1 =>
        let st1 := {| fs := fs1; MOVE_HISTORY := MOVE_HISTORY st |} in
        match (if negb (Fs.exists_ fs1 orig_path) then Ret orig_path
               else _unique_path fs1 orig_path) with
        | Raise e => (Raise e, st1)
        | Diverge => (Diverge, st1)
        | Ret restore_path =>
            match Fs.move fs1 new_path restore_path with
            | None => (Raise RestoreFailed, st1)
            | Some fs2 => popped fs2
            end
        end
    end
  else popped (fs st).

(** [for i in range(len(MOVE_HISTORY)-1, -1, -1)], with [n] the number of
    indices still to visit: [n-1] down to [0]. *)
Fixpoint undo_scan (st : state) (req_image_id : string) (n : nat)
  : outcome undone * state :=
  match n with
  | 0 => (Raise NoSuchMove, st)
  | S i =>
      match MOVE_HISTORY st !! i with
      | Some m =>
          if decide (image_id m = req_image_id) then undo_record st i m
          else undo_scan st req_image_id i
      | None => (Raise IndexError, st)
      end
  end.

Definition undo (st : state) (req_image_id : string) : outcome undone * state :=
  undo_scan st req_image_id (length (MOVE_HISTORY st)).

(** [m], at index [i], is the most recent entry of the history for
    [req_image_id]: the one the loop of [undo] stops at. *)
Definition latest (history : list move_record) (req_image_id : string)
    (i : nat) (m : move_record) : Prop :=
  history !! i = Some m ∧ image_id m = req_image_id ∧
  ∀ j m', i < j → history !! j = Some m' → image_id m' ≠ req_image_id.

(** The reference image of a discovered name: [name.jpg], else the first
    existing one among the other extensions, else [name.jpg] again. *)
Definition reference_file (fs : FS) (name : string) : Path :=
  let p := REFERENCE_DIR // (name +:+ ".jpg") in
  if negb (Fs.exists_ fs p) then
    match List.find (λ ext, Fs.exists_ fs (REFERENCE_DIR // (name +:+ ext)))
            [".jpeg"; ".png"; ".webp"; ".gif"] with
    | Some ext => REFERENCE_DIR // (name +:+ ext)
    | None => p
    end
  else p.

(** ['/' + str(p.relative_to(ROOT.parent)).replace('\\','/')] when [p]
    exists. *)
Definition reference_url (fs : FS) (p : Path) : outcome (option string) :=
  if Fs.exists_ fs p then
    match PyPath.relative_to p (PyPath.parent ROOT) with
    | Some rel => Ret (Some ("/" +:+ PyStr.replace "\" "/" (PyPath.to_str rel)))
    | None => Raise ValueError
    end
  else Ret None.

(** The loop of [list_categories] over [CAT_NAMES]. *)
Fixpoint cat_descriptors (fs : FS) (names : list string) : outcome (list category) :=
  match names with
  | [] => Ret []
  | name :: names' =>
      match reference_url fs (reference_file fs name) with
      | Ret ref_path =>
          match cat_descriptors fs names' with
          | Ret cs =>
              Ret ({| key := name; label := PyStr.capitalize name;
                      reference := ref_path |} :: cs)
          | other => other
          end
      | Raise e => Raise e
      | Diverge => Diverge
      end
  end.

Definition list_categories (fs : FS) : outcome (list category) :=
  match cat_descriptors fs CAT_NAMES with
  | Ret categories =>
      match reference_url fs (REFERENCE_DIR // "unknown.jpg") with
      | Ret unk_ref =>
          match reference_url fs (REFERENCE_DIR // "not_cat.jpg") with
          | Ret na_ref =>
              Ret (categories ++
                   [{| key := "unknown"; label := "Unknown"; reference := unk_ref |};
                    {| key := "not_a_cat"; label := "Not a Cat"; reference := na_ref |}])
          | Raise e => Raise e
          | Diverge => Diverge
          end
      | Raise e => Raise e
      | Diverge => Diverge
      end
  | other => other
  end.

(** The loop of [get_feeders] over [FEEDER_FOLDERS]. *)
Fixpoint existing_feeders (fs : FS) (folders : list string) : list string :=
  match folders with
  | [] => []
  | f :: folders' =>
      if Fs.exists_ fs (ROOT // f) then f :: existing_feeders fs folders'
      else existing_feeders fs folders'
  end.

Definition get_feeders (fs : FS) : list string :=
  existing_feeders fs FEEDER_FOLDERS.

(** The count [stats] gives a category directory:
    [sum(1 for p in cat_dir.iterdir() if p.is_file())] when it exists, else
    0; [iterdir] raises when the path exists without being a directory. *)
Definition count_files (fs : FS) (cat_dir : Path) : outcome nat :=
  if Fs.exists_ fs cat_dir then
    match Fs.iterdir fs cat_dir with
    | Some entries => Ret (length (List.filter (Fs.is_file fs) entries))
    | None => Raise OSError
    end
  else Ret 0.

(** The loop of [stats] over the categories, [counts] being the dictionary
    built so far. *)
Fixpoint stats_loop (fs : FS) (cats : list string) (counts : gmap string nat)
  : outcome (gmap string nat) :=
  match cats with
  | [] => Ret counts
  | cat :: cats' =>
      match count_files fs (CLASSIFIED_ROOT // cat) with
      | Ret n => stats_loop fs cats' (<[cat := n]> counts)
      | Raise e => Raise e
      | Diverge => Diverge
      end
  end.

Definition stats (fs : FS) : outcome (gmap string nat) :=
  stats_loop fs (elements VALID_CATEGORIES) ∅.

(** What loading the module does to the disk and computes:
    [CLASSIFIED_ROOT.mkdir(parents=True, exist_ok=True)], then
    [CAT_NAMES = _discover_cat_names()]. *)
Definition startup (fs : FS) : outcome (FS * list string) :=
  match Fs.mkdir fs CLASSIFIED_ROOT with
  | None => Raise OSError
  | Some fs1 =>
      match _discover_cat_names fs1 with
      | Ret names => Ret (fs1, names)
      | Raise e => Raise e
      | Diverge => Diverge
      end
  end.

End Backend.

(** ** scripts/prune_by_minute.py *)

(** Regular expressions, matched by derivatives. *)
Module Re.

Inductive regex : Type :=
| Void
| Eps
| Chr (cls : ascii → bool)
| Seq (r1 r2 : regex)
| Alt (r1 r2 : regex)
| Star (r : regex).

Fixpoint nullable (r : regex) : bool :=
  match r with
  | Void => false
  | Eps => true
  | Chr _ => false
  | Seq r1 r2 => nullable r1 && nullable r2
  | Alt r1 r2 => nullable r1 || nullable r2
  | Star _ => true
  end.

Fixpoint deriv (c : ascii) (r : regex) : regex :=
  match r with
  | Void => Void
  | Eps => Void
  | Chr cls => if cls c then Eps else Void
  | Seq r1 r2 =>
      if nullable r1 then Alt (Seq (deriv c r1) r2) (deriv c r2)
      else Seq (deriv c r1) r2
  | Alt r1 r2 => Alt (deriv c r1) (deriv c r2)
  | Star r1 => Seq (deriv c r1) (Star r1)
  end.

(** The whole of [s] matches [r]. *)
Fixpoint fullmatch (r : regex) (s : string) : bool :=
  match s with
  | EmptyString => nullable r
  | String c s' => fullmatch (deriv c r) s'
  end.

(** A literal text. *)
Fixpoint Lit (s : string) : regex :=
  match s with
  | EmptyString => Eps
  | String c s' => Seq (Chr (λ x, bool_decide (x = c))) (Lit s')
  end.

(** [r{n}] *)
Fixpoint Rep (n : nat) (r : regex) : regex :=
  match n with
  | 0 => Eps
  | S n' => Seq r (Rep n' r)
  end.

(** [r+] *)
Definition Plus (r : regex) : regex := Seq r (Star r).

(** A final [$]: the end of the text, or the newline that ends it. *)
Definition Dollar : regex := Alt Eps (Chr (λ x, bool_decide (x = "010"%char))).

End Re.

(** [processed_(\d{8})_(\d{6})_\d+\.[A-Za-z0-9]+$]; [match] anchors it at the
    start and the final [$] at the end. *)
Definition FILENAME_RE : Re.regex :=
  Re.Seq (Re.Lit "processed_")
 (Re.Seq (Re.Rep 8 (Re.Chr PyStr.is_digit))
 (Re.Seq (Re.Lit "_")
 (Re.Seq (Re.Rep 6 (Re.Chr PyStr.is_digit))
 (Re.Seq (Re.Lit "_")
 (Re.Seq (Re.Plus (Re.Chr PyStr.is_digit))
 (Re.Seq (Re.Lit ".")
 (Re.Seq (Re.Plus (Re.Chr PyStr.is_alnum))
         Re.Dollar))))))).

Definition STRATEGIES : gset string := {[ "first_seen"; "oldest"; "newest" ]}.

(** The two groups lie at fixed places of a matching name: the date is
    [name[10:18]] and the time [name[19:25]], of which [hms[:4]] keeps
    [name[19:23]]. *)
Definition minute_key (name : string) : option string :=
  if Re.fullmatch FILENAME_RE name then
    let date := String.substring 10 8 name in
    let hms := String.substring 19 6 name in
    Some (date +:+ "_" +:+ String.substring 0 4 hms)
  else None.

(** [collect_files(root, pattern)], over what [root.glob(pattern)] yields. *)
Definition collect_files (globbed : list Path) : list Path := sorted globbed.

(** [min(files, key=...)] and [max(files, key=...)]: the first element
    whose key is the least, respectively the greatest. *)
Fixpoint min_from {A} (key : A → Z) (best : A) (l : list A) : A :=
  match l with
  | [] => best
  | x :: l' => min_from key (if (key x <? key best)%Z then x else best) l'
  end.

Fixpoint max_from {A} (key : A → Z) (best : A) (l : list A) : A :=
  match l with
  | [] => best
  | x :: l' => max_from key (if (key best <? key x)%Z then x else best) l'
  end.

Section Prune.

(** [p.stat().st_mtime] on the snapshot the plan is computed from. *)
Variable st_mtime : Path → Z.

Definition choose_keep (files : list Path) (strategy : string) : outcome Path :=
  if decide (strategy = "first_seen") then
    match files with
    | f :: _ => Ret f
    | [] => Raise IndexError
    end
  else if decide (strategy = "oldest") then
    match files with
    | f :: files' => Ret (min_from st_mtime f files')
    | [] => Raise ValueError
    end
  else if decide (strategy = "newest") then
    match files with
    | f :: files' => Ret (max_from st_mtime f files')
    | [] => Raise ValueError
    end
  else Raise ValueError.

(** [groups.setdefault(mk, []).append(f)] on a dictionary kept in insertion
    order. *)
Fixpoint setdefault_append (groups : list (string * list Path))
    (mk : string) (f : Path) : list (string * list Path) :=
  match groups with
  | [] => [(mk, [f])]
  | (k, files) :: groups' =>
      if decide (k = mk) then (k, files ++ [f]) :: groups'
      else (k, files) :: setdefault_append groups' mk f
  end.

(** The first loop of [plan]. *)
Fixpoint group_files (groups : list (string * list Path))
    (all_files : list Path) : list (string * list Path) :=
  match all_files with
  | [] => groups
  | f :: all_files' =>
      match minute_key (PyPath.name f) with
      | None => group_files groups all_files'
      | Some mk => group_files (setdefault_append groups mk f) all_files'
      end
  end.

(** The second loop of [plan]. *)
Fixpoint select_files (strategy : string) (groups : list (string * list Path))
    (keep delete : list Path) : outcome (list Path * list Path) :=
  match groups with
  | [] => Ret (keep, delete)
  | (mk, files) :: groups' =>
      if decide (length files = 1) then
        match files with
        | f :: _ => select_files strategy groups' (keep ++ [f]) delete
        | [] => Raise IndexError
        end
      else
        match choose_keep files strategy with
        | Ret chosen =>
            select_files strategy groups' (keep ++ [chosen])
              (delete ++ List.filter (λ f, bool_decide (f ≠ chosen)) files)
        | Raise e => Raise e
        | Diverge => Diverge
        end
  end.

Definition plan (globbed : list Path) (strategy : string)
  : outcome (list Path * list Path) :=
  let groups := group_files [] (collect_files globbed) in
  select_files strategy groups [] [].

(** The file [plan] keeps of a group: the only one, or the one [choose_keep]
    picks; none when [choose_keep] raises. *)
Definition survivor (strategy : string) (files : list Path) : option Path :=
  match files with
  | [f] => Some f
  | _ =>
      match choose_keep files strategy with
      | Ret chosen => Some chosen
      | _ => None
      end
  end.

End Prune.

(** The duplicate group of a minute key: the files that have this key, in
    the order of [all_files]. *)
Definition bucket (all_files : list Path) (mk : string) : list Path :=
  List.filter (λ f, bool_decide (minute_key (PyPath.name f) = Some mk)) all_files.

(** The files [plan] can put in a group: those whose name has a minute
    key. *)
Definition bucketable (f : Path) : bool :=
  bool_decide (is_Some (minute_key (PyPath.name f))).

(** What the first loop of [plan] maintains, [done_files] being the files
    seen so far: one group per key, each group the bucket of its key. *)
Definition grouped (done_files : list Path) (groups : list (string * list Path)) : Prop :=
  NoDup groups.*1 ∧
  Forall (λ g, g.2 = bucket done_files g.1 ∧ g.2 ≠ []) groups ∧
  ∀ k, bucket done_files k ≠ [] → k ∈ groups.*1.

(** The three files of the example, as [glob] may yield them, and the two
    keys. *)
Definition p060153 : Path := ["processed_20250816_060153_097913.jpg"].
Definition p060130 : Path := ["processed_20250816_060130_000001.jpg"].
Definition p060259 : Path := ["processed_20250816_060259_000002.jpg"].
Definition example_files : list Path := [p060153; p060130; p060259].

(** The example files together with a file whose name has no minute key. *)
Definition example_population : list Path := example_files ++ [["notes.txt"]].

(** Modification times for the example: [p060153] is the older of the two
    files of minute 0601. *)
Definition example_mtime (p : Path) : Z :=
  if decide (p = p060153) then 100 else if decide (p = p060130) then 200 else 300.

(** *** The command line of the pruner *)

(** [f.unlink()]: a regular file is removed; [None] is the exception raised
    for a missing path or a directory. *)
Definition unlink (fs : FS) (p : Path) : option FS :=
  match fs !! p with
  | Some (File _) => Some (delete p fs)
  | _ => None
  end.

(** [p.open('w')] followed by the writes and the close: the file is created
    or replaced, with [content]; [None] is the exception raised when [p] is a
    directory or does not lie in one. *)
Definition write_file (fs : FS) (p : Path) (content : nat) : option FS :=
  if Fs.is_dir fs p then None
  else if Fs.is_dir fs (PyPath.parent p) then Some (<[p := File content]> fs)
  else None.

(** The parsed arguments. *)
Module Args.
Record t : Type := {
  root : Path;
  pattern : string;
  strategy : string;
  delete : bool;
  log : option Path
}.
End Args.

(** What a run of [main] leaves: the lines printed on the two streams, the
    lines written to the log if it was written, the disk, and the exit
    code. *)
Record run : Type := {
  stdout : list string;
  stderr : list string;
  logged : option (list string);
  disk : FS;
  code : Z
}.

(** The deletion loop of [main]: [removed] counts the files unlinked,
    [errs] collects the lines printed on the error stream for the files that
    could not be; a line stops before the text of the exception. *)
Fixpoint delete_loop (fs : FS) (files : list Path) (removed : nat)
    (errs : list string) : FS * nat * list string :=
  match files with
  | [] => (fs, removed, errs)
  | f :: files' =>
      match unlink fs f with
      | Some fs' => delete_loop fs' files' (S removed) errs
      | None =>
          delete_loop fs files' removed
            (errs ++ ["Failed to delete " +:+ PyPath.to_str f])
      end
  end.

(** The lines of the log: the strategy, the counts, the deletions, the
    files kept. *)
Definition log_lines (strategy : string) (keep deleted : list Path) : list string :=
  ["strategy=" +:+ strategy;
   "kept=" +:+ PyStr.of_nat (length keep) +:+ " deleted="
     +:+ PyStr.of_nat (length deleted)]
  ++ ((λ f, "DELETE " +:+ PyPath.to_str f) <$> deleted)
  ++ ((λ f, "KEEP " +:+ PyPath.to_str f) <$> keep).

Section Main.

(** [p.stat().st_mtime] on the snapshot, and the number that stands for a
    text as the content of a file. *)
Variable st_mtime : Path → Z.
Variable text : list string → nat.

(** [main], over the parsed arguments and what [args.root.glob(args.pattern)]
    yields.  The two lines about a failure ([Failed to delete], [Failed to
    write log]) stop before the text of the exception. *)
Definition main (fs : FS) (globbed : list Path) (args : Args.t) : outcome run :=
  if negb (Fs.is_dir fs (Args.root args)) then
    Ret {| stdout := [];
           stderr := ["ERROR: root " +:+ PyPath.to_str (Args.root args)
                        +:+ " is not a directory"];
           logged := None; disk := fs; code := 2 |}
  else
    match plan st_mtime globbed (Args.strategy args) with
    | Raise e => Raise e
    | Diverge => Diverge
    | Ret (keep, deleted) =>
        let summary :=
          ["Minutes identified: " +:+ PyStr.of_nat (length keep) +:+ " kept, "
             +:+ PyStr.of_nat (length deleted)
             +:+ " scheduled for deletion (strategy=" +:+ Args.strategy args
             +:+ ")."] in
        let dry :=
          if negb (Args.delete args)
          then ["Dry run. Use --delete to actually remove the following files:"]
          else [] in
        let shown := (λ f, "DELETE: " +:+ PyPath.to_str f) <$> take 20 deleted in
        let more :=
          if 20 <? length deleted
          then ["... and " +:+ PyStr.of_nat (length deleted - 20) +:+ " more"]
          else [] in
        let '(fs1, removed_line, errs) :=
          if Args.delete args then
            let '(fs', removed, errs) := delete_loop fs deleted 0 [] in
            (fs', ["Deleted " +:+ PyStr.of_nat removed +:+ " files."], errs)
          else (fs, [], []) in
        let '(fs2, log_errs, written) :=
          match Args.log args with
          | None => (fs1, [], None)
          | Some log_path =>
              let lines := log_lines (Args.strategy args) keep deleted in
              match write_file fs1 log_path (text lines) with
              | Some fs' => (fs', [], Some lines)
              | None => (fs1, ["Failed to write log"], None)
              end
          end in
        Ret {| stdout := summary ++ dry ++ shown ++ more ++ removed_line;
               stderr := errs ++ log_errs;
               logged := written; disk := fs2; code := 0 |}
    end.

End Main.

(** *** Paths as [Path(s)] builds them *)

(** A part that [Path(s)] keeps: not empty, not ".", without a slash. *)
Definition proper_part (w : string) : Prop :=
  PyPath.keep_part w = true ∧ PyStr.has_char "/" w = false.

Global Instance proper_part_dec w : Decision (proper_part w).
Proof. unfold proper_part. apply _. Defined.

(** A path in the form [Path(s)] gives it: proper parts, after a root for an
    absolute path. *)
Definition normal_path (p : Path) : Prop :=
  match p with
  | [] => True
  | part :: rest =>
      (PyPath.is_root part = true ∨ proper_part part) ∧ Forall proper_part rest
  end.

Global Instance normal_path_dec p : Decision (normal_path p).
Proof. unfold normal_path. destruct p; apply _. Defined.

(** *** What a regular expression matches *)



(** ** Example states *)

(** A disk where [/t/a.jpg] and [/t/a_1.jpg] are taken. *)
Definition taken_fs : FS :=
  {[ ["/"] := Dir; ["/"; "t"] := Dir; ["/"; "t"; "a.jpg"] := File 1;
     ["/"; "t"; "a_1.jpg"] := File 2 ]}.

(** A history whose only entry records a new location that has since
    vanished from the disk. *)
Definition stale_state : state :=
  {| fs := {[ ["/"] := Dir; ["/"; "p"] := Dir ]};
     MOVE_HISTORY :=
       [{| image_id := "u|/p/a.jpg"; original_path := ["/"; "p"; "a.jpg"];
           new_path := ["/"; "c"; "a.jpg"] |}] |}.

(** The original location of a classified file is occupied again: another
    file stands at [f/cats/a.jpg]. *)
Definition collision_state : state :=
  {| fs := {[ ["/"] := Dir; ["/"; "pub"] := Dir; ["/"; "pub"; "cat_pics"] := Dir;
              ["/"; "pub"; "cat_pics"; "f"] := Dir;
              ["/"; "pub"; "cat_pics"; "f"; "cats"] := Dir;
              ["/"; "pub"; "cat_pics"; "f"; "cats"; "a.jpg"] := File 7;
              ["/"; "pub"; "cat_pics"; "classified"] := Dir;
              ["/"; "pub"; "cat_pics"; "classified"; "unknown"] := Dir;
              ["/"; "pub"; "cat_pics"; "classified"; "unknown"; "a.jpg"] := File 1 ]};
     MOVE_HISTORY :=
       [{| image_id := "u|/pub/cat_pics/f/cats/a.jpg";
           original_path := ["/"; "pub"; "cat_pics"; "f"; "cats"; "a.jpg"];
           new_path := ["/"; "pub"; "cat_pics"; "classified"; "unknown"; "a.jpg"] |}] |}.

(** A feeder directory with five qualifying images, a text file, a
    directory whose name looks like an image, and an image one level
    down. *)
Definition feeder_fs : FS :=
  {[ ["/"] := Dir; ["/"; "pub"] := Dir; ["/"; "pub"; "cat_pics"] := Dir;
     ["/"; "pub"; "cat_pics"; "officefeeder1"] := Dir;
     ["/"; "pub"; "cat_pics"; "officefeeder1"; "cats"] := Dir;
     ["/"; "pub"; "cat_pics"; "officefeeder1"; "cats"; "e.jpg"] := File 5;
     ["/"; "pub"; "cat_pics"; "officefeeder1"; "cats"; "a.jpg"] := File 1;
     ["/"; "pub"; "cat_pics"; "officefeeder1"; "cats"; "c.PNG"] := File 3;
     ["/"; "pub"; "cat_pics"; "officefeeder1"; "cats"; "b.jpeg"] := File 2;
     ["/"; "pub"; "cat_pics"; "officefeeder1"; "cats"; "d.gif"] := File 4;
     ["/"; "pub"; "cat_pics"; "officefeeder1"; "cats"; "notes.txt"] := File 6;
     ["/"; "pub"; "cat_pics"; "officefeeder1"; "cats"; "old.jpg"] := Dir;
     ["/"; "pub"; "cat_pics"; "officefeeder1"; "cats"; "old.jpg"; "x.jpg"] := File 7 ]}.

(** Identifiers for the items of a page. *)
Definition uuid_of (k : nat) : string := "id" +:+ PyStr.of_nat k.

(** A reference directory that holds, next to a cat, images named after
    both special categories and after the reference image of the second. *)
Definition reference_fs : FS :=
  {[ ["/"] := Dir; ["/"; "pub"] := Dir; ["/"; "pub"; "cat_pics"] := Dir;
     ["/"; "pub"; "cat_pics"; "reference"] := Dir;
     ["/"; "pub"; "cat_pics"; "reference"; "Milo.JPG"] := File 1;
     ["/"; "pub"; "cat_pics"; "reference"; "not_a_cat.jpg"] := File 2;
     ["/"; "pub"; "cat_pics"; "reference"; "unknown.png"] := File 3;
     ["/"; "pub"; "cat_pics"; "reference"; "not_cat.jpg"] := File 4;
     ["/"; "pub"; "cat_pics"; "reference"; "readme.txt"] := File 5 ]}.


(** The feeder directory of [feeder_fs] before anything has been
    classified. *)
Definition feeder_state : state := {| fs := feeder_fs; MOVE_HISTORY := [] |}.

(** The first page of one item of that directory, as [list_images] returns
    it when every identifier drawn is "u". *)
Definition first_image : image :=
  {| id := "u|/pub/cat_pics/officefeeder1/cats/a.jpg";
     url := "/cat_pics/officefeeder1/cats/a.jpg"; filename := "a.jpg" |}.

Definition first_page : listing :=
  {| images := [first_image]; total := 5; offset := 0; limit := 1 |}.

(** An installed program: the reference directory holds two images of one
    cat and the image of the unknown category, and the classified directory
    has been made. *)
Definition installed_fs : FS :=
  {[ ["/"] := Dir; ["/"; "pub"] := Dir; ["/"; "pub"; "cat_pics"] := Dir;
     ["/"; "pub"; "cat_pics"; "reference"] := Dir;
     ["/"; "pub"; "cat_pics"; "reference"; "Milo.JPG"] := File 1;
     ["/"; "pub"; "cat_pics"; "reference"; "milo.png"] := File 2;
     ["/"; "pub"; "cat_pics"; "reference"; "unknown.jpg"] := File 3;
     ["/"; "pub"; "cat_pics"; "classified"] := Dir ]}.

(** The reference of a name: the URL of the first of the candidate files
    [name + ext] that exists, the extensions tried in the order given. *)
Definition first_reference (public_dir : Path) (fs : FS) (w : string)
    (extensions : list string) : option string :=
  match List.find (λ ext, Fs.exists_ fs (REFERENCE_DIR public_dir ++ [w +:+ ext]))
          extensions with
  | Some ext => Some ("/cat_pics/reference/" +:+ PyStr.replace "\" "/" (w +:+ ext))
  | None => None
  end.

(** A directory to prune, the working directory: the three files of the
    example and one file whose name has no minute key. *)
Definition prune_fs : FS :=
  {[ [] := Dir; p060153 := File 1; p060130 := File 2; p060259 := File 3;
     ["notes.txt"] := File 4 ]}.

(** [--root . --strategy oldest --delete], and the same as a dry run. *)
Definition prune_args : Args.t :=
  {| Args.root := []; Args.pattern := "processed_*.jpg";
     Args.strategy := "oldest"; Args.delete := true; Args.log := None |}.

Definition dry_args : Args.t :=
  {| Args.root := []; Args.pattern := "processed_*.jpg";
     Args.strategy := "oldest"; Args.delete := false; Args.log := None |}.

(** * Properties *)

(** ** Strings and paths *)

Lemma string_length_app (s t : string) :
  String.length (s +:+ t) = String.length s + String.length t.
Proof.
  induction s as [|c s IH]; [done|].
  change (S (String.length (s +:+ t)) = S (String.length s + String.length t)).
  by rewrite IH.
Qed.

Lemma string_app_inj_r (t s1 s2 : string) : s1 +:+ t = s2 +:+ t → s1 = s2.
Proof.
  revert s2. induction s1 as [|c s1 IH]; intros [|d s2] E.
  - done.
  - apply (f_equal String.length) in E.
    rewrite !string_length_app in E. simpl in E. lia.
  - apply (f_equal String.length) in E.
    rewrite !string_length_app in E. simpl in E. lia.
  - change (String c (s1 +:+ t) = String d (s2 +:+ t)) in E.
    injection E as -> E. f_equal. by apply IH.
Qed.

Global Instance numbered_name_inj (path : Path) : Inj (=) (=) (numbered_name path).
Proof.
  intros i j E. unfold numbered_name in E.
  apply (inj (String.app _)) in E. apply (inj (String.app _)) in E.
  apply string_app_inj_r in E. unfold PyStr.of_nat in E. by apply (inj pretty).
Qed.

Global Instance numbered_inj (path : Path) : Inj (=) (=) (numbered path).
Proof.
  intros i j E. unfold numbered in E.
  apply app_inj_tail in E as [_ E]. by apply numbered_name_inj in E.
Qed.

Lemma with_name_numbered (path : Path) (i : nat) :
  PyPath.name path ≠ "" →
  PyPath.with_name path (numbered_name path i) = Some (numbered path i).
Proof. intros H. unfold PyPath.with_name. by rewrite bool_decide_eq_false_2. Qed.

Lemma has_char_app (c : ascii) (a b : string) :
  PyStr.has_char c (a +:+ b) = PyStr.has_char c a || PyStr.has_char c b.
Proof.
  induction a as [|x a IH]; [done|].
  change (PyStr.has_char c (String x (a +:+ b))
          = PyStr.has_char c (String x a) || PyStr.has_char c b).
  simpl. rewrite IH. by rewrite orb_assoc.
Qed.

Lemma numbered_name_proper (path : Path) (i : nat) :
  numbered_name path i ≠ "" ∧ PyPath.is_root (numbered_name path i) = false.
Proof.
  assert (PyStr.has_char "_" (numbered_name path i) = true) as H.
  { unfold numbered_name. rewrite has_char_app.
    change ("_" +:+ PyStr.of_nat i +:+ PyPath.suffix path)
      with (String "_" (PyStr.of_nat i +:+ PyPath.suffix path)).
    simpl. apply orb_true_r. }
  split.
  - intros E. by rewrite E in H.
  - unfold PyPath.is_root.
    rewrite !bool_decide_eq_false_2; [done|intros E; by rewrite E in H..].
Qed.

Lemma name_snoc (p : Path) (x : string) :
  PyPath.is_root x = false → PyPath.name (p ++ [x]) = x.
Proof. intros H. unfold PyPath.name. by rewrite last_snoc, H. Qed.

Lemma parent_snoc (p : Path) (x : string) :
  x ≠ "" → PyPath.is_root x = false → PyPath.parent (p ++ [x]) = p.
Proof.
  intros Hx Hr. unfold PyPath.parent. rewrite name_snoc by done.
  rewrite bool_decide_eq_false_2 by done. apply removelast_last.
Qed.

(** The numbered sibling has the name [<stem>_<i><suffix>] and lies in the
    directory of the path. *)
Lemma numbered_form (path : Path) (i : nat) :
  PyPath.name path ≠ "" →
  PyPath.name (numbered path i) =
    PyPath.stem path +:+ "_" +:+ PyStr.of_nat i +:+ PyPath.suffix path ∧
  PyPath.parent (numbered path i) = PyPath.parent path.
Proof.
  intros Hname. destruct (numbered_name_proper path i) as [Hne Hroot].
  unfold numbered. split.
  - by rewrite name_snoc.
  - rewrite parent_snoc by done. unfold PyPath.parent.
    by rewrite bool_decide_eq_false_2.
Qed.

(** ** The file system *)

Lemma exists_true (fs : FS) (p : Path) :
  Fs.exists_ fs p = true ↔ p ∈ dom fs.
Proof. unfold Fs.exists_. by rewrite bool_decide_eq_true, elem_of_dom. Qed.

Lemma exists_false (fs : FS) (p : Path) :
  Fs.exists_ fs p = false ↔ fs !! p = None.
Proof.
  unfold Fs.exists_. rewrite bool_decide_eq_false, <- eq_None_not_Some. done.
Qed.

(** No disk holds more distinct paths than it has entries. *)
Lemma numbered_pigeonhole (fs : FS) (path : Path) (i n : nat) :
  (∀ j, j < n → Fs.exists_ fs (numbered path (i + j)) = true) → n ≤ size fs.
Proof.
  intros H.
  set (L := numbered path <$> seq i n).
  assert (NoDup L) as HL.
  { apply (NoDup_fmap_2 _), NoDup_seq. }
  assert (length L = n) as HLn.
  { unfold L. by rewrite length_fmap, length_seq. }
  rewrite <- HLn, <- (size_list_to_set (C := gset Path) L HL).
  rewrite <- (size_dom (D := gset Path) fs).
  apply subseteq_size. intros q Hq.
  apply elem_of_list_to_set, list_elem_of_fmap in Hq as (k & -> & Hk).
  apply elem_of_seq in Hk. apply exists_true.
  replace k with (i + (k - i)) by lia. apply H. lia.
Qed.

(** ** [_unique_path] *)

Lemma unique_path_loop_spec (fs : FS) (path : Path) (fuel i : nat) :
  PyPath.name path ≠ "" →
  match unique_path_loop fs path fuel i with
  | Ret r =>
      ∃ k, k < fuel ∧ r = numbered path (i + k) ∧ Fs.exists_ fs r = false ∧
           ∀ j, j < k → Fs.exists_ fs (numbered path (i + j)) = true
  | Raise _ => False
  | Diverge => ∀ j, j < fuel → Fs.exists_ fs (numbered path (i + j)) = true
  end.
Proof.
  intros Hname. revert i. induction fuel as [|fuel IH]; intros i; simpl.
  - intros j Hj. lia.
  - rewrite with_name_numbered by done.
    destruct (Fs.exists_ fs (numbered path i)) eqn:E; simpl.
    + specialize (IH (S i)).
      destruct (unique_path_loop fs path fuel (S i)) as [r| |].
      * destruct IH as (k & Hk & -> & Hr & Hbelow).
        exists (S k). split; [lia|]. split; [f_equal; lia|]. split.
        { by replace (i + S k) with (S i + k) in Hr by lia. }
        intros [|j] Hj.
        { by rewrite Nat.add_0_r. }
        replace (i + S j) with (S i + j) by lia. apply Hbelow. lia.
      * done.
      * intros [|j] Hj.
        { by rewrite Nat.add_0_r. }
        replace (i + S j) with (S i + j) by lia. apply IH. lia.
    + exists 0. rewrite Nat.add_0_r. split; [lia|]. split; [done|].
      split; [done|]. intros j Hj. lia.
Qed.

(** The loop of [_unique_path] returns: the fuel [_unique_path] gives it is
    never used up. *)
Lemma unique_path_loop_terminates (fs : FS) (path : Path) :
  unique_path_loop fs path (S (size fs)) 1 ≠ Diverge.
Proof.
  intros E. destruct (decide (PyPath.name path = "")) as [Hn|Hn].
  - simpl in E. unfold PyPath.with_name in E.
    by rewrite bool_decide_eq_true_2 in E.
  - pose proof (unique_path_loop_spec fs path (S (size fs)) 1 Hn) as H.
    rewrite E in H. apply numbered_pigeonhole in H. lia.
Qed.

Lemma unique_path_not_diverge (fs : FS) (path : Path) :
  _unique_path fs path ≠ Diverge.
Proof.
  unfold _unique_path. destruct (Fs.exists_ fs path); simpl; [|done].
  apply unique_path_loop_terminates.
Qed.

Lemma unique_path_occupied (fs : FS) (path : Path) :
  PyPath.name path ≠ "" → Fs.exists_ fs path = true →
  ∃ n, 1 ≤ n ∧ _unique_path fs path = Ret (numbered path n) ∧
       Fs.exists_ fs (numbered path n) = false ∧
       ∀ m, 1 ≤ m < n → Fs.exists_ fs (numbered path m) = true.
Proof.
  intros Hn He. unfold _unique_path. rewrite He. simpl negb. cbv iota.
  pose proof (unique_path_loop_spec fs path (S (size fs)) 1 Hn) as H.
  pose proof (unique_path_loop_terminates fs path) as Ht.
  destruct (unique_path_loop fs path (S (size fs)) 1) as [r| |]; [|done..].
  destruct H as (k & Hk & -> & Hr & Hbelow).
  exists (1 + k). split; [lia|]. split; [done|]. split; [done|].
  intros m Hm. replace m with (1 + (m - 1)) by lia. apply Hbelow. lia.
Qed.

Lemma unique_path_fresh (fs : FS) (path r : Path) :
  _unique_path fs path = Ret r → Fs.exists_ fs r = false.
Proof.
  unfold _unique_path. destruct (Fs.exists_ fs path) eqn:He; simpl negb; cbv iota.
  - intros E. destruct (decide (PyPath.name path = "")) as [Hn|Hn].
    + simpl in E. unfold PyPath.with_name in E.
      by rewrite bool_decide_eq_true_2 in E.
    + pose proof (unique_path_loop_spec fs path (S (size fs)) 1 Hn) as H.
      rewrite E in H. by destruct H as (k & _ & _ & Hr & _).
  - by intros [= <-].
Qed.

Lemma exists_insert (fs : FS) (p q : Path) (n : node) :
  Fs.exists_ (<[q := n]> fs) p = bool_decide (p = q) || Fs.exists_ fs p.
Proof.
  unfold Fs.exists_. destruct (decide (p = q)) as [->|Hne].
  - rewrite lookup_insert_eq. rewrite (bool_decide_eq_true_2 (q = q)) by done.
    rewrite bool_decide_eq_true_2 by eauto. done.
  - rewrite lookup_insert_ne by done. by rewrite (bool_decide_eq_false_2 (p = q)).
Qed.

Lemma successive_from (fs : FS) (path : Path) (N lo : nat) :
  PyPath.name path ≠ "" → Fs.exists_ fs path = true → 1 ≤ lo →
  (∀ m, 1 ≤ m < lo → Fs.exists_ fs (numbered path m) = true) →
  ∃ ns, length ns = N ∧
        successive fs path N = (λ n, Ret (numbered path n)) <$> ns ∧
        Forall (λ n, lo ≤ n) ns ∧ StronglySorted lt ns ∧
        ((∀ m, lo ≤ m → Fs.exists_ fs (numbered path m) = false) →
         ns = seq lo N).
Proof.
  intros Hname. revert fs lo. induction N as [|N IH]; intros fs lo He Hlo Hbelow.
  { exists []. repeat split; constructor. }
  destruct (unique_path_occupied fs path Hname He) as (n & Hn & Eq & Hfree & Hocc).
  assert (lo ≤ n) as Hlon.
  { destruct (decide (lo ≤ n)); [done|]. rewrite Hbelow in Hfree by lia. done. }
  destruct (IH (<[numbered path n := File 0]> fs) (S n)) as (ns & Hlen & Hs & Hge & Hsorted & Hseq).
  - rewrite exists_insert, He. apply orb_true_r.
  - lia.
  - intros m Hm. rewrite exists_insert. destruct (decide (m = n)) as [->|Hne].
    + by rewrite bool_decide_eq_true_2.
    + rewrite Hocc by lia. apply orb_true_r.
  - exists (n :: ns). split; [simpl; lia|]. split.
    { simpl. rewrite Eq. by rewrite Hs. }
    split.
    { constructor; [done|]. eapply Forall_impl; [exact Hge|]. simpl. lia. }
    split.
    { constructor; [done|]. eapply Forall_impl; [exact Hge|]. simpl. lia. }
    intros Hall. assert (n = lo) as ->.
    { destruct (decide (n = lo)); [done|].
      pose proof (Hocc lo ltac:(lia)) as H1.
      pose proof (Hall lo ltac:(lia)) as H2. congruence. }
    simpl. f_equal. apply Hseq. intros m Hm. rewrite exists_insert.
    rewrite Hall by lia. rewrite bool_decide_eq_false_2; [done|].
    intros E%(inj (numbered path)). lia.
Qed.

(** C5. [_unique_path] returns the candidate itself when nothing occupies it;
    otherwise the sibling numbered [n], named [<stem>_<n><suffix>] in the
    same directory, for the least [n >= 1] whose sibling is unoccupied.  What it returns does not exist at call time, and [N]
    requests in a row for an occupied candidate, each result being taken
    before the next request, return [N] distinct siblings with increasing
    numbers: [_1], [_2], ... [_N] when none of the numbered siblings was
    there before.  The candidate is a path that has a file name. *)
Theorem unique_path_spec (fs : FS) (path : Path) :
  PyPath.name path ≠ "" →
  (Fs.exists_ fs path = false → _unique_path fs path = Ret path) ∧
  (Fs.exists_ fs path = true →
   ∃ n, 1 ≤ n ∧ _unique_path fs path = Ret (numbered path n) ∧
        Fs.exists_ fs (numbered path n) = false ∧
        ∀ m, 1 ≤ m < n → Fs.exists_ fs (numbered path m) = true) ∧
  (∀ n, PyPath.name (numbered path n) =
          PyPath.stem path +:+ "_" +:+ PyStr.of_nat n +:+ PyPath.suffix path ∧
        PyPath.parent (numbered path n) = PyPath.parent path) ∧
  (∀ r, _unique_path fs path = Ret r → Fs.exists_ fs r = false) ∧
  (Fs.exists_ fs path = true →
   ∀ N, ∃ ns, length ns = N ∧
        successive fs path N = (λ n, Ret (numbered path n)) <$> ns ∧
        Forall (λ n, 1 ≤ n) ns ∧ StronglySorted lt ns ∧
        NoDup (numbered path <$> ns) ∧
        ((∀ m, 1 ≤ m → Fs.exists_ fs (numbered path m) = false) →
         ns = seq 1 N)).
Proof.
  intros Hname. split; [|split; [|split; [|split]]].
  - intros He. unfold _unique_path. by rewrite He.
  - by apply unique_path_occupied.
  - intros n. by apply numbered_form.
  - apply unique_path_fresh.
  - intros He N.
    destruct (successive_from fs path N 1 Hname He) as (ns & ? & ? & ? & Hs & ?);
      [lia | intros m Hm; lia |].
    exists ns. repeat split; try done.
    apply (NoDup_fmap_2 _). clear -Hs. induction Hs as [|n ns _ IH Hn].
    + constructor.
    + constructor; [|done]. intros Hin.
      rewrite Forall_forall in Hn. specialize (Hn n Hin). lia.
Qed.

Lemma unique_path_spec_witness :
  PyPath.name ["/"; "t"; "a.jpg"] ≠ "" ∧
  ∃ n, 1 ≤ n ∧
       _unique_path taken_fs ["/"; "t"; "a.jpg"] = Ret (numbered ["/"; "t"; "a.jpg"] n) ∧
       Fs.exists_ taken_fs (numbered ["/"; "t"; "a.jpg"] n) = false ∧
       ∀ m, 1 ≤ m < n → Fs.exists_ taken_fs (numbered ["/"; "t"; "a.jpg"] m) = true.
Proof.
  split; [by vm_compute|].
  apply (unique_path_spec taken_fs ["/"; "t"; "a.jpg"]); by vm_compute.
Defined.

(** ** [undo] *)

Lemma unique_path_raise (fs : FS) (path : Path) (e : exn) :
  _unique_path fs path = Raise e → e = ValueError.
Proof.
  unfold _unique_path. destruct (Fs.exists_ fs path); simpl negb; cbv iota; [|done].
  generalize 1. induction (S (size fs)) as [|fuel IH]; intros i; simpl; [done|].
  destruct (PyPath.with_name path (numbered_name path i)) as [c|]; [|congruence].
  destruct (Fs.exists_ fs c); simpl; [apply IH | done].
Qed.

Lemma undo_scan_none (st : state) (req_image_id : string) (n : nat) :
  n ≤ length (MOVE_HISTORY st) →
  (∀ j m, j < n → MOVE_HISTORY st !! j = Some m → image_id m ≠ req_image_id) →
  undo_scan st req_image_id n = (Raise NoSuchMove, st).
Proof.
  induction n as [|n IH]; intros Hn Hno; simpl; [done|].
  destruct (lookup_lt_is_Some_2 (MOVE_HISTORY st) n) as [m Hm]; [lia|].
  rewrite Hm. destruct (decide (image_id m = req_image_id)) as [E|_].
  - exfalso. apply (Hno n m); [lia|done..].
  - apply IH; [lia|]. intros j m' Hj. apply Hno. lia.
Qed.

Lemma undo_scan_latest (st : state) (req_image_id : string) (n i : nat)
    (m : move_record) :
  i < n → n ≤ length (MOVE_HISTORY st) →
  latest (MOVE_HISTORY st) req_image_id i m →
  undo_scan st req_image_id n = undo_record st i m.
Proof.
  intros Hi Hn (Hm & Hid & Hlater). induction n as [|n IH]; [lia|]. simpl.
  destruct (decide (i = n)) as [->|Hne].
  - rewrite Hm. by rewrite decide_True.
  - destruct (MOVE_HISTORY st !! n) as [m'|] eqn:En.
    + rewrite decide_False; [apply IH; lia|]. apply (Hlater n); [lia|done].
    + apply lookup_ge_None in En. lia.
Qed.

(** Either the history has no entry for the reference below [n], or it has a
    most recent one there. *)
Lemma latest_below (history : list move_record) (req_image_id : string) (n : nat) :
  n ≤ length history →
  (∀ j m, j < n → history !! j = Some m → image_id m ≠ req_image_id) ∨
  (∃ i m, i < n ∧ history !! i = Some m ∧ image_id m = req_image_id ∧
          ∀ j m', i < j < n → history !! j = Some m' → image_id m' ≠ req_image_id).
Proof.
  induction n as [|n IH]; intros Hn.
  { left. intros j m Hj. lia. }
  destruct (lookup_lt_is_Some_2 history n) as [m Hm]; [lia|].
  destruct (decide (image_id m = req_image_id)) as [E|Hne].
  - right. exists n, m. repeat split; [lia|done..|]. intros j m' Hj. lia.
  - destruct IH as [Hno|(i & m0 & Hi & Hm0 & Hid & Hlater)]; [lia|..].
    + left. intros j m' Hj Hm'. destruct (decide (j = n)) as [->|].
      * congruence.
      * apply (Hno j); [lia|done].
    + right. exists i, m0. repeat split; [lia|done..|].
      intros j m' Hj Hm'. destruct (decide (j = n)) as [->|].
      * congruence.
      * apply (Hlater j); [lia|done].
Qed.

Lemma latest_or_none (history : list move_record) (req_image_id : string) :
  (∀ m, m ∈ history → image_id m ≠ req_image_id) ∨
  (∃ i m, latest history req_image_id i m).
Proof.
  destruct (latest_below history req_image_id (length history)) as
    [Hno|(i & m & Hi & Hm & Hid & Hlater)]; [done|..].
  - left. intros m (j & Hj)%list_elem_of_lookup. apply (Hno j); [|done].
    by apply lookup_lt_Some in Hj.
  - right. exists i, m. repeat split; [done..|]. intros j m' Hj Hm'.
    apply (Hlater j); [|done]. apply lookup_lt_Some in Hm'. lia.
Qed.

Lemma undo_record_outcome (st : state) (i : nat) (m : move_record) :
  (undo_record st i m).1 ≠ Raise NoSuchMove.
Proof.
  unfold undo_record. destruct (Fs.exists_ (fs st) (new_path m)); [|done].
  destruct (Fs.mkdir (fs st) (PyPath.parent (original_path m))) as [fs1|]; [|done].
  destruct (Fs.exists_ fs1 (original_path m)); simpl negb; cbv iota.
  - destruct (_unique_path fs1 (original_path m)) as [r|e|] eqn:E.
    + by destruct (Fs.move fs1 (new_path m) r).
    + apply unique_path_raise in E as ->. done.
    + done.
  - by destruct (Fs.move fs1 (new_path m) (original_path m)).
Qed.

(** [undo] either finds no entry for the reference and raises, the state
    untouched, or runs the body of its loop on the most recent one. *)
Lemma undo_cases (st : state) (req_image_id : string) :
  ((∀ m, m ∈ MOVE_HISTORY st → image_id m ≠ req_image_id) ∧
   undo st req_image_id = (Raise NoSuchMove, st)) ∨
  (∃ i m, latest (MOVE_HISTORY st) req_image_id i m ∧
          undo st req_image_id = undo_record st i m).
Proof.
  destruct (latest_or_none (MOVE_HISTORY st) req_image_id) as [Hno|(i & m & Hl)].
  - left. split; [done|]. apply undo_scan_none; [done|].
    intros j m _ Hm. apply Hno, list_elem_of_lookup. eauto.
  - right. exists i, m. split; [done|]. apply undo_scan_latest; [|done..].
    destruct Hl as (Hm & _). by apply lookup_lt_Some in Hm.
Qed.

(** C1, as the code has it.  [undo] fails with [NoSuchMove] exactly when the
    history holds no entry for the reference, and then it leaves the state as
    it was.  When the most recent entry for the reference records a new
    location that is no longer on disk, [undo] does not fail: it moves
    nothing, removes that entry and answers with the recorded original
    location. *)
Theorem undo_no_such_move (st : state) (req_image_id : string) :
  ((undo st req_image_id).1 = Raise NoSuchMove ↔
   ∀ m, m ∈ MOVE_HISTORY st → image_id m ≠ req_image_id) ∧
  ((undo st req_image_id).1 = Raise NoSuchMove → (undo st req_image_id).2 = st) ∧
  (∀ i m, latest (MOVE_HISTORY st) req_image_id i m →
          Fs.exists_ (fs st) (new_path m) = false →
          undo st req_image_id =
            (Ret {| restored_to := PyPath.to_str (original_path m) |},
             {| fs := fs st; MOVE_HISTORY := delete i (MOVE_HISTORY st) |})).
Proof.
  destruct (undo_cases st req_image_id) as [[Hno E]|(i & m & Hl & E)].
  - rewrite E. repeat split; try done.
    intros i m (Hm & Hid & _). destruct (Hno m); [|done].
    apply list_elem_of_lookup. eauto.
  - rewrite E. split; [split|split].
    + intros H. by destruct (undo_record_outcome st i m).
    + intros Hno. destruct Hl as (Hm & Hid & _). destruct (Hno m); [|done].
      apply list_elem_of_lookup. eauto.
    + intros H. by destruct (undo_record_outcome st i m).
    + intros i' m' Hl' Hgone.
      assert (i' = i ∧ m' = m) as [-> ->].
      { destruct Hl as (Hm & Hid & Hlater), Hl' as (Hm' & Hid' & Hlater').
        destruct (Nat.lt_trichotomy i i') as [Hlt|[->|Hgt]].
        - by destruct (Hlater i' m').
        - split; congruence.
        - by destruct (Hlater' i m). }
      unfold undo_record. by rewrite Hgone.
Qed.

Lemma undo_no_such_move_witness :
  latest (MOVE_HISTORY stale_state) "u|/p/a.jpg" 0
    {| image_id := "u|/p/a.jpg"; original_path := ["/"; "p"; "a.jpg"];
       new_path := ["/"; "c"; "a.jpg"] |} ∧
  Fs.exists_ (fs stale_state) ["/"; "c"; "a.jpg"] = false ∧
  undo stale_state "u|/p/a.jpg" =
    (Ret {| restored_to := "/p/a.jpg" |},
     {| fs := fs stale_state; MOVE_HISTORY := [] |}).
Proof.
  assert (latest (MOVE_HISTORY stale_state) "u|/p/a.jpg" 0
    {| image_id := "u|/p/a.jpg"; original_path := ["/"; "p"; "a.jpg"];
       new_path := ["/"; "c"; "a.jpg"] |}) as Hl.
  { repeat split. intros [|j] m' Hj Hm'; [lia|done]. }
  split; [exact Hl|]. split; [by vm_compute|].
  destruct (undo_no_such_move stale_state "u|/p/a.jpg") as (_ & _ & H).
  apply (H 0 _ Hl). by vm_compute.
Defined.

(** C1 as the specification words it fails on [stale_state]: the most recent entry
    for the reference records a new location that is not on disk, yet [undo]
    reports success and the entry is gone from the history. *)
Lemma undo_stale_record_succeeds :
  latest (MOVE_HISTORY stale_state) "u|/p/a.jpg" 0
    {| image_id := "u|/p/a.jpg"; original_path := ["/"; "p"; "a.jpg"];
       new_path := ["/"; "c"; "a.jpg"] |} ∧
  Fs.exists_ (fs stale_state) ["/"; "c"; "a.jpg"] = false ∧
  (undo stale_state "u|/p/a.jpg").1 ≠ Raise NoSuchMove ∧
  MOVE_HISTORY (undo stale_state "u|/p/a.jpg").2 ≠ MOVE_HISTORY stale_state.
Proof.
  split; [|split; [|split]].
  - repeat split. intros [|j] m' Hj Hm'; [lia|done].
  - by vm_compute.
  - by vm_compute.
  - by vm_compute.
Qed.

(** A successful [undo] ran the body of its loop on the most recent entry for
    the reference, removed that entry alone and answered with the original
    location it records. *)
Lemma undo_success (st st' : state) (req_image_id : string) (u : undone) :
  undo st req_image_id = (Ret u, st') →
  ∃ i m, latest (MOVE_HISTORY st) req_image_id i m ∧
         MOVE_HISTORY st' = delete i (MOVE_HISTORY st) ∧
         restored_to u = PyPath.to_str (original_path m).
Proof.
  destruct (undo_cases st req_image_id) as [[_ E]|(i & m & Hl & E)];
    rewrite E; [done|].
  intros H. exists i, m. split; [done|]. revert H. unfold undo_record.
  destruct (Fs.exists_ (fs st) (new_path m)); [|by intros [= <- <-]].
  destruct (Fs.mkdir (fs st) (PyPath.parent (original_path m))) as [fs1|]; [|done].
  destruct (if negb (Fs.exists_ fs1 (original_path m)) then Ret (original_path m)
            else _unique_path fs1 (original_path m)) as [r|e|]; [|done..].
  destruct (Fs.move fs1 (new_path m) r); [|done]. by intros [= <- <-].
Qed.

(** C4, as the code has it.  A successful [undo] removes exactly the entry
    it reversed, the most recent one for the reference (the other entries,
    also those for the same reference, stay), and answers with the original
    location that entry records.  On [collision_state], where the original
    location is occupied again, the file is restored to the numbered sibling
    [a_1.jpg] while the answer still names [a.jpg]. *)
Theorem undo_answers_recorded_original :
  (∀ st st' req_image_id u,
     undo st req_image_id = (Ret u, st') →
     ∃ i m, latest (MOVE_HISTORY st) req_image_id i m ∧
            MOVE_HISTORY st' = delete i (MOVE_HISTORY st) ∧
            restored_to u = PyPath.to_str (original_path m)) ∧
  let r := undo collision_state "u|/pub/cat_pics/f/cats/a.jpg" in
  r.1 = Ret {| restored_to := "/pub/cat_pics/f/cats/a.jpg" |} ∧
  fs r.2 !! ["/"; "pub"; "cat_pics"; "f"; "cats"; "a_1.jpg"] = Some (File 1) ∧
  fs r.2 !! ["/"; "pub"; "cat_pics"; "f"; "cats"; "a.jpg"] = Some (File 7) ∧
  fs r.2 !! ["/"; "pub"; "cat_pics"; "classified"; "unknown"; "a.jpg"] = None ∧
  MOVE_HISTORY r.2 = [].
Proof.
  split.
  - intros st st' req_image_id u. apply undo_success.
  - by vm_compute.
Qed.

(** ** Paths below the public directory *)

Lemma split_no_sep (sep : ascii) (s : string) :
  Forall (λ w, PyStr.has_char sep w = false) (PyStr.split sep s).
Proof.
  induction s as [|c s IH]; simpl.
  - by repeat constructor.
  - destruct (decide (c = sep)) as [->|Hne].
    + by constructor.
    + destruct (PyStr.split sep s) as [|w ws].
      * constructor; [|done]. simpl. by rewrite bool_decide_eq_false_2.
      * inversion IH as [|? ? Hw Hws]; subst. constructor; [|done]. simpl.
        by rewrite Hw, bool_decide_eq_false_2.
Qed.

Lemma no_slash_not_root (w : string) :
  PyStr.has_char "/" w = false → PyPath.is_root w = false.
Proof.
  intros H. unfold PyPath.is_root.
  rewrite !bool_decide_eq_false_2; [done|intros ->; done..].
Qed.

Lemma no_slash_root_of (w : string) :
  PyStr.has_char "/" w = false → PyPath.root_of w = None.
Proof.
  intros H. unfold PyPath.root_of. destruct w as [|c w]; [done|].
  simpl in H. apply orb_false_iff in H as [H%bool_decide_eq_false _].
  change (PyStr.startswith "/" (String c w))
    with (bool_decide ("/"%char = c) && true).
  by rewrite bool_decide_eq_false_2.
Qed.

Lemma of_str_parts (s : string) :
  Forall (λ w, PyStr.has_char "/" w = false)
         (List.filter PyPath.keep_part (PyStr.split "/" s)).
Proof.
  apply Forall_forall. intros w Hw%list_elem_of_In%filter_In.
  destruct Hw as [Hw%list_elem_of_In _].
  by apply (proj1 (Forall_forall _ _) (split_no_sep "/" s)).
Qed.

Lemma of_str_relative (w : string) :
  PyPath.root_of w = None → PyPath.is_absolute (PyPath.of_str w) = false.
Proof.
  intros H. unfold PyPath.of_str. rewrite H. pose proof (of_str_parts w) as Hp.
  destruct (List.filter PyPath.keep_part (PyStr.split "/" w)) as [|x xs]; [done|].
  inversion Hp; subst. by apply no_slash_not_root.
Qed.

Lemma name_no_slash (s : string) :
  PyStr.has_char "/" (PyPath.name (PyPath.of_str s)) = false.
Proof.
  unfold PyPath.name. destruct (last (PyPath.of_str s)) as [part|] eqn:E; [|done].
  destruct (PyPath.is_root part) eqn:Hr; [done|].
  apply last_Some_elem_of in E. unfold PyPath.of_str in E.
  pose proof (of_str_parts s) as Hp. rewrite Forall_forall in Hp.
  destruct (PyPath.root_of s) as [r|] eqn:Er; [|by apply Hp].
  apply elem_of_cons in E as [->|E]; [|by apply Hp].
  unfold PyPath.root_of in Er.
  destruct (negb (PyStr.startswith "/" s)); [done|].
  destruct (negb (PyStr.startswith "//" s) || PyStr.startswith "///" s);
    by injection Er as <-.
Qed.

Lemma joinpath_relative (p : Path) (w : string) :
  PyPath.root_of w = None → p // w = p ++ PyPath.of_str w.
Proof.
  intros H. unfold PyPath.joinpath, PyPath.join. by rewrite of_str_relative.
Qed.

Lemma relative_to_app (p q : Path) : PyPath.relative_to (p ++ q) p = Some q.
Proof.
  induction p as [|x p IH]; simpl; [by destruct q|]. by rewrite decide_True.
Qed.

Lemma parent_ROOT (public_dir : Path) : PyPath.parent (ROOT public_dir) = public_dir.
Proof.
  unfold ROOT. rewrite joinpath_relative by done.
  change (PyPath.of_str "cat_pics") with ["cat_pics"].
  unfold PyPath.parent, PyPath.name. rewrite last_snoc. simpl.
  by rewrite removelast_last.
Qed.

Lemma CLASSIFIED_ROOT_eq (public_dir : Path) :
  CLASSIFIED_ROOT public_dir = public_dir ++ ["cat_pics"; "classified"].
Proof.
  unfold CLASSIFIED_ROOT, ROOT. rewrite !joinpath_relative by done.
  by rewrite <- app_assoc.
Qed.

Lemma unique_path_ret (fs : FS) (path r : Path) :
  _unique_path fs path = Ret r → r = path ∨ ∃ n, r = numbered path n.
Proof.
  intros E. destruct (Fs.exists_ fs path) eqn:He.
  - right. destruct (decide (PyPath.name path = "")) as [Hn|Hn].
    + unfold _unique_path in E. rewrite He in E. simpl in E.
      unfold PyPath.with_name in E. by rewrite bool_decide_eq_true_2 in E.
    + destruct (unique_path_occupied fs path Hn He) as (n & _ & E' & _).
      exists n. congruence.
  - left. unfold _unique_path in E. rewrite He in E. simpl in E. congruence.
Qed.

(** What [classify] picks as the target lies below the public directory, so
    the [relative_to] of its answer does not raise. *)
Lemma target_below_public (public_dir : Path) (fs : FS) (cat s : string) (t : Path) :
  plain_name cat →
  _unique_path fs (CLASSIFIED_ROOT public_dir // cat // PyPath.name (PyPath.of_str s))
    = Ret t →
  ∃ rel, PyPath.relative_to t (PyPath.parent (ROOT public_dir)) = Some rel.
Proof.
  intros Hcat E. rewrite parent_ROOT. rewrite CLASSIFIED_ROOT_eq in E.
  rewrite (joinpath_relative _ cat) in E by done.
  rewrite joinpath_relative in E by apply no_slash_root_of, name_no_slash.
  rewrite <- !app_assoc in E.
  apply unique_path_ret in E as [->|[n ->]].
  - eexists. apply relative_to_app.
  - unfold numbered. rewrite removelast_app by done.
    rewrite <- app_assoc. eexists. apply relative_to_app.
Qed.

(** ** [classify] *)

Lemma valid_category_plain (CAT_NAMES : list string) (cat : string) :
  Forall plain_name CAT_NAMES → cat ∈ VALID_CATEGORIES CAT_NAMES → plain_name cat.
Proof.
  intros Hall Hin. unfold VALID_CATEGORIES in Hin.
  apply elem_of_list_to_set, elem_of_app in Hin as [Hin|Hin].
  - by apply (proj1 (Forall_forall _ _) Hall).
  - unfold SPECIAL_CATEGORIES in Hin.
    repeat (apply elem_of_cons in Hin as [->|Hin]; [done|]).
    by apply elem_of_nil in Hin.
Qed.

(** No failure of [classify] leaves a new entry in the history. *)
Lemma classify_failure_keeps_history (public_dir : Path) (CAT_NAMES : list string)
    (st st' : state) (req_image_id req_category : string) (e : exn) :
  Forall plain_name CAT_NAMES →
  classify public_dir CAT_NAMES st req_image_id req_category = (Raise e, st') →
  MOVE_HISTORY st' = MOVE_HISTORY st.
Proof.
  intros Hplain. unfold classify.
  destruct (decide (req_category ∈ VALID_CATEGORIES CAT_NAMES)) as [Hv|Hv].
  2: { rewrite bool_decide_eq_false_2 by done. by intros [= _ <-]. }
  rewrite bool_decide_eq_true_2 by done. simpl negb. cbv iota.
  destruct (PyStr.split_once "|" req_image_id) as [[u s]|]; [|by intros [= _ <-]].
  destruct (Fs.exists_ (fs st) (PyPath.of_str s)); simpl negb; cbv iota;
    [|by intros [= _ <-]].
  destruct (Fs.mkdir (fs st) (CLASSIFIED_ROOT public_dir // req_category))
    as [fs1|]; [|by intros [= _ <-]].
  destruct (_unique_path fs1 _) as [t| |] eqn:Et; [|by intros [= _ <-]|done].
  destruct (Fs.move fs1 (PyPath.of_str s) t) as [fs2|]; [|by intros [= _ <-]].
  destruct (target_below_public public_dir fs1 req_category s t) as [rel ->];
    [by eapply valid_category_plain|done|done].
Qed.

(** C9.  For a valid category and a reference that decodes to a location
    that is not on disk, [classify] fails with [SourceNotFound] and the state,
    the history with it, is what it was before the call.  More generally no
    failure of [classify] appends to the history (the category names being
    plain names, as names made from file stems are). *)
Theorem classify_source_not_found (public_dir : Path) (CAT_NAMES : list string)
    (st : state) (req_image_id req_category uuid_part orig_path_str : string) :
  req_category ∈ VALID_CATEGORIES CAT_NAMES →
  PyStr.split_once "|" req_image_id = Some (uuid_part, orig_path_str) →
  Fs.exists_ (fs st) (PyPath.of_str orig_path_str) = false →
  classify public_dir CAT_NAMES st req_image_id req_category
    = (Raise SourceNotFound, st) ∧
  (Forall plain_name CAT_NAMES →
   ∀ st0 st' image_id' category' e,
     classify public_dir CAT_NAMES st0 image_id' category' = (Raise e, st') →
     MOVE_HISTORY st' = MOVE_HISTORY st0).
Proof.
  intros Hv Hs He. split.
  - unfold classify. rewrite bool_decide_eq_true_2 by done. simpl negb. cbv iota.
    by rewrite Hs, He.
  - intros Hplain st0 st' image_id' category' e.
    by apply classify_failure_keeps_history.
Qed.

Lemma classify_source_not_found_witness :
  "unknown" ∈ VALID_CATEGORIES ["milo"] ∧
  PyStr.split_once "|" "u|/pub/cat_pics/f/cats/gone.jpg"
    = Some ("u", "/pub/cat_pics/f/cats/gone.jpg") ∧
  Fs.exists_ (fs collision_state) (PyPath.of_str "/pub/cat_pics/f/cats/gone.jpg")
    = false ∧
  classify ["/"; "pub"] ["milo"] collision_state
    "u|/pub/cat_pics/f/cats/gone.jpg" "unknown"
    = (Raise SourceNotFound, collision_state).
Proof.
  assert ("unknown" ∈ VALID_CATEGORIES ["milo"]) as Hv by (by vm_compute).
  split; [exact Hv|]. split; [by vm_compute|]. split; [by vm_compute|].
  apply (classify_source_not_found ["/"; "pub"] ["milo"] collision_state
           "u|/pub/cat_pics/f/cats/gone.jpg" "unknown" "u"
           "/pub/cat_pics/f/cats/gone.jpg" Hv); by vm_compute.
Defined.

(** ** Directories *)

Lemma mkdir_from_noop (fs : FS) (above : Path) (parts : list string) :
  Forall (λ q, fs !! q = Some Dir) (Fs.prefixes_from above parts) →
  Fs.mkdir_from fs above parts = Some fs.
Proof.
  revert above. induction parts as [|part parts IH]; intros above H; simpl; [done|].
  simpl in H. inversion H as [|? ? Hq Hrest]; subst. rewrite Hq. by apply IH.
Qed.

Lemma mkdir_from_keeps (fs fs' : FS) (above : Path) (parts : list string)
    (q : Path) (n : node) :
  Fs.mkdir_from fs above parts = Some fs' → fs !! q = Some n → fs' !! q = Some n.
Proof.
  revert fs above. induction parts as [|part parts IH]; intros fs above; simpl.
  { by intros [= <-]. }
  destruct (fs !! (above ++ [part])) as [[c|]|] eqn:E; [done|by apply IH|].
  intros Hm Hq. eapply IH; [exact Hm|].
  rewrite lookup_insert_ne; [done|]. intros <-. congruence.
Qed.

Lemma prefixes_from_whole (above : Path) (parts : list string) :
  parts ≠ [] → above ++ parts ∈ Fs.prefixes_from above parts.
Proof.
  revert above. induction parts as [|part parts IH]; intros above Hne; [done|].
  simpl. destruct parts as [|part' parts].
  - left.
  - right. replace (above ++ part :: part' :: parts)
      with ((above ++ [part]) ++ part' :: parts) by by rewrite <- app_assoc.
    by apply IH.
Qed.

(** On a well-formed disk, the directory that holds an entry with a name is
    there, and so are the directories [mkdir] would walk through to reach
    it. *)
Lemma wf_parent (fs : FS) (p : Path) (n : node) :
  Fs.wf fs → fs !! p = Some n → PyPath.name p ≠ "" →
  fs !! PyPath.parent p = Some Dir ∧
  Forall (λ q, fs !! q = Some Dir) (Fs.prefixes_from [] (PyPath.parent p)).
Proof.
  intros Hwf Hp Hname. destruct (Hwf p n Hp) as [_ Hanc].
  unfold PyPath.parent. rewrite bool_decide_eq_false_2 by done.
  unfold Fs.ancestors in Hanc. apply Forall_app in Hanc as [Hcwd Hpre].
  split; [|done]. destruct (decide (removelast p = [])) as [E|Hne].
  - rewrite E. destruct p as [|x [|y p]]; [done| |done].
    unfold PyPath.name in Hname. simpl in Hname, Hcwd.
    destruct (PyPath.is_root x); [done|]. by inversion Hcwd.
  - rewrite Forall_forall in Hpre. apply Hpre.
    by apply (prefixes_from_whole [] (removelast p)).
Qed.

Lemma wf_file_name (fs : FS) (p : Path) (c : nat) :
  Fs.wf fs → fs !! p = Some (File c) → PyPath.name p ≠ "".
Proof.
  intros Hwf Hp Hname. destruct (Hwf p _ Hp) as [H _]. by specialize (H Hname).
Qed.

(** ** [classify] followed by [undo] *)

Lemma delete_snoc {A} (l : list A) (x : A) : delete (length l) (l ++ [x]) = l.
Proof. induction l as [|y l IH]; simpl; [done|]. by rewrite IH. Qed.

(** What a successful [classify] did. *)
Lemma classify_success (public_dir : Path) (CAT_NAMES : list string)
    (st st1 : state) (req_image_id req_category : string) (r : classified) :
  classify public_dir CAT_NAMES st req_image_id req_category = (Ret r, st1) →
  ∃ u s fs1 t n,
    req_category ∈ VALID_CATEGORIES CAT_NAMES ∧
    PyStr.split_once "|" req_image_id = Some (u, s) ∧
    Fs.mkdir (fs st) (CLASSIFIED_ROOT public_dir // req_category) = Some fs1 ∧
    _unique_path fs1
      (CLASSIFIED_ROOT public_dir // req_category // PyPath.name (PyPath.of_str s))
      = Ret t ∧
    fs1 !! t = None ∧ fs1 !! PyPath.of_str s = Some n ∧
    fs st1 = <[t := n]> (delete (PyPath.of_str s) fs1) ∧
    MOVE_HISTORY st1 = MOVE_HISTORY st ++
      [{| image_id := req_image_id; original_path := PyPath.of_str s;
          new_path := t |}].
Proof.
  unfold classify.
  destruct (decide (req_category ∈ VALID_CATEGORIES CAT_NAMES)) as [Hv|Hv].
  2: { by rewrite bool_decide_eq_false_2. }
  rewrite bool_decide_eq_true_2 by done. simpl negb. cbv iota.
  destruct (PyStr.split_once "|" req_image_id) as [[u s]|]; [|done].
  destruct (Fs.exists_ (fs st) (PyPath.of_str s)); simpl negb; cbv iota; [|done].
  destruct (Fs.mkdir (fs st) (CLASSIFIED_ROOT public_dir // req_category))
    as [fs1|]; [|done].
  destruct (_unique_path fs1 _) as [t| |] eqn:Et; [|done..].
  pose proof (unique_path_fresh _ _ _ Et) as Hfresh. apply exists_false in Hfresh.
  unfold Fs.move.
  destruct (fs1 !! PyPath.of_str s) as [n|] eqn:Es; [|done].
  assert (Fs.is_dir fs1 t = false) as ->.
  { unfold Fs.is_dir. rewrite Hfresh. by apply bool_decide_eq_false_2. }
  simpl andb. cbv iota.
  destruct (Fs.is_dir fs1 (PyPath.parent t)); [|done].
  destruct (PyPath.relative_to t (PyPath.parent (ROOT public_dir))); [|done].
  intros [= _ <-]. by exists u, s, fs1, t, n.
Qed.

(** [undo] right after a successful [classify] of a regular file, on a
    well-formed disk. *)
Lemma undo_after_classify (public_dir : Path) (CAT_NAMES : list string)
    (st st1 : state) (req_image_id req_category u s : string) (c : nat)
    (r : classified) :
  Fs.wf (fs st) →
  PyStr.split_once "|" req_image_id = Some (u, s) →
  fs st !! PyPath.of_str s = Some (File c) →
  classify public_dir CAT_NAMES st req_image_id req_category = (Ret r, st1) →
  ∃ fs1 t,
    Fs.mkdir (fs st) (CLASSIFIED_ROOT public_dir // req_category) = Some fs1 ∧
    fs1 !! PyPath.of_str s = Some (File c) ∧
    fs st1 !! PyPath.of_str s = None ∧ fs st1 !! t = Some (File c) ∧
    fs st !! t = None ∧
    undo st1 req_image_id =
      (Ret {| restored_to := PyPath.to_str (PyPath.of_str s) |},
       {| fs := fs1; MOVE_HISTORY := MOVE_HISTORY st |}).
Proof.
  intros Hwf Hs Hfile Hc.
  apply classify_success in Hc
    as (u' & s' & fs1 & t & n & Hv & Hs' & Hmk & Hu & Ht & Hsrc & Hfs & Hh).
  rewrite Hs in Hs'. injection Hs' as <- <-.
  set (orig := PyPath.of_str s) in *.
  pose proof (mkdir_from_keeps _ _ _ _ _ _ Hmk Hfile) as Hfile1.
  rewrite Hsrc in Hfile1. injection Hfile1 as ->.
  assert (t ≠ orig) as Hne by congruence.
  assert (fs st !! t = None) as Ht0.
  { destruct (fs st !! t) as [n|] eqn:E; [|done].
    pose proof (mkdir_from_keeps _ _ _ _ _ _ Hmk E). congruence. }
  pose proof (wf_file_name _ _ _ Hwf Hfile) as Hname.
  destruct (wf_parent _ _ _ Hwf Hfile Hname) as [Hpar Hanc].
  assert (∀ q, fs st !! q = Some Dir → fs st1 !! q = Some Dir) as Hdir.
  { intros q Hq. pose proof (mkdir_from_keeps _ _ _ _ _ _ Hmk Hq) as Hq1.
    rewrite Hfs, lookup_insert_ne, lookup_delete_ne; [done|congruence..]. }
  exists fs1, t. split; [done|]. split; [done|]. split.
  { by rewrite Hfs, lookup_insert_ne, lookup_delete_eq. }
  split; [by rewrite Hfs, lookup_insert_eq|]. split; [done|].
  unfold undo. rewrite Hh, length_app. simpl length.
  rewrite (undo_scan_latest st1 req_image_id _ (length (MOVE_HISTORY st))
             {| image_id := req_image_id; original_path := orig; new_path := t |}).
  2: lia.
  2: { rewrite Hh, length_app. simpl. lia. }
  2: { rewrite Hh. split; [by apply list_lookup_middle|]. split; [done|].
       intros j m' Hj Hm'. apply lookup_lt_Some in Hm'.
       rewrite length_app in Hm'. simpl in Hm'. lia. }
  unfold undo_record. simpl new_path. simpl original_path.
  assert (Fs.exists_ (fs st1) t = true) as ->.
  { apply bool_decide_eq_true_2. rewrite Hfs, lookup_insert_eq. eauto. }
  unfold Fs.mkdir. rewrite mkdir_from_noop.
  2: { eapply Forall_impl; [exact Hanc|]. apply Hdir. }
  assert (Fs.exists_ (fs st1) orig = false) as ->.
  { apply exists_false. by rewrite Hfs, lookup_insert_ne, lookup_delete_eq. }
  simpl negb. cbv iota. unfold Fs.move.
  rewrite Hfs at 1. rewrite lookup_insert_eq.
  assert (Fs.is_dir (fs st1) orig = false) as ->.
  { apply bool_decide_eq_false_2.
    by rewrite Hfs, lookup_insert_ne, lookup_delete_eq. }
  simpl andb. cbv iota.
  assert (Fs.is_dir (fs st1) (PyPath.parent orig) = true) as ->.
  { apply bool_decide_eq_true_2. by apply Hdir. }
  f_equal. f_equal.
  - rewrite Hfs, delete_insert_eq, (delete_id (delete orig fs1)).
    + by apply insert_delete_id.
    + by rewrite lookup_delete_ne.
  - rewrite Hh. apply delete_snoc.
Qed.

(** ** When [classify] succeeds *)

Lemma split_whole (sep : ascii) (w : string) :
  PyStr.has_char sep w = false → PyStr.split sep w = [w].
Proof.
  induction w as [|c w IH]; simpl; [done|].
  intros [Hc%bool_decide_eq_false Hw]%orb_false_iff.
  rewrite decide_False by done. by rewrite IH.
Qed.

(** The name of a parsed path, when it has one, is a single proper part. *)
Lemma name_of_str (s : string) :
  PyPath.name (PyPath.of_str s) ≠ "" →
  PyPath.of_str (PyPath.name (PyPath.of_str s)) = [PyPath.name (PyPath.of_str s)] ∧
  PyPath.is_root (PyPath.name (PyPath.of_str s)) = false.
Proof.
  intros Hne. pose proof (name_no_slash s) as Hslash.
  assert (PyPath.keep_part (PyPath.name (PyPath.of_str s)) = true) as Hkeep.
  { unfold PyPath.name in *.
    destruct (last (PyPath.of_str s)) as [part|] eqn:E; [|done].
    destruct (PyPath.is_root part) eqn:Hr; [done|].
    apply last_Some_elem_of in E. unfold PyPath.of_str in E.
    assert (part ∈ List.filter PyPath.keep_part (PyStr.split "/" s)) as Hin.
    { destruct (PyPath.root_of s) as [r|] eqn:Er; [|done].
      apply elem_of_cons in E as [->|E]; [|done].
      unfold PyPath.root_of in Er.
      destruct (negb (PyStr.startswith "/" s)); [done|].
      destruct (negb (PyStr.startswith "//" s) || PyStr.startswith "///" s);
        by injection Er as <-. }
    by apply list_elem_of_In, filter_In in Hin as [_ Hin]. }
  split; [|by apply no_slash_not_root].
  revert Hslash Hkeep. generalize (PyPath.name (PyPath.of_str s)) as nm.
  intros nm Hslash Hkeep.
  unfold PyPath.of_str. rewrite no_slash_root_of, split_whole by done.
  simpl. by rewrite Hkeep.
Qed.

Lemma mkdir_from_creates (fs fs' : FS) (above : Path) (parts : list string) :
  Fs.mkdir_from fs above parts = Some fs' → parts ≠ [] →
  fs' !! (above ++ parts) = Some Dir.
Proof.
  revert fs above. induction parts as [|part parts IH]; intros fs above Hm Hne;
    [done|].
  simpl in Hm. destruct parts as [|part' parts].
  - destruct (fs !! (above ++ [part])) as [[c|]|] eqn:E; [done|..].
    + simpl in Hm. by injection Hm as <-.
    + simpl in Hm. injection Hm as <-. apply lookup_insert_eq.
  - replace (above ++ part :: part' :: parts)
      with ((above ++ [part]) ++ part' :: parts) by by rewrite <- app_assoc.
    destruct (fs !! (above ++ [part])) as [[c|]|] eqn:E; [done|..];
      by eapply IH.
Qed.

(** [classify] succeeds for a valid category and a reference to a regular
    file, on a well-formed disk where nothing prevents the directory of the
    category from being made. *)
Lemma classify_succeeds (public_dir : Path) (CAT_NAMES : list string)
    (st : state) (req_image_id req_category u s : string) (c : nat) (fs1 : FS) :
  Fs.wf (fs st) → Forall plain_name CAT_NAMES →
  req_category ∈ VALID_CATEGORIES CAT_NAMES →
  PyStr.split_once "|" req_image_id = Some (u, s) →
  fs st !! PyPath.of_str s = Some (File c) →
  Fs.mkdir (fs st) (CLASSIFIED_ROOT public_dir // req_category) = Some fs1 →
  ∃ r st1, classify public_dir CAT_NAMES st req_image_id req_category = (Ret r, st1).
Proof.
  intros Hwf Hplain Hv Hs Hfile Hmk.
  pose proof (valid_category_plain _ _ Hplain Hv) as Hcat.
  pose proof (wf_file_name _ _ _ Hwf Hfile) as Hname.
  destruct (name_of_str s Hname) as [Hparts Hnroot].
  unfold classify. rewrite bool_decide_eq_true_2 by done. simpl negb. cbv iota.
  rewrite Hs.
  assert (Fs.exists_ (fs st) (PyPath.of_str s) = true) as ->.
  { apply bool_decide_eq_true_2. eauto. }
  simpl negb. cbv iota. rewrite Hmk.
  set (target_dir := CLASSIFIED_ROOT public_dir // req_category) in *.
  set (nm := PyPath.name (PyPath.of_str s)) in *.
  assert (target_dir // nm = target_dir ++ [nm]) as Ecand.
  { unfold PyPath.joinpath, PyPath.join. rewrite Hparts. simpl. by rewrite Hnroot. }
  assert (target_dir ≠ []) as Htd.
  { unfold target_dir. rewrite CLASSIFIED_ROOT_eq, joinpath_relative by done.
    rewrite <- app_assoc. intros E%app_eq_nil. by destruct E. }
  assert (fs1 !! target_dir = Some Dir) as Hdir.
  { by apply (mkdir_from_creates (fs st) fs1 [] target_dir). }
  destruct (_unique_path fs1 (target_dir // nm)) as [t|e|] eqn:Et.
  - destruct (target_below_public public_dir fs1 req_category s t Hcat Et)
      as [rel Hrel].
    assert (PyPath.parent t = target_dir) as Hpar.
    { apply unique_path_ret in Et as [->|[n ->]]; rewrite Ecand.
      - by apply parent_snoc.
      - unfold numbered. rewrite removelast_last.
        by apply parent_snoc; apply numbered_name_proper. }
    pose proof (unique_path_fresh _ _ _ Et) as Hfresh. apply exists_false in Hfresh.
    unfold Fs.move. rewrite (mkdir_from_keeps _ _ _ _ _ _ Hmk Hfile).
    assert (Fs.is_dir fs1 t = false) as ->.
    { unfold Fs.is_dir. rewrite Hfresh. by apply bool_decide_eq_false_2. }
    simpl andb. cbv iota. rewrite Hpar.
    assert (Fs.is_dir fs1 target_dir = true) as ->.
    { by apply bool_decide_eq_true_2. }
    rewrite Hrel. eauto.
  - exfalso. rewrite Ecand in Et. unfold _unique_path in Et.
    destruct (Fs.exists_ fs1 (target_dir ++ [nm])) eqn:He; [|done].
    destruct (unique_path_occupied fs1 (target_dir ++ [nm])) as (n & _ & E & _);
      [by rewrite name_snoc|done|].
    unfold _unique_path in E. rewrite He in E. simpl in E, Et. congruence.
  - by destruct (unique_path_not_diverge fs1 (target_dir // nm)).
Qed.

(** C3, as the code has it.  For a valid category and a reference whose
    source is a regular file (the disk well formed, the directory of the
    category there or free to be made), [classify] succeeds and moves the
    file away; [undo] on the same reference right after it succeeds, puts the
    same file back at its exact original path and leaves the disk as it was
    but for the directory of the category.  The history is then what it was
    before [classify]: the entry [classify] appended is gone, the entries
    that were there before, also those for the same reference, remain. *)
Theorem classify_then_undo (public_dir : Path) (CAT_NAMES : list string)
    (st : state) (req_image_id req_category u s : string) (c : nat) (fs1 : FS) :
  Fs.wf (fs st) → Forall plain_name CAT_NAMES →
  req_category ∈ VALID_CATEGORIES CAT_NAMES →
  PyStr.split_once "|" req_image_id = Some (u, s) →
  fs st !! PyPath.of_str s = Some (File c) →
  Fs.mkdir (fs st) (CLASSIFIED_ROOT public_dir // req_category) = Some fs1 →
  ∃ r st1 t,
    classify public_dir CAT_NAMES st req_image_id req_category = (Ret r, st1) ∧
    fs st1 !! PyPath.of_str s = None ∧ fs st1 !! t = Some (File c) ∧
    fs st !! t = None ∧
    undo st1 req_image_id =
      (Ret {| restored_to := PyPath.to_str (PyPath.of_str s) |},
       {| fs := fs1; MOVE_HISTORY := MOVE_HISTORY st |}) ∧
    fs1 !! PyPath.of_str s = Some (File c).
Proof.
  intros Hwf Hplain Hv Hs Hfile Hmk.
  destruct (classify_succeeds public_dir CAT_NAMES st req_image_id req_category
              u s c fs1) as (r & st1 & Hc); [done..|].
  destruct (undo_after_classify public_dir CAT_NAMES st st1 req_image_id
              req_category u s c r) as (fs1' & t & Hmk' & ? & ? & ? & ? & ?);
    [done..|].
  rewrite Hmk in Hmk'. injection Hmk' as <-. by exists r, st1, t.
Qed.

Lemma classify_then_undo_witness :
  Fs.wf (fs collision_state) ∧ Forall plain_name ["milo"] ∧
  "unknown" ∈ VALID_CATEGORIES ["milo"] ∧
  PyStr.split_once "|" "u|/pub/cat_pics/f/cats/a.jpg"
    = Some ("u", "/pub/cat_pics/f/cats/a.jpg") ∧
  fs collision_state !! PyPath.of_str "/pub/cat_pics/f/cats/a.jpg" = Some (File 7) ∧
  Fs.mkdir (fs collision_state) (CLASSIFIED_ROOT ["/"; "pub"] // "unknown")
    = Some (fs collision_state) ∧
  ∃ r st1 t,
    classify ["/"; "pub"] ["milo"] collision_state
      "u|/pub/cat_pics/f/cats/a.jpg" "unknown" = (Ret r, st1) ∧
    fs st1 !! PyPath.of_str "/pub/cat_pics/f/cats/a.jpg" = None ∧
    fs st1 !! t = Some (File 7) ∧
    fs collision_state !! t = None ∧
    undo st1 "u|/pub/cat_pics/f/cats/a.jpg" =
      (Ret {| restored_to := PyPath.to_str (PyPath.of_str "/pub/cat_pics/f/cats/a.jpg") |},
       {| fs := fs collision_state; MOVE_HISTORY := MOVE_HISTORY collision_state |}) ∧
    fs collision_state !! PyPath.of_str "/pub/cat_pics/f/cats/a.jpg" = Some (File 7).
Proof.
  assert (Fs.wf (fs collision_state)) as H1.
  { apply (bool_decide_unpack _). by vm_compute. }
  assert (Forall plain_name ["milo"]) as H2 by (by repeat constructor).
  assert ("unknown" ∈ VALID_CATEGORIES ["milo"]) as H3 by (by vm_compute).
  assert (PyStr.split_once "|" "u|/pub/cat_pics/f/cats/a.jpg"
          = Some ("u", "/pub/cat_pics/f/cats/a.jpg")) as H4 by (by vm_compute).
  assert (fs collision_state !! PyPath.of_str "/pub/cat_pics/f/cats/a.jpg"
          = Some (File 7)) as H5 by (by vm_compute).
  assert (Fs.mkdir (fs collision_state) (CLASSIFIED_ROOT ["/"; "pub"] // "unknown")
          = Some (fs collision_state)) as H6.
  { apply mkdir_from_noop, (bool_decide_unpack _). by vm_compute. }
  repeat (split; [assumption|]).
  exact (classify_then_undo ["/"; "pub"] ["milo"] collision_state
           "u|/pub/cat_pics/f/cats/a.jpg" "unknown" "u"
           "/pub/cat_pics/f/cats/a.jpg" 7 (fs collision_state) H1 H2 H3 H4 H5 H6).
Defined.

(** C3 as the specification words it fails on [collision_state], whose history
    already holds an entry for the reference: [classify] and then [undo]
    bring the file back to its original path, and the history still holds
    that older entry for the reference. *)
Lemma classify_undo_keeps_older_record :
  let c := classify ["/"; "pub"] ["milo"] collision_state
             "u|/pub/cat_pics/f/cats/a.jpg" "unknown" in
  let u := undo c.2 "u|/pub/cat_pics/f/cats/a.jpg" in
  "unknown" ∈ VALID_CATEGORIES ["milo"] ∧
  Fs.is_file (fs collision_state) (PyPath.of_str "/pub/cat_pics/f/cats/a.jpg") = true ∧
  c.1 = Ret {| stored_at := "cat_pics/classified/unknown/a_1.jpg" |} ∧
  u.1 = Ret {| restored_to := "/pub/cat_pics/f/cats/a.jpg" |} ∧
  fs u.2 !! ["/"; "pub"; "cat_pics"; "f"; "cats"; "a.jpg"] = Some (File 7) ∧
  ¬ (∀ m, m ∈ MOVE_HISTORY u.2 → image_id m ≠ "u|/pub/cat_pics/f/cats/a.jpg").
Proof.
  repeat split; try by vm_compute.
  intros H. apply (H {| image_id := "u|/pub/cat_pics/f/cats/a.jpg";
           original_path := ["/"; "pub"; "cat_pics"; "f"; "cats"; "a.jpg"];
           new_path := ["/"; "pub"; "cat_pics"; "classified"; "unknown"; "a.jpg"] |});
    [|done].
  vm_compute. left.
Qed.

(** ** The order of paths and [sorted] *)

Lemma path_leb_total (p q : Path) : PyPath.leb p q = true ∨ PyPath.leb q p = true.
Proof.
  revert q. induction p as [|x p IH]; intros [|y q]; simpl; auto.
  destruct (decide (x = y)) as [->|Hne].
  - rewrite decide_True by done. apply IH.
  - rewrite (decide_False (P := y = x)) by congruence.
    destruct (base.total String.le x y); [left|right]; by apply bool_decide_eq_true_2.
Qed.

Lemma path_leb_trans (p q r : Path) :
  PyPath.leb p q = true → PyPath.leb q r = true → PyPath.leb p r = true.
Proof.
  revert q r. induction p as [|x p IH]; intros [|y q] [|z r]; simpl; try done.
  repeat case_decide; subst; try done; eauto.
  - intros Hle1%bool_decide_eq_true Hle2%bool_decide_eq_true.
    exfalso. by apply H, (anti_symm String.le).
  - intros Hle1%bool_decide_eq_true Hle2%bool_decide_eq_true.
    apply bool_decide_eq_true_2. by trans y.
Qed.

Global Instance path_le_total : Total PyPath.le.
Proof. intros p q. apply path_leb_total. Qed.

Global Instance path_le_trans : Transitive PyPath.le.
Proof. intros p q r. apply path_leb_trans. Qed.

Lemma sorted_elem_of (paths : list Path) (p : Path) : p ∈ sorted paths ↔ p ∈ paths.
Proof. unfold sorted. by rewrite merge_sort_Permutation. Qed.

Lemma sorted_StronglySorted (paths : list Path) :
  StronglySorted PyPath.le (sorted paths).
Proof. apply StronglySorted_merge_sort; apply _. Qed.

Lemma filter_StronglySorted {A} (R : relation A) (f : A → bool) (l : list A) :
  StronglySorted R l → StronglySorted R (List.filter f l).
Proof.
  induction 1 as [|x l _ IH Hx]; simpl; [constructor|].
  destruct (f x); [|done]. constructor; [done|].
  apply Forall_forall. intros y Hy%list_elem_of_In%filter_In.
  destruct Hy as [Hy%list_elem_of_In _].
  by apply (proj1 (Forall_forall _ _) Hx).
Qed.

Lemma filter_elem_of {A} (f : A → bool) (l : list A) (x : A) :
  x ∈ List.filter f l ↔ x ∈ l ∧ f x = true.
Proof. by rewrite !list_elem_of_In, filter_In. Qed.

Lemma filter_NoDup {A} (f : A → bool) (l : list A) :
  NoDup l → NoDup (List.filter f l).
Proof.
  induction 1 as [|x l Hx _ IH]; simpl; [constructor|].
  destruct (f x); [|done]. constructor; [|done].
  rewrite filter_elem_of. tauto.
Qed.

(** ** Entries of a directory *)

Lemma last_removelast {A} (l : list A) (x : A) :
  last l = Some x → l = removelast l ++ [x].
Proof.
  induction l as [|y [|z l] IH]; [done|by intros [= ->]|].
  intros H. change (y :: z :: l = y :: (removelast (z :: l) ++ [x])).
  f_equal. by apply IH.
Qed.

Lemma child_of_spec (d q : Path) :
  Fs.child_of d q = true ↔ q = d ++ [PyPath.name q] ∧ PyPath.name q ≠ "".
Proof.
  unfold Fs.child_of. rewrite bool_decide_eq_true. split.
  - intros [Hpar Hne]. unfold PyPath.parent in Hpar.
    destruct (decide (PyPath.name q = "")) as [E|Hname].
    { rewrite bool_decide_eq_true_2 in Hpar by done. done. }
    rewrite bool_decide_eq_false_2 in Hpar by done. split; [|done].
    unfold PyPath.name in *. destruct (last q) as [x|] eqn:El; [|done].
    destruct (PyPath.is_root x); [done|]. rewrite <- Hpar.
    by apply last_removelast.
  - intros [Hq Hname].
    assert (PyPath.is_root (PyPath.name q) = false) as Hr.
    { unfold PyPath.name in *. destruct (last q) as [x|]; [|done].
      by destruct (PyPath.is_root x) eqn:Ex. }
    split.
    + rewrite Hq. by apply parent_snoc.
    + intros E. rewrite E in Hq. apply (f_equal length) in Hq.
      rewrite length_app in Hq. simpl in Hq. lia.
Qed.

Lemma children_elem_of (fs : FS) (d q : Path) :
  q ∈ Fs.children fs d ↔ is_Some (fs !! q) ∧ Fs.child_of d q = true.
Proof.
  unfold Fs.children. rewrite filter_elem_of, list_elem_of_fmap.
  split.
  - intros [([q' n] & -> & Hin%elem_of_map_to_list) Hc]. eauto.
  - intros [[n Hn] Hc]. split; [|done]. exists (q, n). split; [done|].
    by apply elem_of_map_to_list.
Qed.

Lemma children_NoDup (fs : FS) (d : Path) : NoDup (Fs.children fs d).
Proof. apply filter_NoDup, NoDup_fst_map_to_list. Qed.

(** The order of two entries of one directory is the order of their names. *)
Lemma path_le_siblings (d : Path) (x y : string) :
  PyPath.le (d ++ [x]) (d ++ [y]) ↔ String.le x y.
Proof.
  unfold PyPath.le. induction d as [|z d IH]; simpl.
  - destruct (decide (x = y)) as [->|_]; [|by rewrite bool_decide_eq_true].
    split; [done|]. by destruct y.
  - by rewrite decide_True.
Qed.

(** ** [list_images] *)

Lemma slice_window {A} (l : list A) (start n : Z) :
  (0 ≤ start)%Z → (0 ≤ n)%Z →
  slice l start (start + n) = take (Z.to_nat n) (drop (Z.to_nat start) l).
Proof.
  intros Hs Hn. unfold slice.
  rewrite (proj2 (Z.ltb_ge start 0)) by done.
  rewrite (proj2 (Z.ltb_ge (start + n) 0)) by lia.
  destruct (decide (start ≤ Z.of_nat (length l))%Z) as [Hle|Hgt].
  - rewrite (Z.min_l start) by done.
    destruct (decide (start + n ≤ Z.of_nat (length l))%Z) as [Hle'|Hgt'].
    + rewrite Z.min_l by done. f_equal. lia.
    + rewrite Z.min_r by lia.
      rewrite !take_ge; [done|rewrite length_drop; lia..].
  - rewrite !drop_ge by lia. by rewrite !take_nil.
Qed.

Lemma feeder_path_eq (public_dir : Path) (feeder source : string) :
  plain_name feeder → plain_name source →
  ROOT public_dir // feeder // source
    = public_dir ++ ["cat_pics"] ++ PyPath.of_str feeder ++ PyPath.of_str source.
Proof.
  intros Hf Hs. unfold ROOT. rewrite !joinpath_relative by done.
  by rewrite <- !app_assoc.
Qed.

Lemma all_files_elem_of (fs : FS) (feeder_path p : Path) :
  p ∈ all_files fs feeder_path ↔
  Fs.is_dir fs feeder_path = true ∧ Fs.child_of feeder_path p = true ∧
  Fs.is_file fs p = true ∧ PyStr.lower (PyPath.suffix p) ∈ exts.
Proof.
  unfold all_files, Fs.glob_star. rewrite filter_elem_of, sorted_elem_of.
  rewrite andb_true_iff, bool_decide_eq_true.
  destruct (Fs.is_dir fs feeder_path).
  - rewrite children_elem_of. split; [tauto|].
    intros (_ & Hc & Hf & He). repeat split; try done.
    unfold Fs.is_file in Hf. destruct (fs !! p); [eauto|done].
  - split; [by intros [?%elem_of_nil _]|by intros [? _]].
Qed.

Lemma all_files_sorted (fs : FS) (feeder_path : Path) :
  StronglySorted PyPath.le (all_files fs feeder_path).
Proof. apply filter_StronglySorted, sorted_StronglySorted. Qed.

Lemma all_files_NoDup (fs : FS) (feeder_path : Path) :
  NoDup (all_files fs feeder_path).
Proof.
  unfold all_files, sorted. apply filter_NoDup.
  rewrite merge_sort_Permutation. unfold Fs.glob_star.
  destruct (Fs.is_dir fs feeder_path); [apply children_NoDup|constructor].
Qed.

(** The listed files are in the order of their names, and no name comes
    twice. *)
Lemma all_files_names_sorted (fs : FS) (feeder_path : Path) :
  StronglySorted String.le (PyPath.name <$> all_files fs feeder_path) ∧
  NoDup (PyPath.name <$> all_files fs feeder_path).
Proof.
  pose proof (all_files_sorted fs feeder_path) as Hs.
  pose proof (all_files_NoDup fs feeder_path) as Hn.
  assert (Forall (λ p, p = feeder_path ++ [PyPath.name p])
            (all_files fs feeder_path)) as Hc.
  { apply Forall_forall. intros p (_ & Hc & _)%all_files_elem_of.
    by apply child_of_spec in Hc as [? _]. }
  induction Hs as [|p l _ IH Hp]; simpl; [split; constructor|].
  inversion Hc as [|? ? Ep Hc']; subst. inversion Hn as [|? ? Hnp Hn']; subst.
  destruct (IH Hn' Hc') as [IHs IHn]. split.
  - constructor; [done|]. apply Forall_fmap, Forall_forall. intros q Hq.
    pose proof (proj1 (Forall_forall _ _) Hp q Hq) as Hle.
    pose proof (proj1 (Forall_forall _ _) Hc' q Hq) as Eq.
    rewrite Ep, Eq in Hle. by apply path_le_siblings in Hle.
  - constructor; [|done]. intros (q & En & Hq)%list_elem_of_fmap.
    pose proof (proj1 (Forall_forall _ _) Hc' q Hq) as Eq.
    apply Hnp. rewrite Ep, En, <- Eq. done.
Qed.

Lemma list_items_ret (public_dir : Path) (uuid4 : nat → string) (k : nat)
    (slice_files : list Path) :
  Forall (λ p, is_Some (PyPath.relative_to p (PyPath.parent (ROOT public_dir))))
         slice_files →
  ∃ items, list_items public_dir uuid4 k slice_files = Ret items ∧
           filename <$> items = PyPath.name <$> slice_files ∧
           id <$> items =
             imap (λ j p, uuid4 (k + j) +:+ "|" +:+ PyPath.to_str p) slice_files.
Proof.
  revert k. induction slice_files as [|p ps IH]; intros k H; simpl.
  { by exists []. }
  inversion H as [|? ? [rel Hrel] Hps]; subst. rewrite Hrel.
  destruct (IH (S k) Hps) as (items & -> & Hf & Hi). eexists. split; [done|].
  rewrite !fmap_cons, Hf, Hi. simpl. rewrite Nat.add_0_r. split; [done|]. f_equal.
  apply imap_ext. intros j q _. simpl. do 2 f_equal. lia.
Qed.

(** A call of [list_images] on an existing directory below the public
    directory returns the window of the listed files. *)
Lemma list_images_ret (public_dir : Path) (uuid4 : nat → string) (fs : FS)
    (feeder source : string) (offset limit : Z) :
  plain_name feeder → plain_name source →
  Fs.exists_ fs (ROOT public_dir // feeder // source) = true →
  ∃ items,
    list_images public_dir uuid4 fs feeder source offset limit =
      Ret {| images := items;
             total := length (all_files fs (ROOT public_dir // feeder // source));
             offset := Z.max 0 offset;
             limit := Z.max 1 (Z.min limit 1000) |} ∧
    filename <$> items =
      PyPath.name <$> take (Z.to_nat (Z.max 1 (Z.min limit 1000)))
        (drop (Z.to_nat (Z.max 0 offset))
           (all_files fs (ROOT public_dir // feeder // source))).
Proof.
  intros Hf Hs He. unfold list_images. rewrite He. simpl negb. cbv iota.
  assert ((if (offset <? 0)%Z then 0%Z else offset) = Z.max 0 offset) as ->.
  { destruct (Z.ltb_spec offset 0); lia. }
  rewrite slice_window by lia.
  set (feeder_path := ROOT public_dir // feeder // source) in *.
  set (window := take _ (drop _ (all_files fs feeder_path))).
  destruct (list_items_ret public_dir uuid4 0 window) as (items & -> & Hn & _).
  - apply Forall_forall. intros p Hp.
    assert (p ∈ all_files fs feeder_path) as Hin.
    { unfold window in Hp. apply elem_of_take in Hp as (i & Hi & _).
      eapply subseteq_drop, list_elem_of_lookup. eauto. }
    apply all_files_elem_of in Hin as (_ & Hc & _).
    apply child_of_spec in Hc as [-> _]. unfold feeder_path.
    rewrite feeder_path_eq, parent_ROOT by done.
    rewrite <- !app_assoc. rewrite relative_to_app. eauto.
  - by exists items.
Qed.

(** C8.  A call of [list_images] on an existing [feeder/source] directory
    (both plain names) lists the regular files directly inside it whose
    lower-cased extension is an image extension, and only those, in the order
    of their file names.  It returns the window of that list that starts at
    [offset], or at 0 for a negative [offset], and is as long as [limit]
    clamped to the page size of 1000 (and to no less than one item, see
    C10); [total] is the length of the whole list.  In particular, with five
    listed files, [offset = 0] and [limit = 2], it returns the first two
    names and [total = 5]. *)
Theorem list_images_spec (public_dir : Path) (uuid4 : nat → string) (fs : FS)
    (feeder source : string) (offset limit : Z) :
  plain_name feeder → plain_name source →
  Fs.exists_ fs (ROOT public_dir // feeder // source) = true →
  let feeder_path := ROOT public_dir // feeder // source in
  let files := all_files fs feeder_path in
  let off := Z.max 0 offset in
  let lim := Z.max 1 (Z.min limit 1000) in
  (∀ p, p ∈ files ↔
        Fs.is_dir fs feeder_path = true ∧ Fs.child_of feeder_path p = true ∧
        Fs.is_file fs p = true ∧ PyStr.lower (PyPath.suffix p) ∈ exts) ∧
  StronglySorted String.le (PyPath.name <$> files) ∧
  NoDup (PyPath.name <$> files) ∧
  (lim ≤ 1000)%Z ∧ ((1 ≤ limit ≤ 1000)%Z → lim = limit) ∧
  ((0 ≤ offset)%Z → off = offset) ∧ ((offset < 0)%Z → off = 0%Z) ∧
  (∃ items,
     list_images public_dir uuid4 fs feeder source offset limit =
       Ret {| images := items; total := length files; offset := off;
              limit := lim |} ∧
     filename <$> items =
       PyPath.name <$> take (Z.to_nat lim) (drop (Z.to_nat off) files)) ∧
  (∀ a b c d e, PyPath.name <$> files = [a; b; c; d; e] →
     offset = 0%Z → limit = 2%Z →
     ∃ items,
       list_images public_dir uuid4 fs feeder source offset limit =
         Ret {| images := items; total := 5; offset := 0; limit := 2 |} ∧
       filename <$> items = [a; b]).
Proof.
  intros Hf Hs He feeder_path files off lim.
  destruct (all_files_names_sorted fs feeder_path) as [Hsorted Hnodup].
  destruct (list_images_ret public_dir uuid4 fs feeder source offset limit)
    as (items & Hret & Hnames); [done..|].
  split; [apply all_files_elem_of|]. split; [done|]. split; [done|].
  split; [unfold lim; lia|]. split; [unfold lim; lia|].
  split; [unfold off; lia|]. split; [unfold off; lia|].
  split; [by exists items|].
  intros a b c d e Hfiles -> ->. exists items. split.
  - rewrite Hret. fold feeder_path. fold files.
    assert (length files = 5) as ->.
    { by rewrite <- (length_fmap PyPath.name), Hfiles. }
    done.
  - rewrite Hnames. fold feeder_path. fold files.
    change (Z.to_nat (Z.max 1 (Z.min 2 1000))) with 2.
    change (Z.to_nat (Z.max 0 0)) with 0. rewrite drop_0.
    by rewrite fmap_take, Hfiles.
Qed.

Lemma list_images_spec_witness :
  plain_name "officefeeder1" ∧ plain_name "cats" ∧
  Fs.exists_ feeder_fs (ROOT ["/"; "pub"] // "officefeeder1" // "cats") = true ∧
  ∃ items,
    list_images ["/"; "pub"] uuid_of feeder_fs "officefeeder1" "cats" 0 2 =
      Ret {| images := items; total := 5; offset := 0; limit := 2 |} ∧
    filename <$> items = ["a.jpg"; "b.jpeg"].
Proof.
  assert (plain_name "officefeeder1") as H1 by done.
  assert (plain_name "cats") as H2 by done.
  assert (Fs.exists_ feeder_fs (ROOT ["/"; "pub"] // "officefeeder1" // "cats")
          = true) as H3 by (by vm_compute).
  repeat (split; [assumption|]).
  destruct (list_images_spec ["/"; "pub"] uuid_of feeder_fs "officefeeder1" "cats"
              0 2 H1 H2 H3) as (_ & _ & _ & _ & _ & _ & _ & _ & H).
  apply (H "a.jpg" "b.jpeg" "c.PNG" "d.gif" "e.jpg"); [by vm_compute|done..].
Defined.

(** C10.  The limit [list_images] works with is the requested one clamped
    to at least 1 and at most 1000.  A request with [limit <= 0] returns a
    page of exactly one item as soon as a listed file lies at the (clamped)
    offset: the file at that place of the listing. *)
Theorem list_images_limit_floor (public_dir : Path) (uuid4 : nat → string)
    (fs : FS) (feeder source : string) (offset limit : Z) :
  plain_name feeder → plain_name source →
  Fs.exists_ fs (ROOT public_dir // feeder // source) = true →
  let files := all_files fs (ROOT public_dir // feeder // source) in
  let off := Z.max 0 offset in
  let lim := Z.max 1 (Z.min limit 1000) in
  (1 ≤ lim ≤ 1000)%Z ∧ ((limit ≤ 0)%Z → lim = 1%Z) ∧
  ((1000 ≤ limit)%Z → lim = 1000%Z) ∧
  ∃ items,
    list_images public_dir uuid4 fs feeder source offset limit =
      Ret {| images := items; total := length files; offset := off;
             limit := lim |} ∧
    ((limit ≤ 0)%Z → (off < Z.of_nat (length files))%Z →
     ∃ p, files !! Z.to_nat off = Some p ∧ filename <$> items = [PyPath.name p]).
Proof.
  intros Hf Hs He files off lim.
  destruct (list_images_ret public_dir uuid4 fs feeder source offset limit)
    as (items & Hret & Hnames); [done..|].
  split; [unfold lim; lia|]. split; [unfold lim; lia|]. split; [unfold lim; lia|].
  exists items. split; [done|]. intros Hlim Hoff.
  destruct (lookup_lt_is_Some_2 files (Z.to_nat off)) as [p Hp]; [lia|].
  exists p. split; [done|]. rewrite Hnames. fold files. fold off.
  replace (Z.to_nat (Z.max 1 (Z.min limit 1000))) with 1 by lia.
  apply drop_S in Hp. rewrite Hp. done.
Qed.

Lemma list_images_limit_floor_witness :
  plain_name "officefeeder1" ∧ plain_name "cats" ∧
  Fs.exists_ feeder_fs (ROOT ["/"; "pub"] // "officefeeder1" // "cats") = true ∧
  ∃ items,
    list_images ["/"; "pub"] uuid_of feeder_fs "officefeeder1" "cats" 3 0 =
      Ret {| images := items; total := 5; offset := 3; limit := 1 |} ∧
    filename <$> items = ["d.gif"].
Proof.
  assert (plain_name "officefeeder1") as H1 by done.
  assert (plain_name "cats") as H2 by done.
  assert (Fs.exists_ feeder_fs (ROOT ["/"; "pub"] // "officefeeder1" // "cats")
          = true) as H3 by (by vm_compute).
  repeat (split; [assumption|]).
  destruct (list_images_limit_floor ["/"; "pub"] uuid_of feeder_fs "officefeeder1"
              "cats" 3 0 H1 H2 H3) as (_ & _ & _ & items & Hret & H).
  exists items. split.
  - rewrite Hret. by vm_compute.
  - destruct H as (p & Hp & ->); [done|by vm_compute|].
    vm_compute in Hp. by injection Hp as <-.
Defined.

(** ** Category discovery *)

Lemma discover_names_elem_of (fs : FS) (entries : list Path) (n : string) :
  n ∈ discover_names fs entries ↔
  ∃ p, p ∈ entries ∧ Fs.is_file fs p = true ∧
       PyStr.lower (PyPath.suffix p) ∈ exts ∧
       PyStr.lower (PyPath.stem p) = n ∧ n ≠ "unknown" ∧ n ≠ "not_cat".
Proof.
  induction entries as [|p entries IH]; simpl.
  { split; [by intros ?%elem_of_nil|by intros (p & ?%elem_of_nil & _)]. }
  destruct (Fs.is_file fs p) eqn:Hf; simpl.
  2: { rewrite IH. split.
       - intros (q & Hq & ?). exists q. split; [by right|done].
       - intros (q & [->|Hq]%elem_of_cons & Hq' & ?); [congruence|eauto]. }
  destruct (decide (PyStr.lower (PyPath.suffix p) ∈ exts)) as [He|He].
  2: { rewrite bool_decide_eq_false_2 by done. rewrite IH. split.
       - intros (q & Hq & ?). exists q. split; [by right|done].
       - intros (q & [->|Hq]%elem_of_cons & ? & ? & ?); [done|eauto]. }
  rewrite bool_decide_eq_true_2 by done.
  destruct (decide (PyStr.lower (PyPath.stem p) ∈ ["unknown"; "not_cat"]))
    as [Hr|Hr].
  - rewrite bool_decide_eq_true_2 by done. rewrite IH. split.
    + intros (q & Hq & ?). exists q. split; [by right|done].
    + intros (q & [->|Hq]%elem_of_cons & ? & ? & <- & Hu & Hn); [|eauto 10].
      repeat (apply elem_of_cons in Hr as [Hr|Hr]; [done|]).
      by apply elem_of_nil in Hr.
  - rewrite bool_decide_eq_false_2 by done. rewrite elem_of_cons, IH. split.
    + intros [->|(q & Hq & ?)].
      * exists p. split; [left|]. repeat split; try done.
        -- intros E. apply Hr. rewrite E. left.
        -- intros E. apply Hr. rewrite E. right. left.
      * exists q. split; [by right|done].
    + intros (q & [->|Hq]%elem_of_cons & ? & ? & <- & ?); [by left|right; eauto 10].
Qed.

Lemma REFERENCE_DIR_eq (public_dir : Path) :
  REFERENCE_DIR public_dir = public_dir ++ ["cat_pics"; "reference"].
Proof.
  unfold REFERENCE_DIR, ROOT. rewrite !joinpath_relative by done.
  by rewrite <- app_assoc.
Qed.

Lemma root_of_None (s : string) :
  PyPath.root_of s = None ↔ PyStr.startswith "/" s = false.
Proof.
  unfold PyPath.root_of. destruct (PyStr.startswith "/" s); cbn [negb]; [|done].
  by destruct (negb (PyStr.startswith "//" s) || PyStr.startswith "///" s).
Qed.

Lemma plain_name_app (n ext : string) :
  plain_name n → plain_name ext → plain_name (n +:+ ext).
Proof.
  unfold plain_name. rewrite !root_of_None. intros Hn He.
  destruct n as [|c n]; [done|]. exact Hn.
Qed.

Lemma reference_url_ret (public_dir : Path) (fs : FS) (w : string) :
  plain_name w →
  ∃ ref_path, reference_url public_dir fs (REFERENCE_DIR public_dir // w) = Ret ref_path.
Proof.
  intros Hw. unfold reference_url.
  destruct (Fs.exists_ fs (REFERENCE_DIR public_dir // w)); [|eauto].
  rewrite REFERENCE_DIR_eq, joinpath_relative, parent_ROOT by done.
  rewrite <- app_assoc, relative_to_app. eauto.
Qed.

Lemma reference_file_plain (public_dir : Path) (fs : FS) (name : string) :
  plain_name name →
  ∃ w, plain_name w ∧ reference_file public_dir fs name = REFERENCE_DIR public_dir // w.
Proof.
  intros Hn. unfold reference_file.
  destruct (negb (Fs.exists_ fs (REFERENCE_DIR public_dir // (name +:+ ".jpg")))).
  - destruct (List.find _ _) as [ext|] eqn:E.
    + exists (name +:+ ext). split; [|done]. apply plain_name_app; [done|].
      apply find_some in E as [E _]. simpl in E.
      destruct E as [<-|[<-|[<-|[<-|[]]]]]; done.
    + exists (name +:+ ".jpg"). split; [by apply plain_name_app|done].
  - exists (name +:+ ".jpg"). split; [by apply plain_name_app|done].
Qed.

Lemma cat_descriptors_keys (public_dir : Path) (fs : FS) (names : list string)
    (cs : list category) :
  cat_descriptors public_dir fs names = Ret cs → key <$> cs = names.
Proof.
  revert cs. induction names as [|name names IH]; intros cs; simpl.
  { by intros [= <-]. }
  destruct (reference_url public_dir fs _) as [ref_path| |]; [|done..].
  destruct (cat_descriptors public_dir fs names) as [cs'| |]; [|done..].
  intros [= <-]. rewrite fmap_cons. simpl. f_equal. by apply IH.
Qed.

Lemma cat_descriptors_ret (public_dir : Path) (fs : FS) (names : list string) :
  Forall plain_name names → ∃ cs, cat_descriptors public_dir fs names = Ret cs.
Proof.
  induction 1 as [|name names Hn _ [cs IH]]; simpl; [eauto|].
  destruct (reference_file_plain public_dir fs name Hn) as (w & Hw & ->).
  destruct (reference_url_ret public_dir fs w Hw) as [ref_path ->].
  rewrite IH. eauto.
Qed.

Lemma list_categories_keys (public_dir : Path) (CAT_NAMES : list string) (fs : FS)
    (cats : list category) :
  list_categories public_dir CAT_NAMES fs = Ret cats →
  key <$> cats = CAT_NAMES ++ ["unknown"; "not_a_cat"].
Proof.
  unfold list_categories.
  destruct (cat_descriptors public_dir fs CAT_NAMES) as [cs| |] eqn:E; [|done..].
  destruct (reference_url public_dir fs _) as [unk_ref| |]; [|done..].
  destruct (reference_url public_dir fs _) as [na_ref| |]; [|done..].
  intros [= <-]. rewrite fmap_app. by rewrite (cat_descriptors_keys _ _ _ _ E).
Qed.

Lemma list_categories_ret (public_dir : Path) (CAT_NAMES : list string) (fs : FS) :
  Forall plain_name CAT_NAMES →
  ∃ cats, list_categories public_dir CAT_NAMES fs = Ret cats.
Proof.
  intros H. unfold list_categories.
  destruct (cat_descriptors_ret public_dir fs CAT_NAMES H) as [cs ->].
  destruct (reference_url_ret public_dir fs "unknown.jpg") as [unk_ref ->]; [done|].
  destruct (reference_url_ret public_dir fs "not_cat.jpg") as [na_ref ->]; [done|].
  eauto.
Qed.

(** C2, as the code has it.  Discovery (the reference directory being
    absent, or a directory) yields the lower-cased stems of the image files
    directly inside the reference directory, except the stems "unknown" and
    "not_cat", the stems of the reference images of the two special
    categories: neither is ever a discovered name.  The registry lists the
    discovered names in order and then "unknown" and "not_a_cat"; "unknown"
    is there once only, and "not_a_cat" is there once only unless an image
    file with that very stem stands in the reference directory. *)
Theorem discover_excludes_reference_stems (public_dir : Path) (fs : FS) :
  (Fs.exists_ fs (REFERENCE_DIR public_dir) = false ∨
   Fs.is_dir fs (REFERENCE_DIR public_dir) = true) →
  ∃ names,
    _discover_cat_names public_dir fs = Ret names ∧
    ("unknown" ∉ names) ∧ ("not_cat" ∉ names) ∧
    (∀ n, n ∈ names ↔
          ∃ p, Fs.is_dir fs (REFERENCE_DIR public_dir) = true ∧
               Fs.child_of (REFERENCE_DIR public_dir) p = true ∧
               Fs.is_file fs p = true ∧
               PyStr.lower (PyPath.suffix p) ∈ exts ∧
               PyStr.lower (PyPath.stem p) = n ∧
               n ≠ "unknown" ∧ n ≠ "not_cat") ∧
    ∀ fs' cats,
      list_categories public_dir names fs' = Ret cats →
      key <$> cats = names ++ ["unknown"; "not_a_cat"].
Proof.
  intros Hdir. unfold _discover_cat_names, Fs.iterdir.
  destruct (Fs.is_dir fs (REFERENCE_DIR public_dir)) eqn:Ed.
  - assert (Fs.exists_ fs (REFERENCE_DIR public_dir) = true) as ->.
    { apply bool_decide_eq_true_2. apply bool_decide_eq_true in Ed. eauto. }
    eexists. split; [done|].
    assert (∀ n, n ∈ discover_names fs
                   (sorted (Fs.children fs (REFERENCE_DIR public_dir))) ↔
                 ∃ p, true = true ∧
                      Fs.child_of (REFERENCE_DIR public_dir) p = true ∧
                      Fs.is_file fs p = true ∧
                      PyStr.lower (PyPath.suffix p) ∈ exts ∧
                      PyStr.lower (PyPath.stem p) = n ∧
                      n ≠ "unknown" ∧ n ≠ "not_cat") as Hin.
    { intros n. rewrite discover_names_elem_of. split.
      - intros (p & Hp & Hf & He & Hn & Hu & Hc). exists p.
        apply sorted_elem_of, children_elem_of in Hp as [_ Hp]. done.
      - intros (p & _ & Hp & Hf & He & Hn & Hu & Hc). exists p.
        split; [|done]. apply sorted_elem_of, children_elem_of. split; [|done].
        unfold Fs.is_file in Hf. destruct (fs !! p); [eauto|done]. }
    split; [|split; [|split]].
    + intros (p & _ & _ & _ & _ & _ & Hu & _)%Hin. done.
    + intros (p & _ & _ & _ & _ & _ & _ & Hc)%Hin. done.
    + done.
    + intros fs' cats. apply list_categories_keys.
  - destruct Hdir as [->|]; [|done]. exists []. split; [done|].
    split; [by intros ?%elem_of_nil|]. split; [by intros ?%elem_of_nil|]. split.
    + intros n. split; [by intros ?%elem_of_nil|by intros (p & ? & _)].
    + intros fs' cats. apply list_categories_keys.
Qed.

Lemma discover_excludes_reference_stems_witness :
  (Fs.exists_ reference_fs (REFERENCE_DIR ["/"; "pub"]) = false ∨
   Fs.is_dir reference_fs (REFERENCE_DIR ["/"; "pub"]) = true) ∧
  ∃ names,
    _discover_cat_names ["/"; "pub"] reference_fs = Ret names ∧
    ("unknown" ∉ names) ∧ ("not_cat" ∉ names).
Proof.
  assert (Fs.exists_ reference_fs (REFERENCE_DIR ["/"; "pub"]) = false ∨
          Fs.is_dir reference_fs (REFERENCE_DIR ["/"; "pub"]) = true) as H.
  { right. by vm_compute. }
  split; [exact H|].
  destruct (discover_excludes_reference_stems ["/"; "pub"] reference_fs H)
    as (names & Hd & Hu & Hc & _).
  exists names. split; [exact Hd|]. split; [exact Hu|exact Hc].
Defined.

(** C2 as the specification words it fails on [reference_fs]: the image
    [not_a_cat.jpg] makes "not_a_cat" a discovered name, and the registry
    then lists that key twice. *)
Lemma discover_yields_not_a_cat :
  Fs.is_file reference_fs ["/"; "pub"; "cat_pics"; "reference"; "not_a_cat.jpg"]
    = true ∧
  _discover_cat_names ["/"; "pub"] reference_fs = Ret ["milo"; "not_a_cat"] ∧
  "not_a_cat" ∈ SPECIAL_CATEGORIES ∧
  ∃ cats,
    list_categories ["/"; "pub"] ["milo"; "not_a_cat"] reference_fs = Ret cats ∧
    key <$> cats = ["milo"; "not_a_cat"; "unknown"; "not_a_cat"].
Proof.
  split; [vm_compute; reflexivity|]. split; [vm_compute; reflexivity|].
  split; [unfold SPECIAL_CATEGORIES; right; left|].
  eexists. split; vm_compute; reflexivity.
Qed.

(** ** Groups of [plan] *)

Lemma bucket_snoc (done_files : list Path) (f : Path) (k : string) :
  bucket (done_files ++ [f]) k =
  bucket done_files k ++
    (if bool_decide (minute_key (PyPath.name f) = Some k) then [f] else []).
Proof.
  unfold bucket. rewrite List.filter_app. simpl. by destruct (bool_decide _).
Qed.

Lemma bucket_elem_of (all_files : list Path) (k : string) (f : Path) :
  f ∈ bucket all_files k ↔ f ∈ all_files ∧ minute_key (PyPath.name f) = Some k.
Proof. unfold bucket. by rewrite filter_elem_of, bool_decide_eq_true. Qed.

Lemma setdefault_append_keys (groups : list (string * list Path))
    (mk : string) (f : Path) :
  (setdefault_append groups mk f).*1 =
  if bool_decide (mk ∈ groups.*1) then groups.*1 else groups.*1 ++ [mk].
Proof.
  induction groups as [|[k files] groups IH]; [done|].
  cbn [setdefault_append].
  destruct (decide (k = mk)) as [->|Hne]; rewrite !fmap_cons; cbn [fst].
  - rewrite bool_decide_eq_true_2; [done|left].
  - rewrite IH. destruct (decide (mk ∈ groups.*1)) as [Hin|Hin].
    + rewrite !bool_decide_eq_true_2; [done|by right|done].
    + rewrite !bool_decide_eq_false_2; [done| |done].
      intros [?|?]%elem_of_cons; congruence.
Qed.

Lemma setdefault_append_buckets (done_files : list Path)
    (groups : list (string * list Path)) (mk : string) (f : Path) :
  minute_key (PyPath.name f) = Some mk →
  NoDup groups.*1 →
  Forall (λ g, g.2 = bucket done_files g.1 ∧ g.2 ≠ []) groups →
  (mk ∉ groups.*1 → bucket done_files mk = []) →
  Forall (λ g, g.2 = bucket (done_files ++ [f]) g.1 ∧ g.2 ≠ [])
         (setdefault_append groups mk f).
Proof.
  intros Hmk. induction groups as [|[k files] groups IH];
    intros Hnd Hall Hnew; simpl.
  - constructor; [|done]. simpl. rewrite bucket_snoc, Hnew by by intros ?%elem_of_nil.
    by rewrite bool_decide_eq_true_2.
  - inversion Hall as [|? ? [Hk Hne] Hall']; subst.
    rewrite fmap_cons in Hnd. apply NoDup_cons in Hnd as [Hk1 Hnd']. simpl in *.
    destruct (decide (k = mk)) as [->|Hkm].
    + constructor.
      * simpl. rewrite bucket_snoc, bool_decide_eq_true_2 by done. split.
        -- by rewrite <- Hk.
        -- by intros []%app_eq_nil.
      * apply Forall_forall. intros [k' files'] Hin.
        destruct (proj1 (Forall_forall _ _) Hall' _ Hin) as [E Hne']. simpl in *.
        rewrite bucket_snoc. split; [|done].
        rewrite bool_decide_eq_false_2, app_nil_r; [done|].
        rewrite Hmk. intros [= <-]. apply Hk1.
        apply list_elem_of_fmap. by exists (mk, files').
    + constructor.
      * simpl. rewrite bucket_snoc, bool_decide_eq_false_2 by congruence.
        by rewrite app_nil_r.
      * apply IH; [done..|]. intros Hnin. apply Hnew.
        intros [?|?]%elem_of_cons; [congruence|by apply Hnin].
Qed.

Lemma grouped_setdefault_append (done_files : list Path)
    (groups : list (string * list Path)) (mk : string) (f : Path) :
  minute_key (PyPath.name f) = Some mk →
  grouped done_files groups →
  grouped (done_files ++ [f]) (setdefault_append groups mk f).
Proof.
  intros Hmk (Hnd & Hall & Hcov). split; [|split].
  - rewrite setdefault_append_keys. destruct (decide (mk ∈ groups.*1)) as [Hin|Hin].
    + by rewrite bool_decide_eq_true_2.
    + rewrite bool_decide_eq_false_2 by done. apply NoDup_app. split; [done|].
      split; [|apply NoDup_singleton]. intros k Hk ->%list_elem_of_singleton. done.
  - apply setdefault_append_buckets; [done..|]. intros Hnin.
    destruct (bucket done_files mk) as [|x l] eqn:E; [done|].
    destruct Hnin. apply Hcov. by rewrite E.
  - intros k Hk. rewrite setdefault_append_keys.
    assert (k = mk ∨ k ∈ groups.*1) as [->|Hin].
    { rewrite bucket_snoc in Hk.
      destruct (decide (minute_key (PyPath.name f) = Some k)) as [E|E].
      - left. congruence.
      - right. apply Hcov. rewrite bool_decide_eq_false_2 in Hk by done.
        by rewrite app_nil_r in Hk. }
    + destruct (decide (mk ∈ groups.*1)) as [Hin|Hin].
      * by rewrite bool_decide_eq_true_2.
      * rewrite bool_decide_eq_false_2 by done. apply elem_of_app. right. left.
    + destruct (bool_decide (mk ∈ groups.*1)); [done|]. apply elem_of_app. by left.
Qed.

Lemma grouped_skip (done_files : list Path)
    (groups : list (string * list Path)) (f : Path) :
  minute_key (PyPath.name f) = None →
  grouped done_files groups → grouped (done_files ++ [f]) groups.
Proof.
  intros Hmk (Hnd & Hall & Hcov).
  assert (∀ k, bucket (done_files ++ [f]) k = bucket done_files k) as E.
  { intros k. rewrite bucket_snoc, bool_decide_eq_false_2 by congruence.
    by rewrite app_nil_r. }
  split; [done|]. split.
  - eapply Forall_impl; [exact Hall|]. intros g. by rewrite E.
  - intros k. rewrite E. apply Hcov.
Qed.

Lemma grouped_group_files (done_files rest : list Path)
    (groups : list (string * list Path)) :
  grouped done_files groups →
  grouped (done_files ++ rest) (group_files groups rest).
Proof.
  revert done_files groups. induction rest as [|f rest IH];
    intros done_files groups Hg; simpl.
  { by rewrite app_nil_r. }
  replace (done_files ++ f :: rest) with ((done_files ++ [f]) ++ rest)
    by by rewrite <- app_assoc.
  destruct (minute_key (PyPath.name f)) as [mk|] eqn:E; apply IH.
  - by apply grouped_setdefault_append.
  - by apply grouped_skip.
Qed.

Lemma grouped_all (all_files : list Path) :
  grouped all_files (group_files [] all_files).
Proof.
  apply (grouped_group_files [] all_files []). split; [constructor|].
  split; [constructor|]. intros k Hk. by destruct Hk.
Qed.

(** ** [choose_keep] *)

Lemma min_from_spec {A} (key : A → Z) (best : A) (l : list A) :
  min_from key best l ∈ best :: l ∧
  ∀ x, x ∈ best :: l → (key (min_from key best l) ≤ key x)%Z.
Proof.
  revert best. induction l as [|y l IH]; intros best; simpl.
  { split; [left|]. intros x ->%list_elem_of_singleton. lia. }
  destruct (IH (if (key y <? key best)%Z then y else best)) as [Hin Hle].
  split.
  - apply elem_of_cons in Hin as [->|Hin]; [|by do 2 right].
    destruct (key y <? key best)%Z; [right; left|left].
  - intros x Hx.
    assert (key (min_from key (if (key y <? key best)%Z then y else best) l)
            ≤ key (if (key y <? key best)%Z then y else best))%Z as Hb.
    { apply Hle. left. }
    apply elem_of_cons in Hx as [Ex|[Ex|Hx]%elem_of_cons].
    + rewrite Ex. destruct (Z.ltb_spec (key y) (key best)); lia.
    + rewrite Ex. destruct (Z.ltb_spec (key y) (key best)); lia.
    + apply Hle. by right.
Qed.

Lemma max_from_spec {A} (key : A → Z) (best : A) (l : list A) :
  max_from key best l ∈ best :: l ∧
  ∀ x, x ∈ best :: l → (key x ≤ key (max_from key best l))%Z.
Proof.
  revert best. induction l as [|y l IH]; intros best; simpl.
  { split; [left|]. intros x ->%list_elem_of_singleton. lia. }
  destruct (IH (if (key best <? key y)%Z then y else best)) as [Hin Hle].
  split.
  - apply elem_of_cons in Hin as [->|Hin]; [|by do 2 right].
    destruct (key best <? key y)%Z; [right; left|left].
  - intros x Hx.
    assert (key (if (key best <? key y)%Z then y else best)
            ≤ key (max_from key (if (key best <? key y)%Z then y else best) l))%Z
      as Hb.
    { apply Hle. left. }
    apply elem_of_cons in Hx as [Ex|[Ex|Hx]%elem_of_cons].
    + rewrite Ex. destruct (Z.ltb_spec (key best) (key y)); lia.
    + rewrite Ex. destruct (Z.ltb_spec (key best) (key y)); lia.
    + apply Hle. by right.
Qed.

Lemma choose_keep_spec (st_mtime : Path → Z) (files : list Path)
    (strategy : string) (c : Path) :
  choose_keep st_mtime files strategy = Ret c →
  strategy ∈ STRATEGIES ∧ c ∈ files ∧
  (strategy = "first_seen" → head files = Some c) ∧
  (strategy = "oldest" → ∀ f, f ∈ files → (st_mtime c ≤ st_mtime f)%Z) ∧
  (strategy = "newest" → ∀ f, f ∈ files → (st_mtime f ≤ st_mtime c)%Z).
Proof.
  unfold choose_keep.
  destruct (decide (strategy = "first_seen")) as [->|H1].
  { destruct files as [|f files]; [done|]. intros [= <-].
    split; [by vm_compute|]. split; [left|]. repeat split; done. }
  destruct (decide (strategy = "oldest")) as [->|H2].
  { destruct files as [|f files]; [done|]. intros [= <-].
    destruct (min_from_spec st_mtime f files) as [Hin Hle].
    split; [by vm_compute|]. repeat split; done. }
  destruct (decide (strategy = "newest")) as [->|H3]; [|done].
  destruct files as [|f files]; [done|]. intros [= <-].
  destruct (max_from_spec st_mtime f files) as [Hin Hle].
  split; [by vm_compute|]. repeat split; done.
Qed.

Lemma choose_keep_ret (st_mtime : Path → Z) (files : list Path) (strategy : string) :
  strategy ∈ STRATEGIES → files ≠ [] →
  ∃ c, choose_keep st_mtime files strategy = Ret c.
Proof.
  intros Hs Hne. destruct files as [|f files]; [done|]. unfold choose_keep.
  unfold STRATEGIES in Hs.
  apply elem_of_union in Hs as [[->%elem_of_singleton| ->%elem_of_singleton]%elem_of_union
                                | ->%elem_of_singleton].
  - rewrite decide_True by done. eauto.
  - rewrite decide_False, decide_True by done. eauto.
  - rewrite decide_False, decide_False, decide_True by done. eauto.
Qed.

Lemma survivor_spec (st_mtime : Path → Z) (strategy : string)
    (files : list Path) (c : Path) :
  survivor st_mtime strategy files = Some c →
  c ∈ files ∧
  (files = [c] ∨ (length files ≠ 1 ∧ choose_keep st_mtime files strategy = Ret c)).
Proof.
  unfold survivor. destruct files as [|f [|f' files]].
  - destruct (choose_keep st_mtime [] strategy) as [c'| |] eqn:E; [|done..].
    by apply choose_keep_spec in E as (_ & ?%elem_of_nil & _).
  - intros [= <-]. split; [left|by left].
  - destruct (choose_keep st_mtime (f :: f' :: files) strategy) as [c'| |] eqn:E;
      [|done..].
    intros [= <-]. split; [by apply choose_keep_spec in E as (_ & ? & _)|].
    right. split; [done|done].
Qed.

(** ** The second loop of [plan] *)

Lemma select_files_spec (st_mtime : Path → Z) (strategy : string)
    (groups : list (string * list Path)) (keep delete keep' delete' : list Path) :
  select_files st_mtime strategy groups keep delete = Ret (keep', delete') →
  ∃ K, Forall2 (λ g c, survivor st_mtime strategy g.2 = Some c) groups K ∧
       keep' = keep ++ K ∧
       delete' = delete ++
         mjoin (zip_with (λ g c, List.filter (λ f, bool_decide (f ≠ c)) g.2)
                         groups K).
Proof.
  revert keep delete. induction groups as [|[mk files] groups IH];
    intros keep delete; simpl.
  { intros [= <- <-]. exists []. by rewrite !app_nil_r. }
  destruct (decide (length files = 1)) as [Hone|Hmany].
  - destruct files as [|f [|f' files]]; [done| |done].
    intros (K & HK & -> & ->)%IH. exists (f :: K). split; [by constructor|].
    rewrite <- app_assoc. split; [done|]. simpl.
    by rewrite bool_decide_eq_false_2 by (by intros []).
  - destruct (choose_keep st_mtime files strategy) as [chosen| |] eqn:E; [|done..].
    intros (K & HK & -> & ->)%IH. exists (chosen :: K). split.
    + constructor; [|done]. simpl. unfold survivor.
      destruct files as [|f [|f' files]]; [by rewrite E|done|by rewrite E].
    + rewrite <- !app_assoc. done.
Qed.

Lemma select_files_ret (st_mtime : Path → Z) (strategy : string)
    (groups : list (string * list Path)) (keep delete : list Path) :
  strategy ∈ STRATEGIES → Forall (λ g, g.2 ≠ []) groups →
  ∃ r, select_files st_mtime strategy groups keep delete = Ret r.
Proof.
  intros Hs Hne. revert keep delete.
  induction Hne as [|[mk files] groups Hfiles _ IH]; intros keep delete; simpl.
  { eauto. }
  destruct (decide (length files = 1)) as [Hone|Hmany].
  - destruct files as [|f [|f' files]]; [done|apply IH|done].
  - destruct (choose_keep_ret st_mtime files strategy Hs Hfiles) as [c ->].
    apply IH.
Qed.

Lemma chosen_rest_Permutation (files : list Path) (c : Path) :
  c ∈ files → NoDup files →
  c :: List.filter (λ f, bool_decide (f ≠ c)) files ≡ₚ files.
Proof.
  intros Hin Hfiles. induction Hfiles as [|f files Hf _ IH];
    [by apply elem_of_nil in Hin|].
  simpl. destruct (decide (f = c)) as [->|Hne].
  - rewrite bool_decide_eq_false_2 by (by intros []). constructor.
    clear IH Hin. induction files as [|g files IH]; [done|]. simpl.
    rewrite bool_decide_eq_true_2.
    + constructor. apply IH. intros ?. apply Hf. by right.
    + intros ->. apply Hf. left.
  - rewrite bool_decide_eq_true_2 by done.
    apply elem_of_cons in Hin as [->|Hin]; [done|].
    rewrite <- (IH Hin) at 2. apply perm_swap.
Qed.

Lemma kept_deleted_Permutation (st_mtime : Path → Z) (strategy : string)
    (groups : list (string * list Path)) (K : list Path) :
  Forall2 (λ g c, survivor st_mtime strategy g.2 = Some c) groups K →
  Forall (λ g, NoDup g.2) groups →
  K ++ mjoin (zip_with (λ g c, List.filter (λ f, bool_decide (f ≠ c)) g.2) groups K)
    ≡ₚ mjoin groups.*2.
Proof.
  induction 1 as [|[mk files] c groups K Hc _ IH]; intros Hnd; [done|].
  inversion Hnd as [|? ? Hfiles Hnd']; subst.
  apply survivor_spec in Hc as [Hin _]. simpl in Hin, Hfiles.
  rewrite fmap_cons. cbn [zip_with snd mjoin list_join].
  rewrite <- (chosen_rest_Permutation files c Hin Hfiles) at 2.
  rewrite <- (IH Hnd'). simpl. constructor.
  rewrite !app_assoc. apply Permutation_app; [|done]. apply Permutation_app_comm.
Qed.

Lemma paired_survivor (st_mtime : Path → Z) (strategy : string)
    (groups : list (string * list Path)) (K : list Path) (g : string * list Path) :
  Forall2 (λ g c, survivor st_mtime strategy g.2 = Some c) groups K →
  g ∈ groups →
  ∃ c, survivor st_mtime strategy g.2 = Some c ∧ c ∈ K ∧
       ∀ f, f ∈ g.2 → f ≠ c →
            f ∈ mjoin (zip_with (λ g c, List.filter (λ f, bool_decide (f ≠ c)) g.2)
                                groups K).
Proof.
  induction 1 as [|g' c groups K Hc _ IH]; [by intros ?%elem_of_nil|].
  intros [->|Hin]%elem_of_cons.
  - exists c. split; [done|]. split; [left|]. intros f Hf Hne.
    cbn [zip_with mjoin list_join]. apply elem_of_app. left.
    apply filter_elem_of. split; [done|]. by apply bool_decide_eq_true_2.
  - destruct (IH Hin) as (c' & Hc' & HK & Hdel). exists c'.
    split; [done|]. split; [by right|]. intros f Hf Hne.
    cbn [zip_with mjoin list_join]. apply elem_of_app. right. by apply Hdel.
Qed.

(** ** [plan] *)

Lemma grouped_facts (all_files : list Path) (groups : list (string * list Path)) :
  grouped all_files groups → NoDup all_files →
  Forall (λ g, NoDup g.2) groups ∧ Forall (λ g, g.2 ≠ []) groups ∧
  NoDup (mjoin groups.*2) ∧
  ∀ f, f ∈ mjoin groups.*2 ↔ f ∈ all_files ∧ bucketable f = true.
Proof.
  intros (Hkeys & Hall & Hcov) Hnd.
  assert (Forall (λ g, NoDup g.2) groups) as H1.
  { eapply Forall_impl; [exact Hall|]. intros g [-> _]. by apply filter_NoDup. }
  assert (Forall (λ g, g.2 ≠ []) groups) as H2.
  { eapply Forall_impl; [exact Hall|]. by intros g [_ ?]. }
  split; [done|]. split; [done|]. split.
  - clear Hcov H2. induction groups as [|[k files] groups IH]; [constructor|].
    rewrite fmap_cons in Hkeys. apply NoDup_cons in Hkeys as [Hk Hkeys].
    inversion Hall as [|? ? [E _] Hall']; subst.
    inversion H1 as [|? ? Hfiles H1']; subst. cbn [fst snd] in *.
    rewrite fmap_cons. cbn [mjoin list_join snd]. apply NoDup_app.
    split; [done|]. split; [|by apply IH].
    intros f Hf (l & Hl & (g & -> & Hg)%list_elem_of_fmap)%list_elem_of_join.
    rewrite E in Hf. apply bucket_elem_of in Hf as [_ Hf].
    destruct (proj1 (Forall_forall _ _) Hall' g Hg) as [Eg _].
    rewrite Eg in Hl. apply bucket_elem_of in Hl as [_ Hl].
    apply Hk. apply list_elem_of_fmap. exists g. split; [congruence|done].
  - intros f. rewrite list_elem_of_join. unfold bucketable.
    rewrite bool_decide_eq_true. split.
    + intros (l & Hl & (g & -> & Hg)%list_elem_of_fmap).
      destruct (proj1 (Forall_forall _ _) Hall g Hg) as [Eg _].
      rewrite Eg in Hl. apply bucket_elem_of in Hl as [? Hl]. eauto.
    + intros [Hf [k Hk]].
      assert (f ∈ bucket all_files k) as Hb by by apply bucket_elem_of.
      assert (k ∈ groups.*1) as (g & -> & Hg)%list_elem_of_fmap.
      { apply Hcov. intros E. rewrite E in Hb. by apply elem_of_nil in Hb. }
      exists g.2. split; [|apply list_elem_of_fmap; eauto].
      by destruct (proj1 (Forall_forall _ _) Hall g Hg) as [-> _].
Qed.

Lemma collect_files_NoDup (globbed : list Path) :
  NoDup globbed → NoDup (collect_files globbed).
Proof. unfold collect_files, sorted. by rewrite merge_sort_Permutation. Qed.

(** [plan] returns for each of the three strategies. *)
Lemma plan_ret (st_mtime : Path → Z) (globbed : list Path) (strategy : string) :
  NoDup globbed → strategy ∈ STRATEGIES →
  ∃ keep delete, plan st_mtime globbed strategy = Ret (keep, delete).
Proof.
  intros Hnd Hs. unfold plan.
  destruct (grouped_facts _ _ (grouped_all (collect_files globbed))
              (collect_files_NoDup _ Hnd)) as (_ & Hne & _).
  destruct (select_files_ret st_mtime strategy _ [] [] Hs Hne) as [[keep delete] E].
  eauto.
Qed.

(** What [plan] returns, whenever it returns: the two lists hold each file
    that has a minute key once, and each duplicate group has its survivor
    in [keep] and its other files in [delete]. *)
Lemma plan_spec (st_mtime : Path → Z) (globbed : list Path) (strategy : string)
    (keep delete : list Path) :
  NoDup globbed → plan st_mtime globbed strategy = Ret (keep, delete) →
  NoDup (keep ++ delete) ∧
  (∀ f, f ∈ keep ++ delete ↔ f ∈ globbed ∧ bucketable f = true) ∧
  ∀ mk, bucket (collect_files globbed) mk ≠ [] →
        ∃ c, survivor st_mtime strategy (bucket (collect_files globbed) mk) = Some c ∧
             c ∈ keep ∧
             ∀ f, f ∈ bucket (collect_files globbed) mk → f ≠ c → f ∈ delete.
Proof.
  intros Hnd Hplan. unfold plan in Hplan.
  pose proof (grouped_all (collect_files globbed)) as Hg.
  destruct (grouped_facts _ _ Hg (collect_files_NoDup _ Hnd))
    as (Hnds & Hne & Hjoin & Hmem).
  apply select_files_spec in Hplan as (K & HK & -> & ->). simpl.
  pose proof (kept_deleted_Permutation _ _ _ _ HK Hnds) as Hperm.
  split; [by rewrite Hperm|]. split.
  - intros f. rewrite Hperm, Hmem. unfold collect_files.
    by rewrite sorted_elem_of.
  - intros mk Hmk. destruct Hg as (_ & Hall & Hcov).
    apply Hcov, list_elem_of_fmap in Hmk as (g & -> & Hin).
    destruct (paired_survivor _ _ _ _ _ HK Hin) as (c & Hc & HcK & Hdel).
    destruct (proj1 (Forall_forall _ _) Hall g Hin) as [Eg _].
    rewrite <- Eg. eauto.
Qed.

(** C6.  For every population of distinct files and each of the three
    strategies, [plan] returns two lists that partition the files whose name
    has a minute key: such a file is in exactly one of [keep] and [delete],
    once; a file of either list is a file of the population whose name has a
    minute key, so a file whose name does not match the pattern is in
    neither. *)
Theorem plan_partition (st_mtime : Path → Z) (globbed : list Path)
    (strategy : string) :
  NoDup globbed → strategy ∈ STRATEGIES →
  ∃ keep delete,
    plan st_mtime globbed strategy = Ret (keep, delete) ∧
    (∀ f, f ∈ globbed → bucketable f = true →
          (f ∈ keep ∧ (f ∉ delete)) ∨ ((f ∉ keep) ∧ f ∈ delete)) ∧
    (∀ f, f ∈ keep ∨ f ∈ delete → f ∈ globbed ∧ bucketable f = true) ∧
    (∀ f, f ∈ globbed → minute_key (PyPath.name f) = None →
          (f ∉ keep) ∧ (f ∉ delete)) ∧
    NoDup keep ∧ NoDup delete.
Proof.
  intros Hnd Hs.
  destruct (plan_ret st_mtime globbed strategy Hnd Hs) as (keep & delete & Hplan).
  exists keep, delete. split; [exact Hplan|].
  destruct (plan_spec _ _ _ _ _ Hnd Hplan) as (Hnodup & Hmem & _).
  apply NoDup_app in Hnodup as (Hk & Hdisj & Hd).
  assert (∀ f, f ∈ keep ∨ f ∈ delete → f ∈ globbed ∧ bucketable f = true) as Hsub.
  { intros f Hf. apply Hmem, elem_of_app, Hf. }
  split; [|split; [exact Hsub|split; [|split; [exact Hk|exact Hd]]]].
  - intros f Hf Hb.
    assert (f ∈ keep ++ delete) as [Hin|Hin]%elem_of_app by by apply Hmem.
    + left. split; [exact Hin|by apply Hdisj].
    + right. split; [|exact Hin]. intros Hin'. by apply (Hdisj f).
  - intros f Hf Hnone.
    assert (bucketable f = false) as Hb.
    { unfold bucketable. rewrite Hnone. by apply bool_decide_eq_false_2; intros []. }
    split; intros Hin.
    + destruct (Hsub f (or_introl Hin)) as [_ ?]. congruence.
    + destruct (Hsub f (or_intror Hin)) as [_ ?]. congruence.
Qed.

Lemma plan_partition_witness :
  NoDup example_population ∧ "oldest" ∈ STRATEGIES ∧
  ∃ keep delete,
    plan example_mtime example_population "oldest" = Ret (keep, delete) ∧
    NoDup keep ∧ NoDup delete.
Proof.
  assert (NoDup example_population) as H1.
  { apply (bool_decide_unpack _). vm_compute. exact I. }
  assert ("oldest" ∈ STRATEGIES) as H2.
  { apply (bool_decide_unpack _). vm_compute. exact I. }
  split; [exact H1|]. split; [exact H2|].
  destruct (plan_partition example_mtime example_population "oldest" H1 H2)
    as (keep & delete & Hplan & _ & _ & _ & Hk & Hd).
  exists keep, delete. split; [exact Hplan|]. split; [exact Hk|exact Hd].
Defined.

Lemma path_le_refl (p : Path) : PyPath.le p p.
Proof. by destruct (path_leb_total p p). Qed.

Lemma bucket_first_least (all_files : list Path) (mk : string) (c : Path) :
  StronglySorted PyPath.le all_files →
  head (bucket all_files mk) = Some c →
  ∀ f, f ∈ bucket all_files mk → PyPath.le c f.
Proof.
  intros Hs Hc f Hf.
  pose proof (filter_StronglySorted PyPath.le
                (λ f, bool_decide (minute_key (PyPath.name f) = Some mk))
                all_files Hs) as Hb.
  fold (bucket all_files mk) in Hb.
  destruct (bucket all_files mk) as [|x l]; [done|]. injection Hc as ->.
  apply StronglySorted_inv in Hb as [_ Hb].
  apply elem_of_cons in Hf as [->|Hf]; [apply path_le_refl|].
  by apply (proj1 (Forall_forall _ _) Hb).
Qed.

(** C7.  Whenever [plan] returns, each duplicate group has exactly one of
    its files in [keep], the others being in [delete].  A group of one file
    keeps that file, whatever the strategy and the modification times.  In a
    larger group the file kept is the first of the group in the sorted input
    under [first_seen], a file of least modification time under [oldest], a
    file of greatest modification time under [newest].  For the three files
    of the example and [oldest], whatever the modification times, the two
    files of minute [20250816_0601] leave one survivor, the one with the
    least modification time, and the file of minute [20250816_0602] is
    kept. *)
Theorem plan_survivors (st_mtime : Path → Z) (globbed : list Path)
    (strategy : string) :
  NoDup globbed → strategy ∈ STRATEGIES →
  (∃ keep delete,
     plan st_mtime globbed strategy = Ret (keep, delete) ∧
     ∀ mk, bucket (collect_files globbed) mk ≠ [] →
       ∃ c, c ∈ bucket (collect_files globbed) mk ∧
            (∀ f, f ∈ bucket (collect_files globbed) mk → f ∈ keep ↔ f = c) ∧
            (∀ f, f ∈ bucket (collect_files globbed) mk → f ≠ c → f ∈ delete) ∧
            (1 < length (bucket (collect_files globbed) mk) →
             (strategy = "first_seen" →
              head (bucket (collect_files globbed) mk) = Some c ∧
              ∀ f, f ∈ bucket (collect_files globbed) mk → PyPath.le c f) ∧
             (strategy = "oldest" →
              ∀ f, f ∈ bucket (collect_files globbed) mk →
                   (st_mtime c ≤ st_mtime f)%Z) ∧
             (strategy = "newest" →
              ∀ f, f ∈ bucket (collect_files globbed) mk →
                   (st_mtime f ≤ st_mtime c)%Z))) ∧
  (∀ mtime strategy' keep' delete' mk f,
     plan mtime globbed strategy' = Ret (keep', delete') →
     bucket (collect_files globbed) mk = [f] → f ∈ keep') ∧
  (minute_key (PyPath.name p060153) = Some "20250816_0601" ∧
   minute_key (PyPath.name p060130) = Some "20250816_0601" ∧
   minute_key (PyPath.name p060259) = Some "20250816_0602" ∧
   ∀ mtime,
     plan mtime example_files "oldest" =
       Ret ([if (mtime p060153 <? mtime p060130)%Z then p060153 else p060130;
             p060259],
            [if (mtime p060153 <? mtime p060130)%Z then p060130 else p060153])).
Proof.
  intros Hnd Hs. split; [|split].
  - destruct (plan_ret st_mtime globbed strategy Hnd Hs) as (keep & delete & Hplan).
    exists keep, delete. split; [exact Hplan|].
    destruct (plan_spec _ _ _ _ _ Hnd Hplan) as (Hnodup & _ & Hgroups).
    apply NoDup_app in Hnodup as (_ & Hdisj & _).
    intros mk Hmk. destruct (Hgroups mk Hmk) as (c & Hc & Hkeep & Hdel).
    exists c. apply survivor_spec in Hc as [Hin Hc].
    split; [exact Hin|]. split; [|split; [exact Hdel|]].
    + intros f Hf. split; [|by intros ->].
      intros Hfk. destruct (decide (f = c)) as [|Hne]; [done|].
      destruct (Hdisj f Hfk). by apply Hdel.
    + intros Hlen. destruct Hc as [E|[_ Hc]]; [rewrite E in Hlen; simpl in Hlen; lia|].
      apply choose_keep_spec in Hc as (_ & _ & Hfirst & Hold & Hnew).
      split; [|split; [exact Hold|exact Hnew]].
      intros Hstr. split; [by apply Hfirst|].
      apply bucket_first_least; [apply sorted_StronglySorted|by apply Hfirst].
  - intros mtime strategy' keep' delete' mk f Hplan E.
    destruct (plan_spec _ _ _ _ _ Hnd Hplan) as (_ & _ & Hgroups).
    destruct (Hgroups mk) as (c & Hc & Hkeep & _); [by rewrite E|].
    rewrite E in Hc. simpl in Hc. by injection Hc as <-.
  - split; [vm_compute; reflexivity|]. split; [vm_compute; reflexivity|].
    split; [vm_compute; reflexivity|]. intros mtime. unfold plan.
    replace (group_files [] (collect_files example_files))
      with [("20250816_0601", [p060130; p060153]); ("20250816_0602", [p060259])]
      by (vm_compute; reflexivity).
    cbn [select_files length]. rewrite decide_False by done.
    unfold choose_keep. rewrite decide_False, decide_True by done.
    cbn [min_from app List.filter]. rewrite decide_True by done.
    cbn [app]. destruct (mtime p060153 <? mtime p060130)%Z;
      vm_compute; reflexivity.
Qed.

Lemma plan_survivors_witness :
  NoDup example_population ∧ "oldest" ∈ STRATEGIES ∧
  ∃ keep delete,
    plan example_mtime example_population "oldest" = Ret (keep, delete) ∧
    ∃ c, c ∈ bucket (collect_files example_population) "20250816_0601" ∧
         c ∈ keep ∧
         ∀ f, f ∈ bucket (collect_files example_population) "20250816_0601" →
              (example_mtime c ≤ example_mtime f)%Z.
Proof.
  assert (NoDup example_population) as H1.
  { apply (bool_decide_unpack _). vm_compute. exact I. }
  assert ("oldest" ∈ STRATEGIES) as H2.
  { apply (bool_decide_unpack _). vm_compute. exact I. }
  split; [exact H1|]. split; [exact H2|].
  destruct (plan_survivors example_mtime example_population "oldest" H1 H2)
    as ((keep & delete & Hplan & Hgroups) & _).
  exists keep, delete. split; [exact Hplan|].
  destruct (Hgroups "20250816_0601") as (c & Hc & Hkeep & _ & Hstrat).
  { vm_compute. discriminate. }
  exists c. split; [exact Hc|]. split; [by apply Hkeep|].
  apply Hstrat; [vm_compute; lia|reflexivity].
Defined.

(** ** Worked examples *)

Example successive_taken :
  successive taken_fs ["/"; "t"; "a.jpg"] 3 =
    [Ret ["/"; "t"; "a_2.jpg"]; Ret ["/"; "t"; "a_3.jpg"]; Ret ["/"; "t"; "a_4.jpg"]].
Proof. vm_compute. reflexivity. Qed.

Example unique_path_free :
  _unique_path taken_fs ["/"; "t"; "b.tar.gz"] = Ret ["/"; "t"; "b.tar.gz"].
Proof. vm_compute. reflexivity. Qed.

Example unique_path_root : _unique_path taken_fs ["/"] = Raise ValueError.
Proof. vm_compute. reflexivity. Qed.

Example list_images_page :
  list_images ["/"; "pub"] uuid_of feeder_fs "officefeeder1" "cats" 1 2 =
    Ret {| images :=
             [{| id := "id0|/pub/cat_pics/officefeeder1/cats/b.jpeg";
                 url := "/cat_pics/officefeeder1/cats/b.jpeg";
                 filename := "b.jpeg" |};
              {| id := "id1|/pub/cat_pics/officefeeder1/cats/c.PNG";
                 url := "/cat_pics/officefeeder1/cats/c.PNG";
                 filename := "c.PNG" |}];
           total := 5; offset := 1; limit := 2 |}.
Proof. vm_compute. reflexivity. Qed.

Example list_images_missing :
  list_images ["/"; "pub"] uuid_of feeder_fs "officefeeder1" "dogs" 0 10 =
    Raise DirectoryNotFound.
Proof. vm_compute. reflexivity. Qed.

Example classify_invalid_category :
  classify ["/"; "pub"] ["milo"] collision_state
    "u|/pub/cat_pics/f/cats/a.jpg" "rex" = (Raise InvalidCategory, collision_state).
Proof. reflexivity. Qed.

Example classify_bad_image_id :
  classify ["/"; "pub"] ["milo"] collision_state "no-separator" "milo"
    = (Raise MalformedReference, collision_state).
Proof. reflexivity. Qed.

Example undo_without_record :
  undo collision_state "u|/pub/cat_pics/f/cats/other.jpg"
    = (Raise NoSuchMove, collision_state).
Proof. reflexivity. Qed.

Example minute_key_examples :
  minute_key "processed_20250816_060153_097913.jpg" = Some "20250816_0601" ∧
  minute_key "processed_20250816_060153_097913.jpg.bak" = None ∧
  minute_key "processed_20250816_060153_.jpg" = None ∧
  minute_key "xprocessed_20250816_060153_097913.jpg" = None ∧
  minute_key "notes.txt" = None.
Proof. vm_compute. repeat split. Qed.

Example plan_example :
  plan example_mtime example_population "oldest" =
    Ret ([p060153; p060259], [p060130]) ∧
  plan example_mtime example_population "newest" =
    Ret ([p060130; p060259], [p060153]) ∧
  plan example_mtime example_population "first_seen" =
    Ret ([p060130; p060259], [p060153]) ∧
  plan example_mtime example_population "latest" = Raise ValueError.
Proof. vm_compute. repeat split. Qed.

(** * Further properties of the code *)

(** ** What [classify] and [undo] do to the disk *)

Lemma mkdir_from_new (fs fs' : FS) (above : Path) (parts : list string)
    (q : Path) (n : node) :
  Fs.mkdir_from fs above parts = Some fs' → fs' !! q = Some n →
  fs !! q = Some n ∨ (fs !! q = None ∧ n = Dir).
Proof.
  revert fs above. induction parts as [|part parts IH]; intros fs above; simpl.
  { intros [= <-] Hq. by left. }
  destruct (fs !! (above ++ [part])) as [[c|]|] eqn:E; [done|by apply IH|].
  intros Hm Hq. destruct (IH _ _ Hm Hq) as [Hq'|[Hq' ->]].
  - destruct (decide (above ++ [part] = q)) as [<-|Hne].
    + rewrite lookup_insert_eq in Hq'. injection Hq' as <-. by right.
    + rewrite lookup_insert_ne in Hq' by done. by left.
  - right. split; [|done].
    destruct (decide (above ++ [part] = q)) as [<-|Hne].
    + by rewrite lookup_insert_eq in Hq'.
    + by rewrite lookup_insert_ne in Hq'.
Qed.

(** [mkdir] leaves the regular files as they are. *)
Lemma mkdir_files (fs fs' : FS) (p q : Path) (c : nat) :
  Fs.mkdir fs p = Some fs' → fs' !! q = Some (File c) ↔ fs !! q = Some (File c).
Proof.
  intros Hm. split.
  - intros Hq. by destruct (mkdir_from_new _ _ _ _ _ _ Hm Hq) as [?|[_ ?]].
  - intros Hq. by apply (mkdir_from_keeps _ _ _ _ _ _ Hm).
Qed.

(** X1.  A successful [classify] of a regular file moves that file and nothing
    else: the file is at the target, which was free, and no longer at the
    source; every other entry of the disk is where it was, and no regular file
    appears anywhere else.  The target is the candidate
    [CLASSIFIED_ROOT/category/name] or one of its numbered siblings, and the
    history gains the one entry of this move. *)
Theorem classify_moves_one_entry (public_dir : Path) (CAT_NAMES : list string)
    (st st1 : state) (req_image_id req_category u s : string) (c : nat)
    (r : classified) :
  PyStr.split_once "|" req_image_id = Some (u, s) →
  fs st !! PyPath.of_str s = Some (File c) →
  classify public_dir CAT_NAMES st req_image_id req_category = (Ret r, st1) →
  ∃ t,
    fs st !! t = None ∧ fs st1 !! t = Some (File c) ∧
    fs st1 !! PyPath.of_str s = None ∧
    (t = CLASSIFIED_ROOT public_dir // req_category // PyPath.name (PyPath.of_str s) ∨
     ∃ k, 1 ≤ k ∧
          t = numbered (CLASSIFIED_ROOT public_dir // req_category
                          // PyPath.name (PyPath.of_str s)) k) ∧
    (∀ q x, q ≠ PyPath.of_str s → fs st !! q = Some x → fs st1 !! q = Some x) ∧
    (∀ q c', q ≠ t → fs st1 !! q = Some (File c') → fs st !! q = Some (File c')) ∧
    MOVE_HISTORY st1 = MOVE_HISTORY st ++
      [{| image_id := req_image_id; original_path := PyPath.of_str s;
          new_path := t |}].
Proof.
  intros Hs0 Hsrc0 Hc.
  apply classify_success in Hc
    as (u' & s' & fs1 & t & n & Hv & Hs & Hmk & Hu & Ht & Hsrc & Hfs & Hh).
  rewrite Hs0 in Hs. injection Hs as <- <-.
  pose proof (mkdir_from_keeps _ _ _ _ _ _ Hmk Hsrc0) as Hn1.
  rewrite Hsrc in Hn1. injection Hn1 as ->.
  assert (t ≠ PyPath.of_str s) as Hne by congruence.
  exists t. split.
  { destruct (fs st !! t) as [x|] eqn:E; [|done].
    pose proof (mkdir_from_keeps _ _ _ _ _ _ Hmk E). congruence. }
  split; [by rewrite Hfs, lookup_insert_eq|].
  split; [by rewrite Hfs, lookup_insert_ne, lookup_delete_eq|].
  split.
  { destruct (Fs.exists_ fs1 (CLASSIFIED_ROOT public_dir // req_category
                                // PyPath.name (PyPath.of_str s))) eqn:Ec.
    - right. destruct (decide (PyPath.name
          (CLASSIFIED_ROOT public_dir // req_category
             // PyPath.name (PyPath.of_str s)) = "")) as [Hn|Hn].
      + unfold _unique_path in Hu. rewrite Ec in Hu. simpl in Hu.
        unfold PyPath.with_name in Hu. by rewrite bool_decide_eq_true_2 in Hu.
      + destruct (unique_path_occupied _ _ Hn Ec) as (k & Hk & Hu' & _).
        exists k. split; [done|]. congruence.
    - left. unfold _unique_path in Hu. rewrite Ec in Hu. simpl in Hu. congruence. }
  split.
  { intros q x Hq Hx. pose proof (mkdir_from_keeps _ _ _ _ _ _ Hmk Hx) as Hx1.
    rewrite Hfs, lookup_insert_ne, lookup_delete_ne; [done|congruence..]. }
  split; [|done].
  intros q c' Hq. rewrite Hfs, lookup_insert_ne by done.
  intros Hx. destruct (decide (q = PyPath.of_str s)) as [->|Hqs].
  - by rewrite lookup_delete_eq in Hx.
  - rewrite lookup_delete_ne in Hx by done. by apply (mkdir_files _ _ _ _ _ Hmk).
Qed.

Lemma classify_moves_one_entry_witness :
  PyStr.split_once "|" "u|/pub/cat_pics/f/cats/a.jpg"
    = Some ("u", "/pub/cat_pics/f/cats/a.jpg") ∧
  fs collision_state !! PyPath.of_str "/pub/cat_pics/f/cats/a.jpg" = Some (File 7) ∧
  classify ["/"; "pub"] ["milo"] collision_state
    "u|/pub/cat_pics/f/cats/a.jpg" "unknown"
  = (Ret {| stored_at := "cat_pics/classified/unknown/a_1.jpg" |},
     (classify ["/"; "pub"] ["milo"] collision_state
        "u|/pub/cat_pics/f/cats/a.jpg" "unknown").2) ∧
  ∃ t,
    fs collision_state !! t = None ∧
    fs (classify ["/"; "pub"] ["milo"] collision_state
          "u|/pub/cat_pics/f/cats/a.jpg" "unknown").2 !! t = Some (File 7).
Proof.
  assert (PyStr.split_once "|" "u|/pub/cat_pics/f/cats/a.jpg"
          = Some ("u", "/pub/cat_pics/f/cats/a.jpg")) as H1 by reflexivity.
  assert (fs collision_state !! PyPath.of_str "/pub/cat_pics/f/cats/a.jpg"
          = Some (File 7)) as H2.
  { reflexivity. }
  assert (classify ["/"; "pub"] ["milo"] collision_state
            "u|/pub/cat_pics/f/cats/a.jpg" "unknown"
          = (Ret {| stored_at := "cat_pics/classified/unknown/a_1.jpg" |},
             (classify ["/"; "pub"] ["milo"] collision_state
                "u|/pub/cat_pics/f/cats/a.jpg" "unknown").2)) as H3.
  { reflexivity. }
  split; [exact H1|]. split; [exact H2|]. split; [exact H3|].
  destruct (classify_moves_one_entry _ _ _ _ _ _ _ _ _ _ H1 H2 H3)
    as (t & Hfree & Hat & _).
  exists t. split; [exact Hfree|exact Hat].
Defined.



(** The outcomes of the body of the loop of [undo], one by one. *)
Lemma undo_record_cases (st : state) (i : nat) (m : move_record) :
  (Fs.exists_ (fs st) (new_path m) = false ∧
   undo_record st i m =
     (Ret {| restored_to := PyPath.to_str (original_path m) |},
      {| fs := fs st; MOVE_HISTORY := delete i (MOVE_HISTORY st) |})) ∨
  (∃ n, fs st !! new_path m = Some n ∧
     ((Fs.mkdir (fs st) (PyPath.parent (original_path m)) = None ∧
       undo_record st i m = (Raise OSError, st)) ∨
      ∃ fs1, Fs.mkdir (fs st) (PyPath.parent (original_path m)) = Some fs1 ∧
        ((∃ e, e ≠ NoSuchMove ∧
               undo_record st i m =
                 (Raise e, {| fs := fs1; MOVE_HISTORY := MOVE_HISTORY st |})) ∨
         ∃ restore,
           (restore = original_path m ∨ ∃ k, restore = numbered (original_path m) k) ∧
           fs1 !! restore = None ∧
           Fs.is_dir fs1 (PyPath.parent restore) = true ∧
           undo_record st i m =
             (Ret {| restored_to := PyPath.to_str (original_path m) |},
              {| fs := <[restore := n]> (delete (new_path m) fs1);
                 MOVE_HISTORY := delete i (MOVE_HISTORY st) |})))).
Proof.
  unfold undo_record. destruct (Fs.exists_ (fs st) (new_path m)) eqn:He.
  2: { by left. }
  right. apply bool_decide_eq_true in He as [n Hn]. exists n. split; [done|].
  destruct (Fs.mkdir (fs st) (PyPath.parent (original_path m))) as [fs1|] eqn:Hmk.
  2: { by left. }
  right. exists fs1. split; [done|].
  pose proof (mkdir_from_keeps _ _ _ _ _ _ Hmk Hn) as Hn1.
  assert (∀ restore,
    (restore = original_path m ∨ ∃ k, restore = numbered (original_path m) k) →
    fs1 !! restore = None →
    (∃ e, e ≠ NoSuchMove ∧
       match Fs.move fs1 (new_path m) restore with
       | Some fs2 =>
           (Ret {| restored_to := PyPath.to_str (original_path m) |},
            {| fs := fs2; MOVE_HISTORY := delete i (MOVE_HISTORY st) |})
       | None => (Raise RestoreFailed, {| fs := fs1; MOVE_HISTORY := MOVE_HISTORY st |})
       end = (Raise e, {| fs := fs1; MOVE_HISTORY := MOVE_HISTORY st |})) ∨
    ∃ restore',
      (restore' = original_path m ∨ ∃ k, restore' = numbered (original_path m) k) ∧
      fs1 !! restore' = None ∧ Fs.is_dir fs1 (PyPath.parent restore') = true ∧
      match Fs.move fs1 (new_path m) restore with
      | Some fs2 =>
          (Ret {| restored_to := PyPath.to_str (original_path m) |},
           {| fs := fs2; MOVE_HISTORY := delete i (MOVE_HISTORY st) |})
      | None => (Raise RestoreFailed, {| fs := fs1; MOVE_HISTORY := MOVE_HISTORY st |})
      end =
        (Ret {| restored_to := PyPath.to_str (original_path m) |},
         {| fs := <[restore' := n]> (delete (new_path m) fs1);
            MOVE_HISTORY := delete i (MOVE_HISTORY st) |})) as Hmove.
  { intros restore Hform Hfree. unfold Fs.move. rewrite Hn1.
    assert (Fs.is_dir fs1 restore = false) as ->.
    { unfold Fs.is_dir. rewrite Hfree. by apply bool_decide_eq_false_2. }
    simpl andb. cbv iota.
    destruct (Fs.is_dir fs1 (PyPath.parent restore)) eqn:Hd.
    - right. by exists restore.
    - left. by exists RestoreFailed. }
  destruct (Fs.exists_ fs1 (original_path m)) eqn:Ho; simpl negb; cbv iota.
  - destruct (_unique_path fs1 (original_path m)) as [restore|e|] eqn:Eu.
    + apply Hmove.
      * apply unique_path_ret in Eu as [->|?]; auto.
      * by apply exists_false, (unique_path_fresh _ _ _ Eu).
    + left. exists e. split; [|done]. by apply unique_path_raise in Eu as ->.
    + by destruct (unique_path_not_diverge fs1 (original_path m)).
  - apply Hmove; [by left|]. by apply exists_false.
Qed.



(** X4.  A successful [undo] overwrites nothing.  When the recorded new location
    is gone the disk is left as it is.  When a regular file is found there it
    is put at the original location or at one of its numbered siblings, a
    place that was free; it is no longer at the new location, every other
    entry of the disk is where it was, and no regular file appears anywhere
    else. *)
Theorem undo_restores_without_overwriting (st st' : state) (req_image_id : string)
    (u : undone) :
  undo st req_image_id = (Ret u, st') →
  ∃ i m,
    latest (MOVE_HISTORY st) req_image_id i m ∧
    (fs st !! new_path m = None → fs st' = fs st) ∧
    ∀ c, fs st !! new_path m = Some (File c) →
      ∃ restore,
        (restore = original_path m ∨ ∃ k, restore = numbered (original_path m) k) ∧
        fs st !! restore = None ∧ fs st' !! restore = Some (File c) ∧
        fs st' !! new_path m = None ∧
        (∀ q x, q ≠ new_path m → fs st !! q = Some x → fs st' !! q = Some x) ∧
        (∀ q c, q ≠ restore → fs st' !! q = Some (File c) →
                fs st !! q = Some (File c)).
Proof.
  destruct (undo_cases st req_image_id) as [[_ E]|(i & m & Hl & E)]; rewrite E;
    [done|].
  intros Hr. exists i, m. split; [done|].
  destruct (undo_record_cases st i m)
    as [[He Eq]|(n & Hn & [[_ Eq]|(fs1 & Hmk & [(e' & _ & Eq)|(r & Hform & Hfree & _ & Eq)])])];
    rewrite Eq in Hr; try done.
  - injection Hr as _ <-. apply exists_false in He. split; [done|].
    intros n Hn. congruence.
  - injection Hr as _ <-. simpl. split; [congruence|].
    intros c Hc. rewrite Hn in Hc. injection Hc as ->.
    pose proof (mkdir_from_keeps _ _ _ _ _ _ Hmk Hn) as Hn1.
    assert (r ≠ new_path m) as Hne by congruence.
    exists r. split; [done|]. split.
    { destruct (fs st !! r) as [x|] eqn:Ex; [|done].
      pose proof (mkdir_from_keeps _ _ _ _ _ _ Hmk Ex). congruence. }
    split; [by rewrite lookup_insert_eq|].
    split; [by rewrite lookup_insert_ne, lookup_delete_eq|].
    split.
    + intros q x Hq Hx. pose proof (mkdir_from_keeps _ _ _ _ _ _ Hmk Hx) as Hx1.
      destruct (decide (q = r)) as [->|Hqr]; [congruence|].
      by rewrite lookup_insert_ne, lookup_delete_ne.
    + intros q c' Hq. rewrite lookup_insert_ne by done.
      destruct (decide (q = new_path m)) as [->|Hqn].
      * by rewrite lookup_delete_eq.
      * rewrite lookup_delete_ne by done. apply (mkdir_files _ _ _ _ _ Hmk).
Qed.

Lemma undo_restores_without_overwriting_witness :
  undo collision_state "u|/pub/cat_pics/f/cats/a.jpg"
    = (Ret {| restored_to := "/pub/cat_pics/f/cats/a.jpg" |},
       (undo collision_state "u|/pub/cat_pics/f/cats/a.jpg").2) ∧
  ∃ i m, latest (MOVE_HISTORY collision_state) "u|/pub/cat_pics/f/cats/a.jpg" i m.
Proof.
  assert (undo collision_state "u|/pub/cat_pics/f/cats/a.jpg"
          = (Ret {| restored_to := "/pub/cat_pics/f/cats/a.jpg" |},
             (undo collision_state "u|/pub/cat_pics/f/cats/a.jpg").2)) as H.
  { reflexivity. }
  split; [exact H|].
  destruct (undo_restores_without_overwriting _ _ _ _ H) as (i & m & Hl & _).
  by exists i, m.
Defined.

(** ** More on [list_images] *)

(** X5.  With plain feeder and source names the only failure of [list_images] is
    the 404 for a missing directory, raised exactly when the directory is
    missing. *)
Theorem list_images_fails_when_missing (public_dir : Path) (uuid4 : nat → string)
    (fs : FS) (feeder source : string) (offset limit : Z) :
  plain_name feeder → plain_name source →
  (Fs.exists_ fs (ROOT public_dir // feeder // source) = false →
   list_images public_dir uuid4 fs feeder source offset limit
     = Raise DirectoryNotFound) ∧
  (∀ e, list_images public_dir uuid4 fs feeder source offset limit = Raise e →
        e = DirectoryNotFound ∧
        Fs.exists_ fs (ROOT public_dir // feeder // source) = false) ∧
  list_images public_dir uuid4 fs feeder source offset limit ≠ Diverge.
Proof.
  intros Hf Hs.
  destruct (Fs.exists_ fs (ROOT public_dir // feeder // source)) eqn:He.
  - destruct (list_images_ret public_dir uuid4 fs feeder source offset limit
                Hf Hs He) as (items & -> & _).
    split; [done|]. split; [by intros e|done].
  - assert (list_images public_dir uuid4 fs feeder source offset limit
            = Raise DirectoryNotFound) as ->.
    { unfold list_images. by rewrite He. }
    split; [done|]. split; [|done]. by intros e [= <-].
Qed.

Lemma list_images_fails_when_missing_witness :
  plain_name "officefeeder1" ∧ plain_name "dogs" ∧
  Fs.exists_ feeder_fs (ROOT ["/"; "pub"] // "officefeeder1" // "dogs") = false ∧
  list_images ["/"; "pub"] uuid_of feeder_fs "officefeeder1" "dogs" 0 10
    = Raise DirectoryNotFound.
Proof.
  assert (plain_name "officefeeder1") as H1 by reflexivity.
  assert (plain_name "dogs") as H2 by reflexivity.
  assert (Fs.exists_ feeder_fs (ROOT ["/"; "pub"] // "officefeeder1" // "dogs")
          = false) as H3.
  { reflexivity. }
  split; [exact H1|]. split; [exact H2|]. split; [exact H3|].
  destruct (list_images_fails_when_missing ["/"; "pub"] uuid_of feeder_fs
              "officefeeder1" "dogs" 0 10 H1 H2) as [H _].
  exact (H H3).
Defined.

(** X6.  The number of items of a page: the clamped limit, or what is left of the
    listing after the clamped offset when that is less; none when the offset
    is at or beyond the end, the total being reported all the same. *)
Theorem list_images_page_length (public_dir : Path) (uuid4 : nat → string)
    (fs : FS) (feeder source : string) (offset limit : Z) :
  plain_name feeder → plain_name source →
  Fs.exists_ fs (ROOT public_dir // feeder // source) = true →
  ∃ page,
    list_images public_dir uuid4 fs feeder source offset limit = Ret page ∧
    total page = length (all_files fs (ROOT public_dir // feeder // source)) ∧
    length (images page) =
      Z.to_nat (Z.max 1 (Z.min limit 1000))
        `min` (total page - Z.to_nat (Z.max 0 offset)) ∧
    length (images page) ≤ 1000 ∧
    ((Z.of_nat (total page) ≤ offset)%Z → images page = []).
Proof.
  intros Hf Hs He.
  destruct (list_images_ret public_dir uuid4 fs feeder source offset limit
              Hf Hs He) as (items & -> & Hn).
  eexists. split; [done|]. simpl. split; [done|].
  assert (length items =
          Z.to_nat (Z.max 1 (Z.min limit 1000))
            `min` (length (all_files fs (ROOT public_dir // feeder // source))
                   - Z.to_nat (Z.max 0 offset))) as Hlen.
  { rewrite <- (length_fmap filename), Hn, length_fmap, length_take, length_drop.
    done. }
  split; [done|]. split; [lia|].
  intros Hoff. apply nil_length_inv. lia.
Qed.

Lemma list_images_page_length_witness :
  plain_name "officefeeder1" ∧ plain_name "cats" ∧
  Fs.exists_ feeder_fs (ROOT ["/"; "pub"] // "officefeeder1" // "cats") = true ∧
  ∃ page,
    list_images ["/"; "pub"] uuid_of feeder_fs "officefeeder1" "cats" 9 5
      = Ret page ∧
    total page =
      length (all_files feeder_fs (ROOT ["/"; "pub"] // "officefeeder1" // "cats")).
Proof.
  assert (plain_name "officefeeder1") as H1 by reflexivity.
  assert (plain_name "cats") as H2 by reflexivity.
  assert (Fs.exists_ feeder_fs (ROOT ["/"; "pub"] // "officefeeder1" // "cats")
          = true) as H3.
  { reflexivity. }
  split; [exact H1|]. split; [exact H2|]. split; [exact H3|].
  destruct (list_images_page_length ["/"; "pub"] uuid_of feeder_fs
              "officefeeder1" "cats" 9 5 H1 H2 H3) as (page & Hp & Ht & _).
  exists page. split; [exact Hp|exact Ht].
Defined.

(** X7.  Consecutive pages tile the listing: the page of [limit1] items at
    [offset] followed by the page of [limit2] items at [offset + limit1]
    names the files of the page of [limit1 + limit2] items at [offset], none
    twice and none skipped (limits within the page size). *)
Theorem list_images_pages_tile (public_dir : Path) (uuid4 : nat → string)
    (fs : FS) (feeder source : string) (offset limit1 limit2 : Z) :
  plain_name feeder → plain_name source →
  Fs.exists_ fs (ROOT public_dir // feeder // source) = true →
  (0 ≤ offset)%Z → (1 ≤ limit1)%Z → (1 ≤ limit2)%Z → (limit1 + limit2 ≤ 1000)%Z →
  ∃ page1 page2 page12,
    list_images public_dir uuid4 fs feeder source offset limit1 = Ret page1 ∧
    list_images public_dir uuid4 fs feeder source (offset + limit1) limit2
      = Ret page2 ∧
    list_images public_dir uuid4 fs feeder source offset (limit1 + limit2)
      = Ret page12 ∧
    (filename <$> images page1) ++ (filename <$> images page2)
      = filename <$> images page12 ∧
    NoDup (filename <$> images page12).
Proof.
  intros Hf Hs He Ho H1 H2 H12.
  destruct (list_images_ret public_dir uuid4 fs feeder source offset limit1
              Hf Hs He) as (items1 & -> & Hn1).
  destruct (list_images_ret public_dir uuid4 fs feeder source (offset + limit1)
              limit2 Hf Hs He) as (items2 & -> & Hn2).
  destruct (list_images_ret public_dir uuid4 fs feeder source offset
              (limit1 + limit2) Hf Hs He) as (items12 & -> & Hn12).
  do 3 eexists. split; [done|]. split; [done|]. split; [done|]. simpl.
  rewrite Hn1, Hn2, Hn12.
  replace (Z.to_nat (Z.max 1 (Z.min limit1 1000))) with (Z.to_nat limit1) by lia.
  replace (Z.to_nat (Z.max 1 (Z.min limit2 1000))) with (Z.to_nat limit2) by lia.
  replace (Z.to_nat (Z.max 1 (Z.min (limit1 + limit2) 1000)))
    with (Z.to_nat limit1 + Z.to_nat limit2) by lia.
  replace (Z.to_nat (Z.max 0 (offset + limit1)))
    with (Z.to_nat (Z.max 0 offset) + Z.to_nat limit1) by lia.
  set (files := all_files fs (ROOT public_dir // feeder // source)).
  split.
  - rewrite <- fmap_app. f_equal. rewrite <- drop_drop. apply take_take_drop.
  - destruct (all_files_names_sorted fs (ROOT public_dir // feeder // source))
      as [_ Hnd]. fold files in Hnd.
    rewrite fmap_take, fmap_drop. eapply sublist_NoDup; [exact Hnd|].
    etrans; [apply sublist_take|apply sublist_drop].
Qed.

Lemma list_images_pages_tile_witness :
  plain_name "officefeeder1" ∧ plain_name "cats" ∧
  Fs.exists_ feeder_fs (ROOT ["/"; "pub"] // "officefeeder1" // "cats") = true ∧
  (0 ≤ 1)%Z ∧ (1 ≤ 2)%Z ∧ (1 ≤ 3)%Z ∧ (2 + 3 ≤ 1000)%Z ∧
  ∃ page1 page2 page12,
    list_images ["/"; "pub"] uuid_of feeder_fs "officefeeder1" "cats" 1 2
      = Ret page1 ∧
    list_images ["/"; "pub"] uuid_of feeder_fs "officefeeder1" "cats" (1 + 2) 3
      = Ret page2 ∧
    list_images ["/"; "pub"] uuid_of feeder_fs "officefeeder1" "cats" 1 (2 + 3)
      = Ret page12 ∧
    (filename <$> images page1) ++ (filename <$> images page2)
      = filename <$> images page12.
Proof.
  assert (plain_name "officefeeder1") as H1 by reflexivity.
  assert (plain_name "cats") as H2 by reflexivity.
  assert (Fs.exists_ feeder_fs (ROOT ["/"; "pub"] // "officefeeder1" // "cats")
          = true) as H3.
  { reflexivity. }
  split; [exact H1|]. split; [exact H2|]. split; [exact H3|].
  split; [lia|]. split; [lia|]. split; [lia|]. split; [lia|].
  destruct (list_images_pages_tile ["/"; "pub"] uuid_of feeder_fs
              "officefeeder1" "cats" 1 2 3 H1 H2 H3)
    as (p1 & p2 & p12 & E1 & E2 & E12 & Ht & _); [lia..|].
  exists p1, p2, p12. split; [exact E1|]. split; [exact E2|].
  split; [exact E12|exact Ht].
Defined.

(** ** Identifiers issued by [list_images] *)

Lemma split_app_sep (sep : ascii) (a b : string) :
  PyStr.has_char sep a = false →
  PyStr.split sep (a +:+ String sep b) = a :: PyStr.split sep b.
Proof.
  induction a as [|c a IH]; intros H.
  - change (PyStr.split sep (String sep b) = "" :: PyStr.split sep b).
    simpl. by rewrite decide_True.
  - simpl in H. apply orb_false_iff in H as [Hc Ha].
    apply bool_decide_eq_false in Hc.
    change (PyStr.split sep (String c (a +:+ String sep b))
            = String c a :: PyStr.split sep b).
    simpl. rewrite decide_False by done. by rewrite IH.
Qed.

Lemma split_join (sep : ascii) (ws : list string) :
  ws ≠ [] → Forall (λ w, PyStr.has_char sep w = false) ws →
  PyStr.split sep (PyStr.join (String sep "") ws) = ws.
Proof.
  induction ws as [|w ws IH]; [done|]. intros _ H.
  inversion H as [|? ? Hw Hws]; subst. destruct ws as [|w' ws].
  - simpl. by apply split_whole.
  - change (PyStr.split sep (w +:+ String sep (PyStr.join (String sep "") (w' :: ws)))
            = w :: w' :: ws).
    rewrite split_app_sep by done. f_equal. by apply IH.
Qed.

Lemma split_once_app (sep : ascii) (a b : string) :
  PyStr.has_char sep a = false →
  PyStr.split_once sep (a +:+ String sep b) = Some (a, b).
Proof.
  induction a as [|c a IH]; intros H.
  - change (PyStr.split_once sep (String sep b) = Some ("", b)).
    simpl. by rewrite decide_True.
  - simpl in H. apply orb_false_iff in H as [Hc Ha].
    apply bool_decide_eq_false in Hc.
    change (PyStr.split_once sep (String c (a +:+ String sep b))
            = Some (String c a, b)).
    simpl. rewrite decide_False by done. by rewrite IH.
Qed.

Lemma filter_keep_all {A} (f : A → bool) (l : list A) :
  Forall (λ x, f x = true) l → List.filter f l = l.
Proof.
  induction 1 as [|x l Hx _ IH]; simpl; [done|]. by rewrite Hx, IH.
Qed.

Lemma proper_part_first (w : string) :
  proper_part w → ∃ c w', w = String c w' ∧ c ≠ "/"%char.
Proof.
  intros [Hk Hs]. destruct w as [|c w]; [done|]. exists c, w. split; [done|].
  simpl in Hs. apply orb_false_iff in Hs as [Hc _].
  by apply bool_decide_eq_false in Hc.
Qed.

Lemma join_proper_first (ws : list string) :
  Forall proper_part ws → PyStr.startswith "/" (PyStr.join "/" ws) = false.
Proof.
  destruct 1 as [|w ws Hw Hws]; [done|].
  destruct (proper_part_first w Hw) as (c & w' & -> & Hc).
  destruct ws; simpl; by rewrite bool_decide_eq_false_2.
Qed.

(** [Path(str(p)) == p] for a path in normal form. *)
Lemma of_str_to_str (p : Path) : normal_path p → PyPath.of_str (PyPath.to_str p) = p.
Proof.
  destruct p as [|part rest]; [done|]. intros [Hpart Hrest].
  assert (Forall (λ w, PyStr.has_char "/" w = false) rest) as Hns.
  { eapply Forall_impl; [exact Hrest|]. by intros w [_ ?]. }
  assert (Forall (λ w, PyPath.keep_part w = true) rest) as Hkp.
  { eapply Forall_impl; [exact Hrest|]. by intros w [? _]. }
  unfold PyPath.to_str. destruct (PyPath.is_root part) eqn:Er.
  - assert (List.filter PyPath.keep_part (PyStr.split "/" (PyStr.join "/" rest)) = rest)
      as Hparts.
    { destruct rest as [|w rest]; [done|].
      rewrite split_join by done. by apply filter_keep_all. }
    pose proof (join_proper_first rest Hrest) as Hfirst.
    unfold PyPath.is_root in Er. apply orb_true_iff in Er as [E|E];
      apply bool_decide_eq_true in E; subst part.
    + unfold PyPath.of_str.
      change ("/" +:+ PyStr.join "/" rest) with (String "/" (PyStr.join "/" rest)).
      assert (PyPath.root_of (String "/" (PyStr.join "/" rest)) = Some "/") as ->.
      { unfold PyPath.root_of.
        change (PyStr.startswith "//" (String "/" (PyStr.join "/" rest)))
          with (bool_decide ("/"%char = "/"%char)
                && PyStr.startswith "/" (PyStr.join "/" rest)).
        rewrite Hfirst. done. }
      change (PyStr.split "/" (String "/" (PyStr.join "/" rest)))
        with ("" :: PyStr.split "/" (PyStr.join "/" rest)).
      change (List.filter PyPath.keep_part ("" :: PyStr.split "/" (PyStr.join "/" rest)))
        with (List.filter PyPath.keep_part (PyStr.split "/" (PyStr.join "/" rest))).
      by rewrite Hparts.
    + unfold PyPath.of_str.
      change ("//" +:+ PyStr.join "/" rest)
        with (String "/" (String "/" (PyStr.join "/" rest))).
      assert (PyPath.root_of (String "/" (String "/" (PyStr.join "/" rest)))
              = Some "//") as ->.
      { unfold PyPath.root_of.
        change (PyStr.startswith "///" (String "/" (String "/" (PyStr.join "/" rest))))
          with (bool_decide ("/"%char = "/"%char)
                && (bool_decide ("/"%char = "/"%char)
                    && PyStr.startswith "/" (PyStr.join "/" rest))).
        rewrite Hfirst. done. }
      change (PyStr.split "/" (String "/" (String "/" (PyStr.join "/" rest))))
        with ("" :: "" :: PyStr.split "/" (PyStr.join "/" rest)).
      change (List.filter PyPath.keep_part
                ("" :: "" :: PyStr.split "/" (PyStr.join "/" rest)))
        with (List.filter PyPath.keep_part (PyStr.split "/" (PyStr.join "/" rest))).
      by rewrite Hparts.
  - destruct Hpart as [Hroot|Hpart]; [congruence|].
    assert (Forall proper_part (part :: rest)) as Hall by by constructor.
    unfold PyPath.of_str.
    assert (PyPath.root_of (PyStr.join "/" (part :: rest)) = None) as ->.
    { apply root_of_None. by apply join_proper_first. }
    rewrite split_join; [|done|].
    + apply filter_keep_all. eapply Forall_impl; [exact Hall|]. by intros w [? _].
    + eapply Forall_impl; [exact Hall|]. by intros w [_ ?].
Qed.

(** The items of [list_items], one by one. *)
Lemma list_items_lookup (public_dir : Path) (uuid4 : nat → string) (k : nat)
    (slice_files : list Path) (items : list image) (j : nat) (img : image) :
  list_items public_dir uuid4 k slice_files = Ret items →
  items !! j = Some img →
  ∃ p rel,
    slice_files !! j = Some p ∧
    PyPath.relative_to p (PyPath.parent (ROOT public_dir)) = Some rel ∧
    img = {| id := uuid4 (k + j) +:+ "|" +:+ PyPath.to_str p;
             url := "/" +:+ PyStr.replace "\" "/" (PyPath.to_str rel);
             filename := PyPath.name p |}.
Proof.
  revert k items j. induction slice_files as [|p ps IH]; intros k items j; simpl.
  { by intros [= <-]. }
  destruct (PyPath.relative_to p (PyPath.parent (ROOT public_dir))) as [rel|] eqn:Er;
    [|done].
  destruct (list_items public_dir uuid4 (S k) ps) as [items'| |] eqn:Ei; [|done..].
  intros [= <-]. destruct j as [|j]; simpl.
  - intros [= <-]. exists p, rel. by rewrite Nat.add_0_r.
  - intros Hj. destruct (IH _ _ _ Ei Hj) as (q & rel' & Hq & Hrel & ->).
    exists q, rel'. split; [done|]. split; [done|]. do 3 f_equal. lia.
Qed.

(** An item of a page of [list_images] stands for a listed file: its
    [filename] is the name of the file, its [url] the path below the public
    directory, and its [id] the drawn identifier, a bar and the path. *)
Lemma list_images_item (public_dir : Path) (uuid4 : nat → string) (fs : FS)
    (feeder source : string) (offset limit : Z) (page : listing) (img : image) :
  plain_name feeder → plain_name source →
  list_images public_dir uuid4 fs feeder source offset limit = Ret page →
  img ∈ images page →
  ∃ j p,
    p ∈ all_files fs (ROOT public_dir // feeder // source) ∧
    p = (ROOT public_dir // feeder // source) ++ [PyPath.name p] ∧
    id img = uuid4 j +:+ "|" +:+ PyPath.to_str p ∧
    url img = "/" +:+ PyStr.replace "\" "/"
                (PyPath.to_str (["cat_pics"] ++ PyPath.of_str feeder
                                  ++ PyPath.of_str source ++ [PyPath.name p])) ∧
    filename img = PyPath.name p.
Proof.
  intros Hf Hs. unfold list_images.
  destruct (Fs.exists_ fs (ROOT public_dir // feeder // source)); simpl negb;
    cbv iota; [|done].
  destruct (list_items public_dir uuid4 0 _) as [items| |] eqn:Ei; [|done..].
  intros [= <-]. simpl. intros (j & Hj)%list_elem_of_lookup.
  destruct (list_items_lookup _ _ _ _ _ _ _ Ei Hj) as (p & rel & Hp & Hrel & ->).
  simpl. exists (0 + j), p.
  assert (p ∈ all_files fs (ROOT public_dir // feeder // source)) as Hin.
  { unfold slice in Hp. apply list_elem_of_lookup_2 in Hp.
    apply elem_of_take in Hp as (i & Hi & _).
    eapply subseteq_drop, list_elem_of_lookup. eauto. }
  split; [done|].
  pose proof Hin as (_ & Hc & _)%all_files_elem_of.
  apply child_of_spec in Hc as [Hc _]. split; [done|]. split; [done|].
  split; [|done]. do 3 f_equal.
  rewrite Hc, feeder_path_eq, parent_ROOT in Hrel by done.
  rewrite <- !app_assoc, relative_to_app in Hrel. by injection Hrel as <-.
Qed.

(** X8.  The identifiers [list_images] issues are the ones [classify] reads: for
    each item of a page, splitting [id] at its first bar and building a path
    from the text after it gives back the listed file, a regular file directly
    inside the listed directory whose name is the [filename] of the item.
    The drawn identifiers have no bar (as those of [uuid4]), and the disk
    holds its entries under paths in normal form. *)
Theorem listed_id_names_listed_file (public_dir : Path) (uuid4 : nat → string)
    (fs : FS) (feeder source : string) (offset limit : Z) (page : listing)
    (img : image) :
  plain_name feeder → plain_name source →
  (∀ k, PyStr.has_char "|" (uuid4 k) = false) →
  map_Forall (λ p _, normal_path p) fs →
  list_images public_dir uuid4 fs feeder source offset limit = Ret page →
  img ∈ images page →
  ∃ u s c,
    PyStr.split_once "|" (id img) = Some (u, s) ∧
    fs !! PyPath.of_str s = Some (File c) ∧
    Fs.child_of (ROOT public_dir // feeder // source) (PyPath.of_str s) = true ∧
    PyPath.name (PyPath.of_str s) = filename img.
Proof.
  intros Hf Hs Hu Hnorm Hl Himg.
  destruct (list_images_item _ _ _ _ _ _ _ _ _ Hf Hs Hl Himg)
    as (j & p & Hin & _ & Hid & _ & Hname).
  apply all_files_elem_of in Hin as (_ & Hc & Hfile & _).
  unfold Fs.is_file in Hfile. destruct (fs !! p) as [[c|]|] eqn:Ep; [|done..].
  exists (uuid4 j), (PyPath.to_str p), c.
  rewrite of_str_to_str by (by eapply Hnorm).
  split; [|done]. rewrite Hid. by apply split_once_app.
Qed.

Lemma listed_id_names_listed_file_witness :
  plain_name "officefeeder1" ∧ plain_name "cats" ∧
  (∀ k : nat, PyStr.has_char "|" "u" = false) ∧
  map_Forall (λ p _, normal_path p) feeder_fs ∧
  list_images ["/"; "pub"] (λ _, "u") feeder_fs "officefeeder1" "cats" 0 1
    = Ret first_page ∧
  first_image ∈ images first_page ∧
  ∃ u s c,
    PyStr.split_once "|" (id first_image) = Some (u, s) ∧
    feeder_fs !! PyPath.of_str s = Some (File c) ∧
    Fs.child_of (ROOT ["/"; "pub"] // "officefeeder1" // "cats") (PyPath.of_str s)
      = true ∧
    PyPath.name (PyPath.of_str s) = filename first_image.
Proof.
  assert (plain_name "officefeeder1") as H1 by reflexivity.
  assert (plain_name "cats") as H2 by reflexivity.
  assert (∀ k : nat, PyStr.has_char "|" "u" = false) as H3 by (intros _; reflexivity).
  assert (map_Forall (λ p _, normal_path p) feeder_fs) as H4.
  { apply (bool_decide_unpack _). vm_compute. exact I. }
  assert (list_images ["/"; "pub"] (λ _, "u") feeder_fs "officefeeder1" "cats" 0 1
          = Ret first_page) as H5.
  { vm_compute. reflexivity. }
  assert (first_image ∈ images first_page) as H6 by apply list_elem_of_here.
  split; [exact H1|]. split; [exact H2|]. split; [exact H3|]. split; [exact H4|].
  split; [exact H5|]. split; [exact H6|].
  apply (listed_id_names_listed_file ["/"; "pub"] (λ _, "u") feeder_fs
           "officefeeder1" "cats" 0 1 first_page first_image H1 H2 H3 H4 H5 H6).
Defined.

(** The regular files and the directories after [classify] has moved a
    regular file. *)
Lemma classify_files (public_dir : Path) (CAT_NAMES : list string)
    (st st1 : state) (req_image_id req_category u s : string) (c : nat)
    (r : classified) :
  PyStr.split_once "|" req_image_id = Some (u, s) →
  fs st !! PyPath.of_str s = Some (File c) →
  classify public_dir CAT_NAMES st req_image_id req_category = (Ret r, st1) →
  ∃ t,
    fs st !! t = None ∧
    (t = CLASSIFIED_ROOT public_dir // req_category // PyPath.name (PyPath.of_str s) ∨
     ∃ k, t = numbered (CLASSIFIED_ROOT public_dir // req_category
                          // PyPath.name (PyPath.of_str s)) k) ∧
    (∀ q c', fs st1 !! q = Some (File c') ↔
             (q = t ∧ c' = c) ∨ (q ≠ PyPath.of_str s ∧ fs st !! q = Some (File c'))) ∧
    (∀ q, fs st !! q = Some Dir → fs st1 !! q = Some Dir) ∧
    fs st1 !! PyPath.of_str s = None ∧
    (plain_name req_category →
     fs st1 !! (CLASSIFIED_ROOT public_dir // req_category) = Some Dir) ∧
    MOVE_HISTORY st1 = MOVE_HISTORY st ++
      [{| image_id := req_image_id; original_path := PyPath.of_str s;
          new_path := t |}].
Proof.
  intros Hs Hsrc Hc.
  apply classify_success in Hc
    as (u' & s' & fs1 & t & n & Hv & Hs' & Hmk & Hu & Ht & Hsrc1 & Hfs & Hh).
  rewrite Hs in Hs'. injection Hs' as <- <-.
  pose proof (mkdir_from_keeps _ _ _ _ _ _ Hmk Hsrc) as Hn1.
  rewrite Hsrc1 in Hn1. injection Hn1 as ->.
  assert (t ≠ PyPath.of_str s) as Hne by congruence.
  exists t. split.
  { destruct (fs st !! t) as [x|] eqn:E; [|done].
    pose proof (mkdir_from_keeps _ _ _ _ _ _ Hmk E). congruence. }
  split; [by apply unique_path_ret in Hu|].
  split; [|split; [|split; [|split; [|done]]]].
  - intros q c'. rewrite Hfs. destruct (decide (q = t)) as [->|Hqt].
    + rewrite lookup_insert_eq. split.
      * intros [= ->]. by left.
      * intros [[_ ->]|[_ Hq]]; [done|].
        pose proof (mkdir_from_keeps _ _ _ _ _ _ Hmk Hq). congruence.
    + rewrite lookup_insert_ne by done.
      destruct (decide (q = PyPath.of_str s)) as [->|Hqs].
      * rewrite lookup_delete_eq. split; [done|]. by intros [[? _]|[? _]].
      * rewrite lookup_delete_ne by done. rewrite (mkdir_files _ _ _ _ _ Hmk).
        split; [by right|]. by intros [[? _]|[_ ?]].
  - intros q Hq. pose proof (mkdir_from_keeps _ _ _ _ _ _ Hmk Hq) as Hq1.
    rewrite Hfs, lookup_insert_ne, lookup_delete_ne; [done|congruence..].
  - by rewrite Hfs, lookup_insert_ne, lookup_delete_eq.
  - intros Hplain.
    assert (fs1 !! (CLASSIFIED_ROOT public_dir // req_category) = Some Dir) as Hd.
    { apply (mkdir_from_creates _ _ [] _ Hmk).
      rewrite joinpath_relative, CLASSIFIED_ROOT_eq by done.
      intros E. apply (f_equal length) in E. rewrite !length_app in E.
      simpl in E. lia. }
    rewrite Hfs, lookup_insert_ne, lookup_delete_ne; [done|congruence..].
Qed.

(** The place [classify] moves a file with a name to lies directly inside
    the directory of the category. *)
Lemma target_in_category (d : Path) (s : string) (t : Path) :
  PyPath.name (PyPath.of_str s) ≠ "" →
  (t = d // PyPath.name (PyPath.of_str s) ∨
   ∃ k, t = numbered (d // PyPath.name (PyPath.of_str s)) k) →
  ∃ w, t = d ++ [w] ∧ w ≠ "" ∧ PyPath.is_root w = false.
Proof.
  intros Hn Ht. destruct (name_of_str s Hn) as [Ho Hr].
  assert (d // PyPath.name (PyPath.of_str s) = d ++ [PyPath.name (PyPath.of_str s)])
    as E.
  { rewrite joinpath_relative by apply no_slash_root_of, name_no_slash.
    by rewrite Ho. }
  rewrite E in Ht. destruct Ht as [->|[k ->]].
  - by exists (PyPath.name (PyPath.of_str s)).
  - unfold numbered. rewrite removelast_last.
    destruct (numbered_name_proper (d ++ [PyPath.name (PyPath.of_str s)]) k).
    by eexists.
Qed.

(** X9.  Classifying an image of a page: the call succeeds and moves the listed
    file into the directory of the category, to the free place
    [CLASSIFIED_ROOT/category/filename] or to one of its numbered siblings.
    The disk is well formed and holds its entries under paths in normal form,
    the drawn identifiers have no bar, the category is valid and its directory
    can be made. *)
Theorem classify_listed_image (public_dir : Path) (CAT_NAMES : list string)
    (uuid4 : nat → string) (st : state) (feeder source : string)
    (offset limit : Z) (page : listing) (img : image) (req_category : string) :
  plain_name feeder → plain_name source →
  (∀ k, PyStr.has_char "|" (uuid4 k) = false) →
  map_Forall (λ p _, normal_path p) (fs st) → Fs.wf (fs st) →
  Forall plain_name CAT_NAMES → req_category ∈ VALID_CATEGORIES CAT_NAMES →
  is_Some (Fs.mkdir (fs st) (CLASSIFIED_ROOT public_dir // req_category)) →
  list_images public_dir uuid4 (fs st) feeder source offset limit = Ret page →
  img ∈ images page →
  ∃ r st1 c t,
    classify public_dir CAT_NAMES st (id img) req_category = (Ret r, st1) ∧
    fs st !! ((ROOT public_dir // feeder // source) ++ [filename img])
      = Some (File c) ∧
    fs st1 !! ((ROOT public_dir // feeder // source) ++ [filename img]) = None ∧
    (t = CLASSIFIED_ROOT public_dir // req_category // filename img ∨
     ∃ k, t = numbered (CLASSIFIED_ROOT public_dir // req_category // filename img) k) ∧
    PyPath.parent t = CLASSIFIED_ROOT public_dir // req_category ∧
    fs st !! t = None ∧ fs st1 !! t = Some (File c) ∧
    fs st1 !! (CLASSIFIED_ROOT public_dir // req_category) = Some Dir.
Proof.
  intros Hf Hs Hu Hnorm Hwf Hplain Hv [fs1 Hmk] Hl Himg.
  destruct (list_images_item _ _ _ _ _ _ _ _ _ Hf Hs Hl Himg)
    as (j & p & Hin & Hp & Hid & _ & Hname).
  apply all_files_elem_of in Hin as (_ & Hc & Hfile & _).
  unfold Fs.is_file in Hfile. destruct (fs st !! p) as [[c|]|] eqn:Ep; [|done..].
  assert (PyPath.of_str (PyPath.to_str p) = p) as Hrt
    by (apply of_str_to_str; by eapply Hnorm).
  assert (PyStr.split_once "|" (id img) = Some (uuid4 j, PyPath.to_str p)) as Hsplit.
  { rewrite Hid. by apply split_once_app. }
  destruct (classify_succeeds public_dir CAT_NAMES st (id img) req_category
              (uuid4 j) (PyPath.to_str p) c fs1) as (r & st1 & Hcl);
    [done|done|done|done|by rewrite Hrt|done|].
  destruct (classify_files _ _ _ _ _ _ _ _ _ _ Hsplit ltac:(by rewrite Hrt) Hcl)
    as (t & Hfree & Hform & Hfiles & _ & Hgone & Hdir & _).
  rewrite Hrt, <- Hname in Hform. rewrite Hrt in Hfiles, Hgone.
  apply child_of_spec in Hc as [_ Hnm].
  destruct (target_in_category (CLASSIFIED_ROOT public_dir // req_category)
              (PyPath.to_str p) t) as (w & Ht & Hw & Hwr);
    [by rewrite Hrt|by rewrite Hrt, <- Hname|].
  exists r, st1, c, t. split; [done|]. rewrite Hname, <- Hp.
  split; [done|]. split; [done|]. split; [by rewrite <- Hname|].
  split; [rewrite Ht; by apply parent_snoc|]. split; [done|].
  split; [apply Hfiles; by left|].
  by eapply Hdir, valid_category_plain.
Qed.

Lemma classify_listed_image_witness :
  plain_name "officefeeder1" ∧ plain_name "cats" ∧
  (∀ k : nat, PyStr.has_char "|" "u" = false) ∧
  map_Forall (λ p _, normal_path p) (fs feeder_state) ∧ Fs.wf (fs feeder_state) ∧
  Forall plain_name ["milo"] ∧ "unknown" ∈ VALID_CATEGORIES ["milo"] ∧
  is_Some (Fs.mkdir (fs feeder_state) (CLASSIFIED_ROOT ["/"; "pub"] // "unknown")) ∧
  list_images ["/"; "pub"] (λ _, "u") (fs feeder_state) "officefeeder1" "cats" 0 1
    = Ret first_page ∧
  first_image ∈ images first_page ∧
  ∃ r st1,
    classify ["/"; "pub"] ["milo"] feeder_state (id first_image) "unknown"
      = (Ret r, st1).
Proof.
  assert (plain_name "officefeeder1") as H1 by reflexivity.
  assert (plain_name "cats") as H2 by reflexivity.
  assert (∀ k : nat, PyStr.has_char "|" "u" = false) as H3 by (intros _; reflexivity).
  assert (map_Forall (λ p _, normal_path p) (fs feeder_state)) as H4.
  { apply (bool_decide_unpack _). vm_compute. exact I. }
  assert (Fs.wf (fs feeder_state)) as H5.
  { apply (bool_decide_unpack _). vm_compute. exact I. }
  assert (Forall plain_name ["milo"]) as H6 by (repeat constructor).
  assert ("unknown" ∈ VALID_CATEGORIES ["milo"]) as H7.
  { apply (bool_decide_unpack _). vm_compute. exact I. }
  assert (is_Some (Fs.mkdir (fs feeder_state)
                     (CLASSIFIED_ROOT ["/"; "pub"] // "unknown"))) as H8.
  { apply (bool_decide_unpack _). vm_compute. exact I. }
  assert (list_images ["/"; "pub"] (λ _, "u") (fs feeder_state) "officefeeder1"
            "cats" 0 1 = Ret first_page) as H9.
  { vm_compute. reflexivity. }
  assert (first_image ∈ images first_page) as H10 by apply list_elem_of_here.
  split; [exact H1|]. split; [exact H2|]. split; [exact H3|]. split; [exact H4|].
  split; [exact H5|]. split; [exact H6|]. split; [exact H7|]. split; [exact H8|].
  split; [exact H9|]. split; [exact H10|].
  destruct (classify_listed_image ["/"; "pub"] ["milo"] (λ _, "u") feeder_state
              "officefeeder1" "cats" 0 1 first_page first_image "unknown"
              H1 H2 H3 H4 H5 H6 H7 H8 H9 H10) as (r & st1 & _ & _ & Hc & _).
  exists r, st1. exact Hc.
Defined.

(** X10.  After an image of a page has been classified it is gone from the
    listing of its directory: whatever page is asked for next, [total] is one
    less and no item has the file name of the classified image.  The listed
    directory is not the directory of the category itself. *)
Theorem classified_image_leaves_listing (public_dir : Path) (CAT_NAMES : list string)
    (uuid4 uuid4' : nat → string) (st st1 : state) (feeder source : string)
    (offset limit offset' limit' : Z) (page : listing) (img : image)
    (req_category : string) (r : classified) :
  plain_name feeder → plain_name source →
  (∀ k, PyStr.has_char "|" (uuid4 k) = false) →
  map_Forall (λ p _, normal_path p) (fs st) →
  ROOT public_dir // feeder // source ≠ CLASSIFIED_ROOT public_dir // req_category →
  list_images public_dir uuid4 (fs st) feeder source offset limit = Ret page →
  img ∈ images page →
  classify public_dir CAT_NAMES st (id img) req_category = (Ret r, st1) →
  ∃ page',
    list_images public_dir uuid4' (fs st1) feeder source offset' limit' = Ret page' ∧
    total page' + 1 = total page ∧
    ∀ img', img' ∈ images page' → filename img' ≠ filename img.
Proof.
  intros Hf Hs Hu Hnorm Hd Hl Himg Hcl.
  set (d := ROOT public_dir // feeder // source) in *.
  destruct (list_images_item _ _ _ _ _ _ _ _ _ Hf Hs Hl Himg)
    as (j & p & Hin & Hp & Hid & _ & Hname). fold d in Hin, Hp.
  pose proof Hin as (Hdir & Hc & Hfile & _)%all_files_elem_of.
  unfold Fs.is_file in Hfile. destruct (fs st !! p) as [[c|]|] eqn:Ep; [|done..].
  assert (PyPath.of_str (PyPath.to_str p) = p) as Hrt
    by (apply of_str_to_str; by eapply Hnorm).
  assert (PyStr.split_once "|" (id img) = Some (uuid4 j, PyPath.to_str p)) as Hsplit.
  { rewrite Hid. by apply split_once_app. }
  destruct (classify_files _ _ _ _ _ _ _ _ _ _ Hsplit ltac:(by rewrite Hrt) Hcl)
    as (t & Hfree & Hform & Hfiles & Hdirs & _).
  rewrite Hrt in Hform, Hfiles.
  apply child_of_spec in Hc as [_ Hnm].
  destruct (target_in_category (CLASSIFIED_ROOT public_dir // req_category)
              (PyPath.to_str p) t) as (w & -> & Hw & Hwr);
    [by rewrite Hrt|by rewrite Hrt|].
  apply bool_decide_eq_true in Hdir.
  pose proof (Hdirs _ Hdir) as Hdir1.
  assert (∀ q, q ∈ all_files (fs st1) d ↔ q ∈ all_files (fs st) d ∧ q ≠ p) as Hmem.
  { intros q. rewrite !all_files_elem_of. unfold Fs.is_dir, Fs.is_file.
    rewrite Hdir, Hdir1. split.
    - intros (_ & Hcq & Hfq & Hext).
      destruct (fs st1 !! q) as [[c'|]|] eqn:E1; [|done..].
      apply Hfiles in E1 as [[-> _]|[Hne E0]].
      + apply child_of_spec in Hcq as [Hcq _].
        apply app_inj_tail in Hcq as [Hcq _]. by destruct Hd.
      + by rewrite E0.
    - intros [(_ & Hcq & Hfq & Hext) Hne].
      destruct (fs st !! q) as [[c'|]|] eqn:E0; [|done..].
      assert (fs st1 !! q = Some (File c')) as -> by (apply Hfiles; by right).
      done. }
  assert (p :: all_files (fs st1) d ≡ₚ all_files (fs st) d) as Hperm.
  { apply NoDup_Permutation.
    - constructor; [|apply all_files_NoDup]. rewrite Hmem. by intros [_ ?].
    - apply all_files_NoDup.
    - intros q. rewrite elem_of_cons, Hmem.
      destruct (decide (q = p)) as [->|Hne]; [|tauto]. tauto. }
  assert (Fs.exists_ (fs st1) d = true) as He1.
  { apply bool_decide_eq_true. by rewrite Hdir1. }
  assert (Fs.exists_ (fs st) d = true) as He0.
  { apply bool_decide_eq_true. by rewrite Hdir. }
  destruct (list_images_ret public_dir uuid4' (fs st1) feeder source offset' limit'
              Hf Hs He1) as (items' & Hl' & _).
  destruct (list_images_ret public_dir uuid4 (fs st) feeder source offset limit
              Hf Hs He0) as (items & Hl0 & _).
  rewrite Hl in Hl0. injection Hl0 as ->. fold d in Hl'.
  eexists. split; [exact Hl'|]. simpl. split.
  { fold d. apply Permutation_length in Hperm. simpl in Hperm. lia. }
  intros img' Himg'.
  destruct (list_images_item _ _ _ _ _ _ _ _ _ Hf Hs Hl' Himg')
    as (j' & p' & Hin' & Hp' & _ & _ & Hname'). fold d in Hin', Hp'.
  apply Hmem in Hin' as [_ Hne]. rewrite Hname, Hname'. intros E.
  apply Hne. rewrite Hp', Hp. by rewrite E.
Qed.

Lemma classified_image_leaves_listing_witness :
  plain_name "officefeeder1" ∧ plain_name "cats" ∧
  (∀ k : nat, PyStr.has_char "|" "u" = false) ∧
  map_Forall (λ p _, normal_path p) (fs feeder_state) ∧
  ROOT ["/"; "pub"] // "officefeeder1" // "cats"
    ≠ CLASSIFIED_ROOT ["/"; "pub"] // "unknown" ∧
  list_images ["/"; "pub"] (λ _, "u") (fs feeder_state) "officefeeder1" "cats" 0 1
    = Ret first_page ∧
  first_image ∈ images first_page ∧
  classify ["/"; "pub"] ["milo"] feeder_state (id first_image) "unknown"
    = (Ret {| stored_at := "cat_pics/classified/unknown/a.jpg" |},
       (classify ["/"; "pub"] ["milo"] feeder_state (id first_image) "unknown").2) ∧
  ∃ page',
    list_images ["/"; "pub"] uuid_of
      (fs (classify ["/"; "pub"] ["milo"] feeder_state (id first_image) "unknown").2)
      "officefeeder1" "cats" 0 10 = Ret page' ∧
    total page' + 1 = total first_page.
Proof.
  assert (plain_name "officefeeder1") as H1 by reflexivity.
  assert (plain_name "cats") as H2 by reflexivity.
  assert (∀ k : nat, PyStr.has_char "|" "u" = false) as H3 by (intros _; reflexivity).
  assert (map_Forall (λ p _, normal_path p) (fs feeder_state)) as H4.
  { apply (bool_decide_unpack _). vm_compute. exact I. }
  assert (ROOT ["/"; "pub"] // "officefeeder1" // "cats"
          ≠ CLASSIFIED_ROOT ["/"; "pub"] // "unknown") as H5.
  { apply (bool_decide_unpack _). vm_compute. exact I. }
  assert (list_images ["/"; "pub"] (λ _, "u") (fs feeder_state) "officefeeder1"
            "cats" 0 1 = Ret first_page) as H6.
  { vm_compute. reflexivity. }
  assert (first_image ∈ images first_page) as H7 by apply list_elem_of_here.
  assert (classify ["/"; "pub"] ["milo"] feeder_state (id first_image) "unknown"
    = (Ret {| stored_at := "cat_pics/classified/unknown/a.jpg" |},
       (classify ["/"; "pub"] ["milo"] feeder_state (id first_image) "unknown").2))
    as H8.
  { reflexivity. }
  split; [exact H1|]. split; [exact H2|]. split; [exact H3|]. split; [exact H4|].
  split; [exact H5|]. split; [exact H6|]. split; [exact H7|]. split; [exact H8|].
  destruct (classified_image_leaves_listing ["/"; "pub"] ["milo"] (λ _, "u") uuid_of
              feeder_state _ "officefeeder1" "cats" 0 1 0 10 first_page first_image
              "unknown" _ H1 H2 H3 H4 H5 H6 H7 H8) as (page' & Hl & Ht & _).
  exists page'. split; [exact Hl|exact Ht].
Defined.

(** ** [get_feeders] *)

Lemma existing_feeders_filter (public_dir : Path) (fs : FS) (folders : list string) :
  existing_feeders public_dir fs folders =
  List.filter (λ f, Fs.exists_ fs (ROOT public_dir // f)) folders.
Proof.
  induction folders as [|f folders IH]; simpl; [done|].
  by destruct (Fs.exists_ fs (ROOT public_dir // f)); rewrite IH.
Qed.

Lemma filter_sublist {A} (f : A → bool) (l : list A) : sublist (List.filter f l) l.
Proof.
  induction l as [|x l IH]; simpl; [done|].
  destruct (f x); by constructor.
Qed.

Lemma prefixes_from_prefix (above parts1 parts2 : list string) :
  parts1 ≠ [] → above ++ parts1 ∈ Fs.prefixes_from above (parts1 ++ parts2).
Proof.
  revert above. induction parts1 as [|x parts1 IH]; intros above H; [done|].
  simpl. destruct parts1 as [|y parts1].
  - apply list_elem_of_here.
  - apply list_elem_of_further.
    replace (above ++ x :: y :: parts1) with ((above ++ [x]) ++ y :: parts1)
      by by rewrite <- app_assoc.
    by apply IH.
Qed.

(** On a well-formed disk an entry lies in directories: every path above it
    is one. *)
Lemma wf_above (fs : FS) (p q : Path) (n : node) :
  Fs.wf fs → fs !! (p ++ q) = Some n → p ≠ [] → q ≠ [] → fs !! p = Some Dir.
Proof.
  intros Hwf Hn Hp Hq. destruct (Hwf _ _ Hn) as [_ Ha].
  unfold Fs.ancestors in Ha. apply Forall_app in Ha as [_ Ha].
  eapply (proj1 (Forall_forall _ _) Ha).
  destruct (exists_last Hq) as (q' & x & ->).
  rewrite app_assoc, removelast_last.
  by apply (prefixes_from_prefix [] p q').
Qed.

(** X11.  [get_feeders] answers the configured feeder folders that exist on the
    disk, in the configured order, and nothing else.  On a well-formed disk a
    configured folder it does not answer has nothing to list: [list_images]
    raises the 404 for it, whatever the source. *)
Theorem get_feeders_spec (public_dir : Path) (fs : FS) :
  (∀ f, f ∈ get_feeders public_dir fs ↔
        f ∈ FEEDER_FOLDERS ∧ Fs.exists_ fs (ROOT public_dir // f) = true) ∧
  sublist (get_feeders public_dir fs) FEEDER_FOLDERS ∧
  (Fs.wf fs →
   ∀ uuid4 f source offset limit,
     f ∈ FEEDER_FOLDERS → f ∉ get_feeders public_dir fs → plain_name source →
     list_images public_dir uuid4 fs f source offset limit = Raise DirectoryNotFound).
Proof.
  unfold get_feeders. rewrite existing_feeders_filter.
  split; [intros f; by rewrite filter_elem_of|]. split; [apply filter_sublist|].
  intros Hwf uuid4 f source offset limit Hf Hno Hs.
  rewrite filter_elem_of in Hno.
  assert (plain_name f) as Hpf.
  { revert Hf. unfold FEEDER_FOLDERS. rewrite !elem_of_cons, elem_of_nil.
    intros [->|[->|[->|[->|[->|[]]]]]]; reflexivity. }
  unfold list_images.
  destruct (Fs.exists_ fs (ROOT public_dir // f // source)) eqn:He; [|done].
  exfalso. apply Hno. split; [done|].
  apply bool_decide_eq_true in He as [n Hn].
  rewrite (joinpath_relative _ source) in Hn by done.
  apply bool_decide_eq_true.
  destruct (PyPath.of_str source) as [|x q] eqn:Eq.
  - rewrite app_nil_r in Hn. eauto.
  - exists Dir. eapply wf_above; [done|exact Hn| |done].
    unfold ROOT. rewrite !joinpath_relative by done.
    intros E. apply (f_equal length) in E. rewrite !length_app in E.
    simpl in E. lia.
Qed.

Lemma get_feeders_spec_witness :
  Fs.wf feeder_fs ∧ "studyfeeder" ∈ FEEDER_FOLDERS ∧
  ("studyfeeder" ∉ get_feeders ["/"; "pub"] feeder_fs) ∧ plain_name "cats" ∧
  get_feeders ["/"; "pub"] feeder_fs = ["officefeeder1"] ∧
  list_images ["/"; "pub"] uuid_of feeder_fs "studyfeeder" "cats" 0 10
    = Raise DirectoryNotFound.
Proof.
  assert (Fs.wf feeder_fs) as H1.
  { apply (bool_decide_unpack _). vm_compute. exact I. }
  assert ("studyfeeder" ∈ FEEDER_FOLDERS) as H2.
  { apply (bool_decide_unpack _). vm_compute. exact I. }
  assert ("studyfeeder" ∉ get_feeders ["/"; "pub"] feeder_fs) as H3.
  { apply (bool_decide_unpack _). vm_compute. exact I. }
  assert (plain_name "cats") as H4 by reflexivity.
  split; [exact H1|]. split; [exact H2|]. split; [exact H3|]. split; [exact H4|].
  split; [vm_compute; reflexivity|].
  destruct (get_feeders_spec ["/"; "pub"] feeder_fs) as (_ & _ & H).
  exact (H H1 uuid_of "studyfeeder" "cats" 0%Z 10%Z H2 H3 H4).
Defined.

(** ** [stats] *)

(** The regular files directly inside [d]. *)
Lemma file_children_elem_of (fs : FS) (d p : Path) :
  p ∈ List.filter (Fs.is_file fs) (Fs.children fs d) ↔
  Fs.child_of d p = true ∧ Fs.is_file fs p = true.
Proof.
  rewrite filter_elem_of, children_elem_of. split; [tauto|].
  intros [Hc Hf]. split; [|done]. split; [|done].
  unfold Fs.is_file in Hf. destruct (fs !! p); [eauto|done].
Qed.

Lemma count_files_cases (fs : FS) (d : Path) :
  (Fs.exists_ fs d = false ∧ count_files fs d = Ret 0) ∨
  (Fs.is_dir fs d = true ∧
   count_files fs d = Ret (length (List.filter (Fs.is_file fs) (Fs.children fs d)))) ∨
  (Fs.exists_ fs d = true ∧ Fs.is_dir fs d = false ∧ count_files fs d = Raise OSError).
Proof.
  unfold count_files, Fs.iterdir.
  destruct (Fs.exists_ fs d); [|by left]. right.
  destruct (Fs.is_dir fs d); [by left|by right].
Qed.

Lemma stats_loop_ret (public_dir : Path) (fs : FS) (cats : list string)
    (counts : gmap string nat) :
  Forall (λ cat, ∃ n, count_files fs (CLASSIFIED_ROOT public_dir // cat) = Ret n) cats →
  ∃ res,
    stats_loop public_dir fs cats counts = Ret res ∧
    (∀ cat, cat ∈ cats →
       ∃ n, count_files fs (CLASSIFIED_ROOT public_dir // cat) = Ret n ∧
            res !! cat = Some n) ∧
    (∀ cat, cat ∉ cats → res !! cat = counts !! cat).
Proof.
  revert counts. induction cats as [|cat cats IH]; intros counts H; simpl.
  { exists counts. split; [done|]. split; [|done]. by intros cat ?%elem_of_nil. }
  inversion H as [|? ? [n Hn] H']; subst. rewrite Hn.
  destruct (IH (<[cat := n]> counts) H') as (res & -> & Hin & Hout).
  exists res. split; [done|]. split.
  - intros c Hc. destruct (decide (c ∈ cats)) as [Hc'|Hc']; [by apply Hin|].
    apply elem_of_cons in Hc as [->|Hc]; [|done].
    exists n. split; [done|]. by rewrite Hout, lookup_insert_eq.
  - intros c Hc. apply not_elem_of_cons in Hc as [Hne Hc].
    by rewrite Hout, lookup_insert_ne.
Qed.

Lemma stats_loop_raise (public_dir : Path) (fs : FS) (cats : list string)
    (counts : gmap string nat) (cat : string) :
  cat ∈ cats →
  count_files fs (CLASSIFIED_ROOT public_dir // cat) = Raise OSError →
  stats_loop public_dir fs cats counts = Raise OSError.
Proof.
  revert counts. induction cats as [|c cats IH]; intros counts Hin Hr.
  { by apply elem_of_nil in Hin. }
  simpl.
  destruct (count_files_cases fs (CLASSIFIED_ROOT public_dir // c))
    as [[_ E]|[[_ E]|(_ & _ & E)]]; rewrite E; [| |done].
  - apply elem_of_cons in Hin as [->|Hin]; [congruence|by apply IH].
  - apply elem_of_cons in Hin as [->|Hin]; [congruence|by apply IH].
Qed.

(** X12.  [stats] counts, for every valid category and for nothing else, the
    regular files directly inside the directory of the category: 0 when the
    directory is missing, sub-directories never counted.  It fails, with the
    error of [iterdir], exactly when the path of some category exists without
    being a directory. *)
Theorem stats_spec (public_dir : Path) (CAT_NAMES : list string) (fs : FS) :
  (set_Forall (λ cat, Fs.exists_ fs (CLASSIFIED_ROOT public_dir // cat) = true →
                      Fs.is_dir fs (CLASSIFIED_ROOT public_dir // cat) = true)
              (VALID_CATEGORIES CAT_NAMES) →
   ∃ counts,
     stats public_dir CAT_NAMES fs = Ret counts ∧
     dom counts = VALID_CATEGORIES CAT_NAMES ∧
     ∀ cat, cat ∈ VALID_CATEGORIES CAT_NAMES →
       (Fs.exists_ fs (CLASSIFIED_ROOT public_dir // cat) = false →
        counts !! cat = Some 0) ∧
       (Fs.is_dir fs (CLASSIFIED_ROOT public_dir // cat) = true →
        ∃ files,
          NoDup files ∧
          (∀ p, p ∈ files ↔
                Fs.child_of (CLASSIFIED_ROOT public_dir // cat) p = true ∧
                Fs.is_file fs p = true) ∧
          counts !! cat = Some (length files))) ∧
  (∀ cat, cat ∈ VALID_CATEGORIES CAT_NAMES →
     Fs.exists_ fs (CLASSIFIED_ROOT public_dir // cat) = true →
     Fs.is_dir fs (CLASSIFIED_ROOT public_dir // cat) = false →
     stats public_dir CAT_NAMES fs = Raise OSError).
Proof.
  unfold stats. split.
  - intros Hok.
    destruct (stats_loop_ret public_dir fs (elements (VALID_CATEGORIES CAT_NAMES)) ∅)
      as (res & -> & Hin & Hout).
    { apply Forall_forall. intros cat Hcat%elem_of_elements.
      destruct (count_files_cases fs (CLASSIFIED_ROOT public_dir // cat))
        as [[_ ->]|[[_ ->]|(He & Hd & _)]]; [by eexists|by eexists|].
      rewrite (Hok _ Hcat He) in Hd. done. }
    exists res. split; [done|]. split.
    + apply set_eq. intros cat. rewrite elem_of_dom. split.
      * intros [n Hn]. destruct (decide (cat ∈ VALID_CATEGORIES CAT_NAMES)); [done|].
        rewrite Hout, lookup_empty in Hn by by rewrite elem_of_elements. done.
      * intros Hcat. destruct (Hin cat) as (n & _ & ->); [|done].
        by apply elem_of_elements.
    + intros cat Hcat. destruct (Hin cat) as (n & Hn & Hres).
      { by apply elem_of_elements. }
      destruct (count_files_cases fs (CLASSIFIED_ROOT public_dir // cat))
        as [[He E]|[[Hd E]|(He & Hd & E)]]; rewrite E in Hn; [| |done].
      * injection Hn as <-. split; [done|]. intros Hd.
        unfold Fs.is_dir in Hd. apply bool_decide_eq_true in Hd.
        apply exists_false in He. congruence.
      * injection Hn as <-. split.
        { intros He. apply exists_false in He. apply bool_decide_eq_true in Hd.
          congruence. }
        intros _. eexists. split; [apply filter_NoDup, children_NoDup|].
        split; [|done]. intros p. apply file_children_elem_of.
  - intros cat Hcat He Hd. apply (stats_loop_raise _ _ _ _ cat).
    + by apply elem_of_elements.
    + by destruct (count_files_cases fs (CLASSIFIED_ROOT public_dir // cat))
        as [[? _]|[[? _]|(_ & _ & ->)]]; [congruence..|].
Qed.

Lemma stats_spec_witness :
  set_Forall (λ cat, Fs.exists_ (fs collision_state)
                       (CLASSIFIED_ROOT ["/"; "pub"] // cat) = true →
                     Fs.is_dir (fs collision_state)
                       (CLASSIFIED_ROOT ["/"; "pub"] // cat) = true)
             (VALID_CATEGORIES ["milo"]) ∧
  ∃ counts,
    stats ["/"; "pub"] ["milo"] (fs collision_state) = Ret counts ∧
    dom counts = VALID_CATEGORIES ["milo"].
Proof.
  assert (set_Forall (λ cat, Fs.exists_ (fs collision_state)
                       (CLASSIFIED_ROOT ["/"; "pub"] // cat) = true →
                     Fs.is_dir (fs collision_state)
                       (CLASSIFIED_ROOT ["/"; "pub"] // cat) = true)
             (VALID_CATEGORIES ["milo"])) as H.
  { apply (bool_decide_unpack _). vm_compute. exact I. }
  split; [exact H|].
  destruct (stats_spec ["/"; "pub"] ["milo"] (fs collision_state)) as [Hs _].
  destruct (Hs H) as (counts & Hc & Hd & _).
  exists counts. split; [exact Hc|exact Hd].
Defined.

Lemma of_str_proper (w : string) : proper_part w → PyPath.of_str w = [w].
Proof.
  intros [Hk Hs]. unfold PyPath.of_str.
  rewrite no_slash_root_of, split_whole by done. simpl. by rewrite Hk.
Qed.

Lemma category_dir_eq (public_dir : Path) (cat : string) :
  proper_part cat →
  CLASSIFIED_ROOT public_dir // cat = public_dir ++ ["cat_pics"; "classified"; cat].
Proof.
  intros H. rewrite joinpath_relative by by apply no_slash_root_of, H.
  rewrite of_str_proper, CLASSIFIED_ROOT_eq by done. by rewrite <- app_assoc.
Qed.

Lemma valid_category_proper (CAT_NAMES : list string) (cat : string) :
  Forall proper_part CAT_NAMES → cat ∈ VALID_CATEGORIES CAT_NAMES → proper_part cat.
Proof.
  intros H. unfold VALID_CATEGORIES. rewrite elem_of_list_to_set, elem_of_app.
  intros [Hin|Hin]; [by apply (proj1 (Forall_forall _ _) H)|].
  revert Hin. unfold SPECIAL_CATEGORIES. rewrite !elem_of_cons, elem_of_nil.
  by intros [->|[->|[]]].
Qed.

(** What [stats] returns, category by category. *)
Lemma stats_ret (public_dir : Path) (CAT_NAMES : list string) (fs : FS)
    (counts : gmap string nat) :
  stats public_dir CAT_NAMES fs = Ret counts →
  ∀ cat, (cat ∈ VALID_CATEGORIES CAT_NAMES →
          ∃ n, count_files fs (CLASSIFIED_ROOT public_dir // cat) = Ret n ∧
               counts !! cat = Some n) ∧
         (cat ∉ VALID_CATEGORIES CAT_NAMES → counts !! cat = None).
Proof.
  unfold stats. intros Hst.
  destruct (stats_loop_ret public_dir fs (elements (VALID_CATEGORIES CAT_NAMES)) ∅)
    as (res & Hres & Hin & Hout).
  { apply Forall_forall. intros cat Hcat.
    destruct (count_files_cases fs (CLASSIFIED_ROOT public_dir // cat))
      as [[_ ->]|[[_ ->]|(_ & _ & E)]]; [by eexists|by eexists|].
    by rewrite (stats_loop_raise _ _ _ _ cat Hcat E) in Hst. }
  rewrite Hst in Hres. injection Hres as <-. intros cat. split.
  - intros Hcat. by apply Hin, elem_of_elements.
  - intros Hcat. rewrite Hout, lookup_empty; [done|]. by rewrite elem_of_elements.
Qed.

(** On a well-formed disk the count of a directory below the root is the
    number of regular files directly inside it. *)
Lemma count_files_wf (fs : FS) (d : Path) (n : nat) :
  Fs.wf fs → d ≠ [] → count_files fs d = Ret n →
  n = length (List.filter (Fs.is_file fs) (Fs.children fs d)).
Proof.
  intros Hwf Hd.
  destruct (count_files_cases fs d) as [[He ->]|[[_ ->]|(_ & _ & ->)]];
    [|by intros [= <-]|done].
  intros [= <-].
  destruct (List.filter (Fs.is_file fs) (Fs.children fs d)) as [|p l] eqn:E; [done|].
  assert (p ∈ List.filter (Fs.is_file fs) (Fs.children fs d)) as Hp.
  { rewrite E. apply list_elem_of_here. }
  apply file_children_elem_of in Hp as [Hc Hf].
  apply child_of_spec in Hc as [Hc _].
  unfold Fs.is_file in Hf. destruct (fs !! p) as [x|] eqn:Ep; [|done].
  rewrite Hc in Ep. apply exists_false in He.
  by rewrite (wf_above _ _ _ _ Hwf Ep) in He.
Qed.

(** X13.  Classifying a regular file that is not yet in a category directory
    raises the count of its category by one and leaves the other counts as
    they are.  The disk is well formed and the category names are single path
    parts. *)
Theorem stats_after_classify (public_dir : Path) (CAT_NAMES : list string)
    (st st1 : state) (req_image_id req_category u s : string) (c : nat)
    (r : classified) (counts : gmap string nat) :
  Fs.wf (fs st) → Forall proper_part CAT_NAMES →
  PyStr.split_once "|" req_image_id = Some (u, s) →
  fs st !! PyPath.of_str s = Some (File c) →
  set_Forall (λ cat, Fs.child_of (CLASSIFIED_ROOT public_dir // cat)
                                  (PyPath.of_str s) = false)
             (VALID_CATEGORIES CAT_NAMES) →
  stats public_dir CAT_NAMES (fs st) = Ret counts →
  classify public_dir CAT_NAMES st req_image_id req_category = (Ret r, st1) →
  ∃ counts',
    stats public_dir CAT_NAMES (fs st1) = Ret counts' ∧
    dom counts' = dom counts ∧
    ∀ cat n, counts !! cat = Some n →
      counts' !! cat = Some (if decide (cat = req_category) then S n else n).
Proof.
  intros Hwf Hprop Hs Hsrc Hout Hst Hcl.
  pose proof (stats_ret _ _ _ _ Hst) as Hbefore.
  destruct (classify_success _ _ _ _ _ _ _ Hcl) as (_ & _ & _ & _ & _ & Hv & _).
  destruct (classify_files _ _ _ _ _ _ _ _ _ _ Hs Hsrc Hcl)
    as (t & Hfree & Hform & Hfiles & Hdirs & Hgone & Hdir & _).
  pose proof (valid_category_proper _ _ Hprop Hv) as Hpc.
  specialize (Hdir (no_slash_root_of _ (proj2 Hpc))).
  destruct (target_in_category (CLASSIFIED_ROOT public_dir // req_category) s t)
    as (w & -> & Hw & Hwr); [by eapply wf_file_name|done|].
  set (D := λ cat, CLASSIFIED_ROOT public_dir // cat) in *.
  assert (∀ cat, cat ∈ VALID_CATEGORIES CAT_NAMES → D cat ≠ []) as Hne.
  { intros cat Hcat. unfold D.
    rewrite category_dir_eq by by eapply valid_category_proper.
    intros E. apply (f_equal length) in E. rewrite length_app in E. simpl in E. lia. }
  assert (∀ cat, cat ∈ VALID_CATEGORIES CAT_NAMES → D cat = D req_category →
                 cat = req_category) as Hinj.
  { intros cat Hcat. unfold D.
    rewrite !category_dir_eq by by eapply valid_category_proper.
    intros E. apply app_inv_head in E. by injection E. }
  (* the regular files of a category directory, before and after *)
  assert (∀ cat q, cat ∈ VALID_CATEGORIES CAT_NAMES →
            (Fs.child_of (D cat) q = true ∧ Fs.is_file (fs st1) q = true) ↔
            (cat = req_category ∧ q = D req_category ++ [w]) ∨
            (Fs.child_of (D cat) q = true ∧ Fs.is_file (fs st) q = true)) as Hmem.
  { intros cat q Hcat. unfold Fs.is_file. split.
    - intros [Hc Hf]. destruct (fs st1 !! q) as [[c'|]|] eqn:E1; [|done..].
      apply Hfiles in E1 as [[-> _]|[_ E0]].
      + left. split; [|done]. apply Hinj; [done|].
        apply child_of_spec in Hc as [Hc _]. by apply app_inj_tail in Hc as [? _].
      + right. by rewrite E0.
    - intros [[-> ->]|[Hc Hf]].
      + split.
        * apply child_of_spec. by rewrite name_snoc.
        * by rewrite (proj2 (Hfiles _ c) (or_introl (conj eq_refl eq_refl))).
      + split; [done|]. destruct (fs st !! q) as [[c'|]|] eqn:E0; [|done..].
        rewrite (proj2 (Hfiles q c')); [done|]. right. split; [|done].
        intros ->. by rewrite (Hout _ Hcat) in Hc. }
  (* the count of a category after the move *)
  assert (∀ cat, cat ∈ VALID_CATEGORIES CAT_NAMES →
            ∃ n', count_files (fs st1) (D cat) = Ret n' ∧
                  n' = length (List.filter (Fs.is_file (fs st1))
                                 (Fs.children (fs st1) (D cat)))) as Hafter.
  { intros cat Hcat.
    destruct (proj1 (Hbefore cat) Hcat) as (n & Hn & _).
    destruct (count_files_cases (fs st1) (D cat))
      as [[He ->]|[[_ ->]|(He & Hd & _)]]; [|by eexists|].
    - eexists. split; [done|].
      destruct (List.filter _ _) as [|q l] eqn:E; [done|]. exfalso.
      assert (q ∈ List.filter (Fs.is_file (fs st1)) (Fs.children (fs st1) (D cat)))
        as Hq by (rewrite E; apply list_elem_of_here).
      apply file_children_elem_of, Hmem in Hq as [[-> _]|[Hc Hf]]; [| |done].
      + apply exists_false in He. congruence.
      + apply child_of_spec in Hc as [Hc _]. unfold Fs.is_file in Hf.
        destruct (fs st !! q) as [x|] eqn:Eq; [|done]. rewrite Hc in Eq.
        pose proof (wf_above _ _ _ _ Hwf Eq (Hne _ Hcat) ltac:(done)) as Hd0.
        apply Hdirs in Hd0. apply exists_false in He. congruence.
    - exfalso. apply bool_decide_eq_true in He as [x Hx].
      destruct x as [c'|].
      + apply Hfiles in Hx as [[E _]|[_ E0]].
        * unfold D in E. rewrite !category_dir_eq in E
            by by eapply valid_category_proper.
          apply (f_equal length) in E. rewrite !length_app in E. simpl in E. lia.
        * destruct (count_files_cases (fs st) (D cat))
            as [[He0 _]|[[Hd0 _]|(_ & _ & E)]]; [| |congruence].
          -- apply exists_false in He0. congruence.
          -- apply bool_decide_eq_true in Hd0. congruence.
      + apply bool_decide_eq_false in Hd. done. }
  destruct (stats_loop_ret public_dir (fs st1)
              (elements (VALID_CATEGORIES CAT_NAMES)) ∅) as (res & Hres & Hin & Hnot).
  { apply Forall_forall. intros cat Hcat%elem_of_elements.
    destruct (Hafter cat Hcat) as (n' & Hn' & _). by exists n'. }
  exists res. split; [done|].
  assert (∀ cat n, counts !! cat = Some n →
            res !! cat = Some (if decide (cat = req_category) then S n else n)) as Hcount.
  { intros cat n Hcn.
    destruct (decide (cat ∈ VALID_CATEGORIES CAT_NAMES)) as [Hcat|Hcat].
    2: { rewrite (proj2 (Hbefore cat) Hcat) in Hcn. done. }
    destruct (proj1 (Hbefore cat) Hcat) as (n0 & Hn0 & Hc0).
    rewrite Hcn in Hc0. injection Hc0 as <-.
    apply (count_files_wf _ _ _ Hwf (Hne _ Hcat)) in Hn0.
    destruct (Hin cat) as (n' & Hn' & ->); [by apply elem_of_elements|].
    destruct (Hafter cat Hcat) as (n'' & Hn'' & Hlen).
    fold (D cat) in Hn'. rewrite Hn' in Hn''. injection Hn'' as <-.
    f_equal. rewrite Hlen, Hn0. fold (D cat).
    destruct (decide (cat = req_category)) as [->|Hne'].
    - change (S (length ?l)) with (length ((D req_category ++ [w]) :: l)).
      apply Permutation_length, NoDup_Permutation.
      + apply filter_NoDup, children_NoDup.
      + constructor; [|apply filter_NoDup, children_NoDup].
        rewrite file_children_elem_of. unfold Fs.is_file. by rewrite Hfree; intros [_ ?].
      + intros q. rewrite elem_of_cons, !file_children_elem_of, (Hmem _ _ Hcat).
        split; [intros [[_ ->]|?]; auto|intros [->|?]; auto].
    - apply Permutation_length, NoDup_Permutation;
        [apply filter_NoDup, children_NoDup..|].
      intros q. rewrite !file_children_elem_of, (Hmem _ _ Hcat).
      split; [by intros [[? _]|?]|by right]. }
  split; [|done].
  apply set_eq. intros cat. rewrite !elem_of_dom. split.
  - intros [n Hn]. destruct (decide (cat ∈ VALID_CATEGORIES CAT_NAMES)) as [Hcat|Hcat].
    + by destruct (proj1 (Hbefore cat) Hcat) as (n0 & _ & ->).
    + rewrite Hnot, lookup_empty in Hn by by rewrite elem_of_elements. done.
  - intros [n Hn]. rewrite (Hcount _ _ Hn). done.
Qed.

Lemma stats_after_classify_witness :
  Fs.wf (fs feeder_state) ∧ Forall proper_part ["milo"] ∧
  PyStr.split_once "|" (id first_image)
    = Some ("u", "/pub/cat_pics/officefeeder1/cats/a.jpg") ∧
  fs feeder_state !! PyPath.of_str "/pub/cat_pics/officefeeder1/cats/a.jpg"
    = Some (File 1) ∧
  set_Forall (λ cat, Fs.child_of (CLASSIFIED_ROOT ["/"; "pub"] // cat)
               (PyPath.of_str "/pub/cat_pics/officefeeder1/cats/a.jpg") = false)
             (VALID_CATEGORIES ["milo"]) ∧
  stats ["/"; "pub"] ["milo"] (fs feeder_state)
    = Ret {[ "milo" := 0; "unknown" := 0; "not_a_cat" := 0 ]} ∧
  classify ["/"; "pub"] ["milo"] feeder_state (id first_image) "unknown"
    = (Ret {| stored_at := "cat_pics/classified/unknown/a.jpg" |},
       (classify ["/"; "pub"] ["milo"] feeder_state (id first_image) "unknown").2) ∧
  ∃ counts',
    stats ["/"; "pub"] ["milo"]
      (fs (classify ["/"; "pub"] ["milo"] feeder_state (id first_image) "unknown").2)
      = Ret counts' ∧
    counts' !! "unknown" = Some 1 ∧ counts' !! "milo" = Some 0.
Proof.
  assert (Fs.wf (fs feeder_state)) as H1.
  { apply (bool_decide_unpack _). vm_compute. exact I. }
  assert (Forall proper_part ["milo"]) as H2.
  { apply (bool_decide_unpack _). vm_compute. exact I. }
  assert (PyStr.split_once "|" (id first_image)
          = Some ("u", "/pub/cat_pics/officefeeder1/cats/a.jpg")) as H3
    by reflexivity.
  assert (fs feeder_state !! PyPath.of_str "/pub/cat_pics/officefeeder1/cats/a.jpg"
          = Some (File 1)) as H4.
  { vm_compute. reflexivity. }
  assert (set_Forall (λ cat, Fs.child_of (CLASSIFIED_ROOT ["/"; "pub"] // cat)
               (PyPath.of_str "/pub/cat_pics/officefeeder1/cats/a.jpg") = false)
             (VALID_CATEGORIES ["milo"])) as H5.
  { apply (bool_decide_unpack _). vm_compute. exact I. }
  assert (stats ["/"; "pub"] ["milo"] (fs feeder_state)
          = Ret {[ "milo" := 0; "unknown" := 0; "not_a_cat" := 0 ]}) as H6.
  { vm_compute. reflexivity. }
  assert (classify ["/"; "pub"] ["milo"] feeder_state (id first_image) "unknown"
    = (Ret {| stored_at := "cat_pics/classified/unknown/a.jpg" |},
       (classify ["/"; "pub"] ["milo"] feeder_state (id first_image) "unknown").2))
    as H7.
  { reflexivity. }
  split; [exact H1|]. split; [exact H2|]. split; [exact H3|]. split; [exact H4|].
  split; [exact H5|]. split; [exact H6|]. split; [exact H7|].
  destruct (stats_after_classify _ _ _ _ _ _ _ _ _ _ _ H1 H2 H3 H4 H5 H6 H7)
    as (counts' & Hs & _ & Hc).
  exists counts'. split; [exact Hs|]. split.
  - exact (Hc "unknown" 0 eq_refl).
  - exact (Hc "milo" 0 eq_refl).
Defined.

(** ** Loading the module *)

Lemma lower_char_idemp (c : ascii) :
  PyStr.lower_char (PyStr.lower_char c) = PyStr.lower_char c.
Proof. by destruct c as [[] [] [] [] [] [] [] []]. Qed.

Lemma lower_char_slash (c : ascii) :
  bool_decide (PyStr.lower_char c = "/"%char) = bool_decide (c = "/"%char).
Proof. by destruct c as [[] [] [] [] [] [] [] []]. Qed.

Lemma lower_idemp (s : string) : PyStr.lower (PyStr.lower s) = PyStr.lower s.
Proof. induction s as [|c s IH]; simpl; [done|]. by rewrite lower_char_idemp, IH. Qed.

Lemma has_slash_lower (s : string) :
  PyStr.has_char "/" (PyStr.lower s) = PyStr.has_char "/" s.
Proof. induction s as [|c s IH]; simpl; [done|]. by rewrite lower_char_slash, IH. Qed.

Lemma has_char_substring (c : ascii) (a b : nat) (s : string) :
  PyStr.has_char c s = false → PyStr.has_char c (String.substring a b s) = false.
Proof.
  revert a b. induction s as [|x s IH]; intros a b H.
  - by destruct a, b.
  - simpl in H. apply orb_false_iff in H as [Hx Hs].
    destruct a as [|a]; simpl.
    + destruct b as [|b]; simpl; [done|]. by rewrite Hx, IH.
    + by apply IH.
Qed.

Lemma stem_no_slash (p : Path) :
  PyStr.has_char "/" (PyPath.name p) = false →
  PyStr.has_char "/" (PyPath.stem p) = false.
Proof.
  intros H. unfold PyPath.stem.
  destruct (PyStr.rfind "." (PyPath.name p)) as [i|]; [|done].
  destruct (_ && _); [|done]. by apply has_char_substring.
Qed.

Lemma prefixes_from_take (above parts : list string) (q : Path) :
  q ∈ Fs.prefixes_from above parts →
  ∃ k, 0 < k ≤ length parts ∧ q = above ++ take k parts.
Proof.
  revert above. induction parts as [|x parts IH]; intros above; simpl.
  { by intros ?%elem_of_nil. }
  intros [->|Hq]%elem_of_cons.
  - exists 1. split; [lia|done].
  - destruct (IH _ Hq) as (k & Hk & ->). exists (S k). split; [lia|].
    by rewrite <- app_assoc.
Qed.

(** What [mkdir] adds: directories on the way to its path. *)
Lemma mkdir_from_added (fs fs' : FS) (above : Path) (parts : list string)
    (q : Path) (n : node) :
  Fs.mkdir_from fs above parts = Some fs' → fs' !! q = Some n →
  fs !! q = Some n ∨ (n = Dir ∧ q ∈ Fs.prefixes_from above parts).
Proof.
  revert fs above. induction parts as [|part parts IH]; intros fs above; simpl.
  { intros [= <-] Hq. by left. }
  destruct (fs !! (above ++ [part])) as [[c|]|] eqn:E; [done| |].
  - intros Hm Hq. destruct (IH _ _ Hm Hq) as [?|[? ?]]; [by left|].
    right. split; [done|]. by apply list_elem_of_further.
  - intros Hm Hq. destruct (IH _ _ Hm Hq) as [Hq'|[? ?]].
    + destruct (decide (above ++ [part] = q)) as [<-|Hne].
      * rewrite lookup_insert_eq in Hq'. injection Hq' as <-.
        right. split; [done|]. apply list_elem_of_here.
      * rewrite lookup_insert_ne in Hq' by done. by left.
    + right. split; [done|]. by apply list_elem_of_further.
Qed.

(** Making the classified directory leaves the reference directory and its
    entries alone. *)
Lemma mkdir_classified_reference (public_dir : Path) (fs fs1 : FS) (q : Path) :
  Fs.mkdir fs (CLASSIFIED_ROOT public_dir) = Some fs1 →
  fs1 !! (REFERENCE_DIR public_dir ++ q) = fs !! (REFERENCE_DIR public_dir ++ q).
Proof.
  intros Hmk. destruct (fs1 !! (REFERENCE_DIR public_dir ++ q)) as [n|] eqn:E1.
  - destruct (mkdir_from_added _ _ _ _ _ _ Hmk E1) as [?|[_ Hq]]; [done|].
    exfalso. apply prefixes_from_take in Hq as (k & Hk & Hq). simpl in Hq.
    rewrite CLASSIFIED_ROOT_eq, REFERENCE_DIR_eq in *.
    rewrite <- app_assoc in Hq.
    destruct (decide (k ≤ length public_dir)) as [Hle|Hgt].
    + apply (f_equal length) in Hq.
      rewrite length_take, !length_app in Hq. simpl in Hq. lia.
    + rewrite take_app_ge in Hq by lia. apply app_inv_head in Hq.
      destruct (k - length public_dir) as [|[|[|k']]] eqn:Ek; [lia|..];
        simpl in Hq; discriminate.
  - destruct (fs !! (REFERENCE_DIR public_dir ++ q)) as [n|] eqn:E0; [|done].
    by rewrite (mkdir_from_keeps _ _ _ _ _ _ Hmk E0) in E1.
Qed.

Lemma normal_path_last (d : Path) (w : string) :
  d ≠ [] → normal_path (d ++ [w]) → proper_part w.
Proof.
  destruct d as [|x d]; [done|]. intros _ [_ H]. simpl in H.
  apply Forall_app in H as [_ H]. by inversion H.
Qed.

Lemma discover_names_filter (fs : FS) (entries : list Path) :
  discover_names fs entries =
  (λ p, PyStr.lower (PyPath.stem p)) <$>
    List.filter (λ p, Fs.is_file fs p
                      && bool_decide (PyStr.lower (PyPath.suffix p) ∈ exts)
                      && negb (bool_decide (PyStr.lower (PyPath.stem p)
                                              ∈ ["unknown"; "not_cat"])))
                entries.
Proof.
  induction entries as [|p entries IH]; [done|]. cbn [discover_names List.filter].
  destruct (Fs.is_file fs p && bool_decide (PyStr.lower (PyPath.suffix p) ∈ exts));
    [|done].
  cbn [andb]. destruct (bool_decide (_ ∈ ["unknown"; "not_cat"])); cbn [negb];
    [done|]. by rewrite fmap_cons, IH.
Qed.

(** X14.  Loading the module makes the classified directory, touching no regular
    file, and reads the cat names off the reference directory of the disk as
    it was: one name for each image file directly inside it whose lower-cased
    stem is not reserved, in the order of the paths of the files, each name
    being the lower-cased stem.  The names are in lower case, and plain names
    when the disk holds its entries under paths in normal form.  Loading
    fails when a regular file stands where a directory has to be made or where
    the reference directory is looked for. *)
Theorem startup_spec (public_dir : Path) (fs : FS) :
  (∀ fs1, Fs.mkdir fs (CLASSIFIED_ROOT public_dir) = Some fs1 →
     (Fs.exists_ fs (REFERENCE_DIR public_dir) = false ∨
      Fs.is_dir fs (REFERENCE_DIR public_dir) = true) →
     ∃ names files,
       startup public_dir fs = Ret (fs1, names) ∧
       fs1 !! CLASSIFIED_ROOT public_dir = Some Dir ∧
       (∀ q c, fs1 !! q = Some (File c) ↔ fs !! q = Some (File c)) ∧
       names = (λ p, PyStr.lower (PyPath.stem p)) <$> files ∧
       StronglySorted PyPath.le files ∧ NoDup files ∧
       (∀ p, p ∈ files ↔
             Fs.is_dir fs (REFERENCE_DIR public_dir) = true ∧
             Fs.child_of (REFERENCE_DIR public_dir) p = true ∧
             Fs.is_file fs p = true ∧
             PyStr.lower (PyPath.suffix p) ∈ exts ∧
             PyStr.lower (PyPath.stem p) ≠ "unknown" ∧
             PyStr.lower (PyPath.stem p) ≠ "not_cat") ∧
       Forall (λ n, PyStr.lower n = n) names ∧
       (map_Forall (λ p _, normal_path p) fs → Forall plain_name names)) ∧
  (Fs.mkdir fs (CLASSIFIED_ROOT public_dir) = None ∨
   (∃ c, fs !! REFERENCE_DIR public_dir = Some (File c)) →
   startup public_dir fs = Raise OSError).
Proof.
  assert (∀ fs1, Fs.mkdir fs (CLASSIFIED_ROOT public_dir) = Some fs1 →
            fs1 !! REFERENCE_DIR public_dir = fs !! REFERENCE_DIR public_dir) as Href.
  { intros fs1 Hmk.
    pose proof (mkdir_classified_reference public_dir fs fs1 [] Hmk) as H.
    by rewrite app_nil_r in H. }
  split.
  - intros fs1 Hmk Hok. unfold startup, _discover_cat_names, Fs.iterdir.
    rewrite Hmk. unfold Fs.exists_, Fs.is_dir in *. rewrite (Href _ Hmk).
    assert (fs1 !! CLASSIFIED_ROOT public_dir = Some Dir) as Hcr.
    { apply (mkdir_from_creates _ _ [] _ Hmk). rewrite CLASSIFIED_ROOT_eq.
      intros E. apply (f_equal length) in E. rewrite length_app in E.
      simpl in E. lia. }
    assert (∀ q c, fs1 !! q = Some (File c) ↔ fs !! q = Some (File c)) as Hfiles
      by (intros q c; apply (mkdir_files _ _ _ _ _ Hmk)).
    assert (∀ q, Fs.is_file fs1 q = Fs.is_file fs q) as Hisf.
    { intros q. unfold Fs.is_file.
      destruct (fs1 !! q) as [[c|]|] eqn:E1.
      - by rewrite (proj1 (Hfiles q c) E1).
      - destruct (fs !! q) as [[c|]|] eqn:E0; [|done..].
        apply Hfiles in E0. congruence.
      - destruct (fs !! q) as [[c|]|] eqn:E0; [|done..].
        apply Hfiles in E0. congruence. }
    destruct (fs !! REFERENCE_DIR public_dir) as [[c|]|] eqn:Er.
    + destruct Hok as [Hok|Hok].
      * apply bool_decide_eq_false in Hok. destruct Hok. eauto.
      * by apply bool_decide_eq_true in Hok.
    + rewrite bool_decide_eq_true_2 by eauto. rewrite bool_decide_eq_true_2 by done.
      rewrite discover_names_filter.
      set (files := List.filter _ (sorted _)).
      assert (∀ p, p ∈ files ↔
                True ∧ Fs.child_of (REFERENCE_DIR public_dir) p = true ∧
                Fs.is_file fs p = true ∧
                PyStr.lower (PyPath.suffix p) ∈ exts ∧
                PyStr.lower (PyPath.stem p) ≠ "unknown" ∧
                PyStr.lower (PyPath.stem p) ≠ "not_cat") as Hmem.
      { intros p. unfold files.
        rewrite filter_elem_of, sorted_elem_of, children_elem_of, !andb_true_iff,
          negb_true_iff, bool_decide_eq_true, bool_decide_eq_false, Hisf,
          !elem_of_cons, elem_of_nil.
        split.
        - intros [[_ Hc] [[Hf He] Hr]]. tauto.
        - intros (_ & Hc & Hf & He & H1 & H2). split; [split; [|done]|].
          + rewrite <- Hisf in Hf. unfold Fs.is_file in Hf.
            destruct (fs1 !! p); [eauto|done].
          + split; [done|]. tauto. }
      exists ((λ p, PyStr.lower (PyPath.stem p)) <$> files), files.
      split; [done|]. split; [done|]. split; [done|]. split; [done|].
      split; [apply filter_StronglySorted, sorted_StronglySorted|].
      split.
      { apply filter_NoDup. unfold sorted. rewrite merge_sort_Permutation.
        apply children_NoDup. }
      split.
      { intros p. rewrite Hmem. split; [|tauto].
        intros (_ & ?). by split. }
      split.
      * apply Forall_fmap, Forall_forall. intros p _. apply lower_idemp.
      * intros Hnorm. apply Forall_fmap, Forall_forall.
        intros p (_ & Hc & Hf & _)%Hmem. simpl.
        apply no_slash_root_of. rewrite has_slash_lower. apply stem_no_slash.
        apply child_of_spec in Hc as [Hc _].
        unfold Fs.is_file in Hf. destruct (fs !! p) as [x|] eqn:Ep; [|done].
        pose proof (Hnorm _ _ Ep) as Hn. rewrite Hc in Hn.
        apply normal_path_last in Hn; [apply Hn|].
        rewrite REFERENCE_DIR_eq. intros E. apply (f_equal length) in E.
        rewrite length_app in E. simpl in E. lia.
    + rewrite bool_decide_eq_false_2 by (by intros [? ?]).
      exists [], []. split; [done|]. split; [done|]. split; [done|].
      split; [done|]. split; [constructor|]. split; [constructor|].
      split; [|split; [constructor|by constructor]].
      intros p. split; [by intros ?%elem_of_nil|].
      by intros (Hd%bool_decide_eq_true & _).
  - intros [Hmk|[c Hc]]; unfold startup.
    + by rewrite Hmk.
    + destruct (Fs.mkdir fs (CLASSIFIED_ROOT public_dir)) as [fs1|] eqn:Hmk; [|done].
      unfold _discover_cat_names, Fs.iterdir, Fs.exists_, Fs.is_dir.
      rewrite (Href _ eq_refl), Hc.
      rewrite bool_decide_eq_true_2 by eauto. by rewrite bool_decide_eq_false_2.
Qed.

Lemma startup_spec_witness :
  Fs.mkdir installed_fs (CLASSIFIED_ROOT ["/"; "pub"]) = Some installed_fs ∧
  (Fs.exists_ installed_fs (REFERENCE_DIR ["/"; "pub"]) = false ∨
   Fs.is_dir installed_fs (REFERENCE_DIR ["/"; "pub"]) = true) ∧
  map_Forall (λ p _, normal_path p) installed_fs ∧
  ∃ names,
    startup ["/"; "pub"] installed_fs = Ret (installed_fs, names) ∧
    Forall plain_name names.
Proof.
  assert (Fs.mkdir installed_fs (CLASSIFIED_ROOT ["/"; "pub"]) = Some installed_fs)
    as H1.
  { apply mkdir_from_noop, (bool_decide_unpack _). vm_compute. exact I. }
  assert (Fs.exists_ installed_fs (REFERENCE_DIR ["/"; "pub"]) = false ∨
          Fs.is_dir installed_fs (REFERENCE_DIR ["/"; "pub"]) = true) as H2.
  { right. vm_compute. reflexivity. }
  assert (map_Forall (λ p _, normal_path p) installed_fs) as H3.
  { apply (bool_decide_unpack _). vm_compute. exact I. }
  split; [exact H1|]. split; [exact H2|]. split; [exact H3|].
  destruct (startup_spec ["/"; "pub"] installed_fs) as [H _].
  destruct (H installed_fs H1 H2)
    as (names & files & Hs & _ & _ & _ & _ & _ & _ & _ & Hp).
  exists names. split; [exact Hs|exact (Hp H3)].
Defined.

(** ** [list_categories] *)

Lemma proper_part_app (w ext : string) :
  PyStr.has_char "/" w = false → PyStr.has_char "/" ext = false →
  2 ≤ String.length ext → proper_part (w +:+ ext).
Proof.
  intros Hw He Hlen. split.
  - unfold PyPath.keep_part.
    rewrite !bool_decide_eq_false_2; [done|intros E..];
      apply (f_equal String.length) in E; rewrite string_length_app in E;
      simpl in E; lia.
  - by rewrite has_char_app, Hw, He.
Qed.

Lemma reference_path (public_dir : Path) (w ext : string) :
  PyStr.has_char "/" w = false → PyStr.has_char "/" ext = false →
  2 ≤ String.length ext →
  REFERENCE_DIR public_dir // (w +:+ ext) = REFERENCE_DIR public_dir ++ [w +:+ ext].
Proof.
  intros Hw He Hlen. pose proof (proper_part_app w ext Hw He Hlen) as Hp.
  rewrite joinpath_relative by by apply no_slash_root_of, Hp.
  by rewrite of_str_proper.
Qed.

Lemma reference_url_file (public_dir : Path) (fs : FS) (x : string) :
  reference_url public_dir fs (REFERENCE_DIR public_dir ++ [x]) =
  Ret (if Fs.exists_ fs (REFERENCE_DIR public_dir ++ [x])
       then Some ("/cat_pics/reference/" +:+ PyStr.replace "\" "/" x)
       else None).
Proof.
  unfold reference_url. destruct (Fs.exists_ _ _); [|done].
  rewrite parent_ROOT, REFERENCE_DIR_eq, <- app_assoc, relative_to_app.
  reflexivity.
Qed.

Lemma reference_of_name (public_dir : Path) (fs : FS) (name : string) :
  PyStr.has_char "/" name = false →
  reference_url public_dir fs (reference_file public_dir fs name) =
  Ret (first_reference public_dir fs name [".jpg"; ".jpeg"; ".png"; ".webp"; ".gif"]).
Proof.
  intros Hn. unfold reference_file, first_reference. cbn [List.find].
  rewrite !(reference_path public_dir name) by (done || (simpl; lia)).
  destruct (Fs.exists_ fs (REFERENCE_DIR public_dir ++ [name +:+ ".jpg"])) eqn:E1;
    simpl negb; cbv iota.
  { by rewrite reference_url_file, E1. }
  destruct (Fs.exists_ fs (REFERENCE_DIR public_dir ++ [name +:+ ".jpeg"])) eqn:E2.
  { rewrite (reference_path public_dir name) by (done || (simpl; lia)).
    by rewrite reference_url_file, E2. }
  destruct (Fs.exists_ fs (REFERENCE_DIR public_dir ++ [name +:+ ".png"])) eqn:E3.
  { rewrite (reference_path public_dir name) by (done || (simpl; lia)).
    by rewrite reference_url_file, E3. }
  destruct (Fs.exists_ fs (REFERENCE_DIR public_dir ++ [name +:+ ".webp"])) eqn:E4.
  { rewrite (reference_path public_dir name) by (done || (simpl; lia)).
    by rewrite reference_url_file, E4. }
  destruct (Fs.exists_ fs (REFERENCE_DIR public_dir ++ [name +:+ ".gif"])) eqn:E5.
  { rewrite (reference_path public_dir name) by (done || (simpl; lia)).
    by rewrite reference_url_file, E5. }
  by rewrite reference_url_file, E1.
Qed.

Lemma cat_descriptors_references (public_dir : Path) (fs : FS) (names : list string) :
  Forall (λ n, PyStr.has_char "/" n = false) names →
  cat_descriptors public_dir fs names =
  Ret ((λ name, {| key := name; label := PyStr.capitalize name;
                   reference := first_reference public_dir fs name
                                  [".jpg"; ".jpeg"; ".png"; ".webp"; ".gif"] |})
       <$> names).
Proof.
  induction 1 as [|name names Hn _ IH]; [done|].
  cbn [cat_descriptors]. by rewrite reference_of_name, IH.
Qed.

(** X15.  [list_categories] answers one descriptor for each cat name, in the order
    of the names, and then the two special ones.  The reference of a cat is
    the URL, below the public directory, of the first existing file among
    [name.jpg], [name.jpeg], [name.png], [name.webp] and [name.gif] of the
    reference directory, and none when there is no such file; the special
    categories look for [unknown.jpg] and [not_cat.jpg] only.  The cat names
    have no slash. *)
Theorem list_categories_references (public_dir : Path) (CAT_NAMES : list string)
    (fs : FS) :
  Forall (λ n, PyStr.has_char "/" n = false) CAT_NAMES →
  list_categories public_dir CAT_NAMES fs =
  Ret (((λ name, {| key := name; label := PyStr.capitalize name;
                    reference := first_reference public_dir fs name
                                   [".jpg"; ".jpeg"; ".png"; ".webp"; ".gif"] |})
        <$> CAT_NAMES)
       ++ [{| key := "unknown"; label := "Unknown";
              reference := first_reference public_dir fs "unknown" [".jpg"] |};
           {| key := "not_a_cat"; label := "Not a Cat";
              reference := first_reference public_dir fs "not_cat" [".jpg"] |}]).
Proof.
  intros H. unfold list_categories. rewrite cat_descriptors_references by done.
  change "unknown.jpg" with ("unknown" +:+ ".jpg").
  change "not_cat.jpg" with ("not_cat" +:+ ".jpg").
  rewrite !reference_path by (done || (simpl; lia)).
  rewrite !reference_url_file. unfold first_reference. cbn [List.find].
  by do 2 destruct (Fs.exists_ _ _).
Qed.

Lemma list_categories_references_witness :
  Forall (λ n, PyStr.has_char "/" n = false) ["milo"; "tiger"] ∧
  list_categories ["/"; "pub"] ["milo"; "tiger"] installed_fs =
  Ret [{| key := "milo"; label := "Milo";
          reference := Some "/cat_pics/reference/milo.png" |};
       {| key := "tiger"; label := "Tiger"; reference := None |};
       {| key := "unknown"; label := "Unknown";
          reference := Some "/cat_pics/reference/unknown.jpg" |};
       {| key := "not_a_cat"; label := "Not a Cat"; reference := None |}].
Proof.
  assert (Forall (λ n, PyStr.has_char "/" n = false) ["milo"; "tiger"]) as H
    by (by repeat constructor).
  split; [exact H|].
  rewrite (list_categories_references ["/"; "pub"] ["milo"; "tiger"] installed_fs H).
  vm_compute. reflexivity.
Defined.

(** ** The regular expression of the file names *)


Lemma string_app_nil_r (s : string) : s +:+ "" = s.
Proof.
  induction s as [|c s IH]; [done|].
  change (String c s +:+ "") with (String c (s +:+ "")). by rewrite IH.
Qed.

Lemma string_app_assoc (s t u : string) : (s +:+ t) +:+ u = s +:+ (t +:+ u).
Proof.
  induction s as [|c s IH]; [done|].
  change (String c ((s +:+ t) +:+ u) = String c (s +:+ (t +:+ u))). by rewrite IH.
Qed.















(** ** More on [plan] *)

Lemma path_leb_antisym (p q : Path) :
  PyPath.leb p q = true → PyPath.leb q p = true → p = q.
Proof.
  revert q. induction p as [|x p IH]; intros [|y q]; simpl; try done.
  destruct (decide (x = y)) as [->|Hne].
  - rewrite decide_True by done. intros H1 H2. f_equal. by apply IH.
  - rewrite decide_False by done. rewrite !bool_decide_eq_true.
    intros H1 H2. destruct Hne. by apply (anti_symm String.le).
Qed.

Global Instance path_le_antisym : AntiSymm (=) PyPath.le.
Proof. intros p q. apply path_leb_antisym. Qed.

(** [sorted] does not depend on the order of what it is given. *)
Lemma sorted_Permutation (l l' : list Path) : l ≡ₚ l' → sorted l = sorted l'.
Proof.
  intros H. apply (StronglySorted_unique PyPath.le);
    [apply sorted_StronglySorted..|].
  unfold sorted. by rewrite !merge_sort_Permutation.
Qed.

(** X17.  The listing of the files does not depend on the order in which [glob]
    yields them: [plan] returns the same two lists, in the same order, for
    any two sequences of the same files. *)
Theorem plan_glob_order (st_mtime : Path → Z) (globbed globbed' : list Path)
    (strategy : string) :
  globbed ≡ₚ globbed' →
  collect_files globbed = collect_files globbed' ∧
  plan st_mtime globbed strategy = plan st_mtime globbed' strategy.
Proof.
  intros H. unfold plan, collect_files. by rewrite (sorted_Permutation _ _ H).
Qed.

Lemma plan_glob_order_witness :
  [p060153; p060130; p060259] ≡ₚ [p060130; p060259; p060153] ∧
  plan example_mtime [p060153; p060130; p060259] "newest"
    = plan example_mtime [p060130; p060259; p060153] "newest".
Proof.
  assert ([p060153; p060130; p060259] ≡ₚ [p060130; p060259; p060153]) as H.
  { apply (Permutation_cons_append [p060130; p060259] p060153). }
  split; [exact H|].
  apply (plan_glob_order example_mtime _ _ "newest" H).
Defined.

Lemma choose_keep_unknown (st_mtime : Path → Z) (files : list Path)
    (strategy : string) :
  strategy ∉ STRATEGIES → choose_keep st_mtime files strategy = Raise ValueError.
Proof.
  unfold STRATEGIES. rewrite !not_elem_of_union, !not_elem_of_singleton.
  intros [[H1 H2] H3]. unfold choose_keep. by rewrite !decide_False.
Qed.

Lemma select_files_singletons (st_mtime : Path → Z) (strategy : string)
    (groups : list (string * list Path)) (keep delete : list Path) :
  Forall (λ g, length g.2 = 1) groups →
  select_files st_mtime strategy groups keep delete
    = Ret (keep ++ mjoin groups.*2, delete).
Proof.
  revert keep. induction groups as [|[mk files] groups IH]; intros keep H; simpl.
  { by rewrite app_nil_r. }
  inversion H as [|? ? Hlen H']; subst. simpl in Hlen.
  rewrite decide_True by done. destruct files as [|f [|g files]]; [done| |done].
  rewrite IH by done. by rewrite <- app_assoc.
Qed.

Lemma select_files_unknown (st_mtime : Path → Z) (strategy : string)
    (groups : list (string * list Path)) (keep delete : list Path) :
  strategy ∉ STRATEGIES → Forall (λ g, g.2 ≠ []) groups →
  Exists (λ g, length g.2 ≠ 1) groups →
  select_files st_mtime strategy groups keep delete = Raise ValueError.
Proof.
  intros Hs Hne Hex. revert keep delete Hne.
  induction Hex as [[mk files] groups Hlen|[mk files] groups Hex IH];
    intros keep delete Hne; simpl in *.
  - rewrite decide_False by done. by rewrite choose_keep_unknown.
  - inversion Hne as [|? ? Hf Hne']; subst. simpl in Hf.
    destruct (decide (length files = 1)).
    + destruct files as [|f files]; [done|]. by apply IH.
    + by rewrite choose_keep_unknown.
Qed.

Lemma NoDup_all_equal {A} (l : list A) :
  NoDup l → (∀ x y, x ∈ l → y ∈ l → x = y) → length l ≤ 1.
Proof.
  destruct l as [|x [|y l]]; simpl; [lia..|]. intros Hnd Heq. exfalso.
  apply NoDup_cons in Hnd as [Hx _]. apply Hx.
  rewrite (Heq x y); [apply list_elem_of_here|apply list_elem_of_here|].
  apply list_elem_of_further, list_elem_of_here.
Qed.

(** When no two files share a minute, [plan] keeps every file that has a
    minute key and deletes none, whatever the strategy. *)
Lemma plan_single_buckets (st_mtime : Path → Z) (globbed : list Path)
    (strategy : string) :
  NoDup globbed →
  (∀ mk, length (bucket (collect_files globbed) mk) ≤ 1) →
  ∃ keep, plan st_mtime globbed strategy = Ret (keep, []) ∧ NoDup keep ∧
          ∀ f, f ∈ keep ↔ f ∈ globbed ∧ bucketable f = true.
Proof.
  intros Hnd Hone. unfold plan.
  pose proof (grouped_all (collect_files globbed)) as Hg.
  destruct (grouped_facts _ _ Hg (collect_files_NoDup _ Hnd))
    as (_ & _ & Hjoin & Hmem).
  destruct Hg as (_ & Hall & _).
  rewrite select_files_singletons.
  - eexists. split; [done|]. split; [done|]. intros f. rewrite Hmem.
    unfold collect_files. by rewrite sorted_elem_of.
  - eapply Forall_impl; [exact Hall|]. intros g [E Hne]. simpl.
    specialize (Hone g.1). rewrite <- E in Hone.
    destruct g.2; simpl in *; [done|lia].
Qed.

(** X18.  With a strategy that is none of the three, [plan] raises the
    [ValueError] of [choose_keep] as soon as two files share a minute, and
    only then: when no two files do, it returns without ever looking at the
    strategy, keeping every file that has a minute key. *)
Theorem plan_unknown_strategy (st_mtime : Path → Z) (globbed : list Path)
    (strategy : string) :
  NoDup globbed → strategy ∉ STRATEGIES →
  ((∃ mk, 1 < length (bucket (collect_files globbed) mk)) →
   plan st_mtime globbed strategy = Raise ValueError) ∧
  ((∀ mk, length (bucket (collect_files globbed) mk) ≤ 1) →
   ∃ keep, plan st_mtime globbed strategy = Ret (keep, []) ∧
           ∀ f, f ∈ keep ↔ f ∈ globbed ∧ bucketable f = true).
Proof.
  intros Hnd Hs. split.
  - intros [mk Hmk]. unfold plan.
    pose proof (grouped_all (collect_files globbed)) as Hg.
    destruct (grouped_facts _ _ Hg (collect_files_NoDup _ Hnd)) as (_ & Hne & _).
    destruct Hg as (_ & Hall & Hcov).
    apply select_files_unknown; [done|done|].
    assert (mk ∈ (group_files [] (collect_files globbed)).*1)
      as (g & -> & Hin)%list_elem_of_fmap.
    { apply Hcov. intros E. rewrite E in Hmk. simpl in Hmk. lia. }
    apply Exists_exists. exists g. split; [done|].
    destruct (proj1 (Forall_forall _ _) Hall g Hin) as [-> _]. lia.
  - intros Hone.
    destruct (plan_single_buckets st_mtime globbed strategy Hnd Hone)
      as (keep & Hp & _ & Hk). eauto.
Qed.

Lemma plan_unknown_strategy_witness :
  NoDup example_files ∧ ("latest" ∉ STRATEGIES) ∧
  (∃ mk, 1 < length (bucket (collect_files example_files) mk)) ∧
  plan example_mtime example_files "latest" = Raise ValueError.
Proof.
  assert (NoDup example_files) as H1.
  { apply (bool_decide_unpack _). vm_compute. exact I. }
  assert ("latest" ∉ STRATEGIES) as H2.
  { apply (bool_decide_unpack _). vm_compute. exact I. }
  assert (∃ mk, 1 < length (bucket (collect_files example_files) mk)) as H3.
  { exists "20250816_0601". apply (bool_decide_unpack _). vm_compute. exact I. }
  split; [exact H1|]. split; [exact H2|]. split; [exact H3|].
  destruct (plan_unknown_strategy example_mtime example_files "latest" H1 H2)
    as [H _].
  exact (H H3).
Defined.

(** Among files that [plan] once listed and did not put in [delete], no
    two share a minute. *)
Lemma plan_rest_single (st_mtime : Path → Z) (globbed globbed' : list Path)
    (strategy : string) (keep delete : list Path) :
  NoDup globbed → plan st_mtime globbed strategy = Ret (keep, delete) →
  NoDup globbed' → (∀ f, f ∈ globbed' → f ∈ globbed ∧ f ∉ delete) →
  ∀ mk, length (bucket (collect_files globbed') mk) ≤ 1.
Proof.
  intros Hnd Hplan Hnd' Hsub mk.
  destruct (plan_spec _ _ _ _ _ Hnd Hplan) as (_ & _ & Hsurv).
  apply NoDup_all_equal.
  { apply filter_NoDup, collect_files_NoDup, Hnd'. }
  assert (∀ x, x ∈ bucket (collect_files globbed') mk →
               x ∈ bucket (collect_files globbed) mk ∧ x ∉ delete) as Hb.
  { intros x [Hx Hkey]%bucket_elem_of.
    unfold collect_files in Hx. rewrite sorted_elem_of in Hx.
    destruct (Hsub x Hx) as [Hin Hdel].
    split; [|done]. apply bucket_elem_of. split; [|done].
    unfold collect_files. by rewrite sorted_elem_of. }
  intros x y [Hx Hxd]%Hb [Hy Hyd]%Hb.
  destruct (Hsurv mk) as (c & _ & _ & Hdel).
  { intros E. rewrite E in Hx. by apply elem_of_nil in Hx. }
  destruct (decide (x = c)) as [->|Hxc]; [|by destruct Hxd; apply Hdel].
  destruct (decide (y = c)) as [->|Hyc]; [done|by destruct Hyd; apply Hdel].
Qed.

(** X19.  Pruning is idempotent: over files that [plan] once listed and did not
    put in [delete] (what a second [glob] finds after the deletions), a
    second [plan] deletes nothing and keeps the files the first one kept,
    whatever the strategy and the modification times then are. *)
Theorem plan_after_deletion (st_mtime st_mtime' : Path → Z)
    (globbed globbed' : list Path) (strategy strategy' : string)
    (keep delete : list Path) :
  NoDup globbed → plan st_mtime globbed strategy = Ret (keep, delete) →
  NoDup globbed' → (∀ f, f ∈ globbed' → f ∈ globbed ∧ f ∉ delete) →
  ∃ keep', plan st_mtime' globbed' strategy' = Ret (keep', []) ∧
           ∀ f, f ∈ keep' ↔ f ∈ globbed' ∧ f ∈ keep.
Proof.
  intros Hnd Hplan Hnd' Hsub.
  destruct (plan_spec _ _ _ _ _ Hnd Hplan) as (Hkd & Hmem & _).
  destruct (plan_single_buckets st_mtime' globbed' strategy' Hnd'
              (plan_rest_single _ _ _ _ _ _ Hnd Hplan Hnd' Hsub))
    as (keep' & Hp & _ & Hk).
  exists keep'. split; [done|]. intros f. rewrite Hk. split.
  - intros [Hf Hb]. split; [done|]. destruct (Hsub f Hf) as [Hin Hdel].
    assert (f ∈ keep ++ delete) as Hkd' by by apply Hmem.
    by apply elem_of_app in Hkd' as [?|?].
  - intros [Hf Hkp]. split; [done|].
    assert (f ∈ keep ++ delete) as Hin by (apply elem_of_app; by left).
    by apply Hmem in Hin as [_ ?].
Qed.

Lemma plan_after_deletion_witness :
  NoDup example_population ∧
  plan example_mtime example_population "oldest"
    = Ret ([p060153; p060259], [p060130]) ∧
  NoDup [p060259; ["notes.txt"]; p060153] ∧
  (∀ f, f ∈ [p060259; ["notes.txt"]; p060153] →
        f ∈ example_population ∧ f ∉ [p060130]) ∧
  ∃ keep', plan example_mtime [p060259; ["notes.txt"]; p060153] "newest"
             = Ret (keep', []).
Proof.
  assert (NoDup example_population) as H1.
  { apply (bool_decide_unpack _). vm_compute. exact I. }
  assert (plan example_mtime example_population "oldest"
          = Ret ([p060153; p060259], [p060130])) as H2.
  { vm_compute. reflexivity. }
  assert (NoDup [p060259; ["notes.txt"]; p060153]) as H3.
  { apply (bool_decide_unpack _). vm_compute. exact I. }
  assert (∀ f, f ∈ [p060259; ["notes.txt"]; p060153] →
               f ∈ example_population ∧ f ∉ [p060130]) as H4.
  { apply (Forall_forall (λ f, f ∈ example_population ∧ f ∉ [p060130])).
    apply (bool_decide_unpack _). vm_compute. exact I. }
  split; [exact H1|]. split; [exact H2|]. split; [exact H3|]. split; [exact H4|].
  destruct (plan_after_deletion example_mtime example_mtime example_population
              [p060259; ["notes.txt"]; p060153] "oldest" "newest" _ _ H1 H2 H3 H4)
    as (keep' & Hp & _).
  exists keep'. exact Hp.
Defined.

(** ** [main] of the pruner *)

Lemma unlink_cases (fs : FS) (p : Path) :
  (Fs.is_file fs p = true ∧ unlink fs p = Some (delete p fs)) ∨
  (Fs.is_file fs p = false ∧ unlink fs p = None).
Proof. unfold Fs.is_file, unlink. destruct (fs !! p) as [[c|]|]; auto. Qed.

Lemma is_file_delete (fs : FS) (p q : Path) :
  p ≠ q → Fs.is_file (delete p fs) q = Fs.is_file fs q.
Proof. intros H. unfold Fs.is_file. by rewrite lookup_delete_ne. Qed.

Lemma filter_ext_elem_of {A} (f g : A → bool) (l : list A) :
  (∀ x, x ∈ l → f x = g x) → List.filter f l = List.filter g l.
Proof.
  induction l as [|x l IH]; intros H; simpl; [done|].
  rewrite (H x) by apply list_elem_of_here.
  rewrite IH; [done|]. intros y Hy. by apply H, list_elem_of_further.
Qed.

(** The deletion loop over distinct paths removes the regular files among
    them, counts these, reports the others, and touches nothing else. *)
Lemma delete_loop_spec (fs : FS) (files : list Path) (removed : nat)
    (errs : list string) :
  NoDup files →
  ∃ fs',
    delete_loop fs files removed errs =
      (fs', removed + length (List.filter (Fs.is_file fs) files),
       errs ++ ((λ f, "Failed to delete " +:+ PyPath.to_str f)
                <$> List.filter (λ f, negb (Fs.is_file fs f)) files)) ∧
    ∀ p, fs' !! p =
         if decide (p ∈ files ∧ Fs.is_file fs p = true) then None else fs !! p.
Proof.
  revert fs removed errs. induction files as [|f files IH];
    intros fs removed errs Hnd; simpl.
  { exists fs. rewrite Nat.add_0_r, app_nil_r. split; [done|]. by intros p. }
  apply NoDup_cons in Hnd as [Hf Hnd].
  destruct (unlink_cases fs f) as [[Hfile ->]|[Hfile ->]]; rewrite Hfile; simpl.
  - destruct (IH (delete f fs) (S removed) errs Hnd) as (fs' & -> & Hfs').
    exists fs'. split.
    + rewrite (filter_ext_elem_of (Fs.is_file (delete f fs)) (Fs.is_file fs)),
        (filter_ext_elem_of (λ g, negb (Fs.is_file (delete f fs) g))
           (λ g, negb (Fs.is_file fs g))).
      * f_equal. f_equal. lia.
      * intros g Hg. rewrite is_file_delete; [done|]. by intros ->.
      * intros g Hg. rewrite is_file_delete; [done|]. by intros ->.
    + intros p. rewrite Hfs'. destruct (decide (p = f)) as [->|Hpf].
      * rewrite decide_False by (by intros [? _]).
        rewrite lookup_delete_eq. rewrite decide_True; [done|].
        split; [apply list_elem_of_here|done].
      * rewrite is_file_delete, lookup_delete_ne by done.
        destruct (decide (p ∈ files ∧ Fs.is_file fs p = true)) as [[Hin Hp]|Hno].
        -- rewrite decide_True; [done|]. split; [by apply list_elem_of_further|done].
        -- rewrite decide_False; [done|]. intros [[?|?]%elem_of_cons ?]; tauto.
  - destruct (IH fs removed (errs ++ ["Failed to delete " +:+ PyPath.to_str f]) Hnd)
      as (fs' & -> & Hfs').
    exists fs'. split.
    + by rewrite <- app_assoc.
    + intros p. rewrite Hfs'.
      destruct (decide (p ∈ files ∧ Fs.is_file fs p = true)) as [[Hin Hp]|Hno].
      * rewrite decide_True; [done|]. split; [by apply list_elem_of_further|done].
      * rewrite decide_False; [done|]. intros [[->|?]%elem_of_cons ?]; [congruence|tauto].
Qed.

Lemma last_app_snoc {A} (l1 l2 l3 : list A) (y : A) :
  last (l1 ++ l2 ++ l3 ++ [y]) = Some y.
Proof. by rewrite !app_assoc, last_snoc. Qed.

Lemma write_file_lookup (fs fs' : FS) (p q : Path) (content : nat) :
  write_file fs p content = Some fs' → q ≠ p → fs' !! q = fs !! q.
Proof.
  unfold write_file. destruct (Fs.is_dir fs p); [done|].
  destruct (Fs.is_dir fs (PyPath.parent p)); [|done].
  intros [= <-] Hq. by rewrite lookup_insert_ne.
Qed.

(** The shape of a run of [main] on a directory: the plan, the disk after
    the deletion loop, and the disk after the log. *)
Lemma main_run (st_mtime : Path → Z) (text : list string → nat) (fs : FS)
    (globbed : list Path) (args : Args.t) (keep deleted : list Path) :
  Fs.is_dir fs (Args.root args) = true →
  plan st_mtime globbed (Args.strategy args) = Ret (keep, deleted) →
  (Args.delete args = true → NoDup deleted) →
  ∃ r fs1,
    main st_mtime text fs globbed args = Ret r ∧ code r = 0%Z ∧
    (∀ p, fs1 !! p =
          if decide (Args.delete args = true ∧ p ∈ deleted ∧ Fs.is_file fs p = true)
          then None else fs !! p) ∧
    (∀ p, Args.log args ≠ Some p → disk r !! p = fs1 !! p) ∧
    (logged r = None → disk r = fs1) ∧
    (Args.delete args = false → fs1 = fs) ∧
    (Args.delete args = true →
     last (stdout r) =
       Some ("Deleted " +:+ PyStr.of_nat (length (List.filter (Fs.is_file fs) deleted))
               +:+ " files.")).
Proof.
  intros Hroot Hplan Hnd. unfold main. rewrite Hroot, Hplan. simpl negb. cbv iota.
  destruct (Args.delete args) eqn:Hdel.
  - destruct (delete_loop_spec fs deleted 0 [] (Hnd eq_refl)) as (fs' & Hloop & Hfs').
    rewrite Hloop. simpl negb. cbv iota beta.
    assert (∀ p, fs' !! p =
              if decide (true = true ∧ p ∈ deleted ∧ Fs.is_file fs p = true)
              then None else fs !! p) as Hfs1.
    { intros p. rewrite Hfs'.
      destruct (decide (p ∈ deleted ∧ Fs.is_file fs p = true)) as [?|?];
        [by rewrite decide_True|rewrite decide_False; [done|tauto]]. }
    destruct (Args.log args) as [log_path|] eqn:Hlog.
    + destruct (write_file fs' log_path _) as [fs2|] eqn:Hw.
      * eexists _, fs'. split; [done|]. simpl. split; [done|]. split; [done|].
        split; [|split; [done|split; [done|]]].
        { intros p Hp. apply (write_file_lookup _ _ _ _ _ Hw). congruence. }
        intros _. apply (last_app_snoc [_]).
      * eexists _, fs'. split; [done|]. simpl. split; [done|]. split; [done|].
        split; [done|]. split; [done|]. split; [done|].
        intros _. apply (last_app_snoc [_]).
    + eexists _, fs'. split; [done|]. simpl. split; [done|]. split; [done|].
      split; [done|]. split; [done|]. split; [done|].
      intros _. apply (last_app_snoc [_]).
  - simpl negb. cbv iota beta.
    assert (∀ p, fs !! p =
              if decide (false = true ∧ p ∈ deleted ∧ Fs.is_file fs p = true)
              then None else fs !! p) as Hfs1.
    { intros p. rewrite decide_False; [done|]. by intros [? _]. }
    destruct (Args.log args) as [log_path|] eqn:Hlog.
    + destruct (write_file fs log_path _) as [fs2|] eqn:Hw.
      * eexists _, fs. split; [done|]. simpl. split; [done|]. split; [done|].
        split; [|done].
        intros p Hp. apply (write_file_lookup _ _ _ _ _ Hw). congruence.
      * eexists _, fs. split; [done|]. simpl. done.
    + eexists _, fs. split; [done|]. simpl. done.
Qed.



(** X21.  Without [--delete] a run of [main] removes and changes nothing: every
    path other than that of the log is as it was, and the whole disk is when
    no log is written. *)
Theorem main_dry_run (st_mtime : Path → Z) (text : list string → nat) (fs : FS)
    (globbed : list Path) (args : Args.t) :
  Args.delete args = false → Args.strategy args ∈ STRATEGIES → NoDup globbed →
  ∃ r,
    main st_mtime text fs globbed args = Ret r ∧
    (∀ p, Args.log args ≠ Some p → disk r !! p = fs !! p) ∧
    (logged r = None → disk r = fs) ∧
    (Args.log args = None → logged r = None).
Proof.
  intros Hdel Hs Hnd. destruct (Fs.is_dir fs (Args.root args)) eqn:Hroot.
  - destruct (plan_ret st_mtime globbed (Args.strategy args) Hnd Hs)
      as (keep & deleted & Hplan).
    destruct (main_run st_mtime text fs globbed args keep deleted Hroot Hplan)
      as (r & fs1 & Hr & _ & _ & Hlog & Hnolog & Hdry & _); [by rewrite Hdel|].
    rewrite (Hdry Hdel) in *. exists r. split; [done|]. split; [done|].
    split; [done|]. intros Hl. unfold main in Hr.
    rewrite Hroot, Hplan, Hdel, Hl in Hr. simpl in Hr. by injection Hr as <-.
  - unfold main. rewrite Hroot. eexists. split; [done|]. done.
Qed.

Lemma main_dry_run_witness :
  Args.delete dry_args = false ∧ Args.strategy dry_args ∈ STRATEGIES ∧
  NoDup example_population ∧
  ∃ r, main example_mtime length prune_fs example_population dry_args = Ret r ∧
       (logged r = None → disk r = prune_fs).
Proof.
  assert (Args.delete dry_args = false) as H0 by reflexivity.
  assert (Args.strategy dry_args ∈ STRATEGIES) as H1.
  { apply (bool_decide_unpack _). vm_compute. exact I. }
  assert (NoDup example_population) as H2.
  { apply (bool_decide_unpack _). vm_compute. exact I. }
  split; [exact H0|]. split; [exact H1|]. split; [exact H2|].
  destruct (main_dry_run example_mtime length prune_fs example_population
              dry_args H0 H1 H2) as (r & Hr & _ & Hd & _).
  exists r. split; [exact Hr|exact Hd].
Defined.

(** X22.  With [--delete] a run of [main] on a directory removes the regular files
    of the [delete] list of the plan and nothing else: every file the plan
    keeps, and every path [glob] did not yield, is as it was (the path of the
    log apart).  The last line printed counts the files removed. *)
Theorem main_delete (st_mtime : Path → Z) (text : list string → nat) (fs : FS)
    (globbed : list Path) (args : Args.t) :
  Args.delete args = true → Fs.is_dir fs (Args.root args) = true →
  Args.strategy args ∈ STRATEGIES → NoDup globbed →
  ∃ r keep deleted,
    main st_mtime text fs globbed args = Ret r ∧
    plan st_mtime globbed (Args.strategy args) = Ret (keep, deleted) ∧
    (∀ p, Args.log args ≠ Some p →
          disk r !! p =
            if decide (p ∈ deleted ∧ Fs.is_file fs p = true) then None
            else fs !! p) ∧
    (∀ p, Args.log args ≠ Some p → p ∈ keep ∨ p ∉ globbed →
          disk r !! p = fs !! p) ∧
    last (stdout r) =
      Some ("Deleted " +:+ PyStr.of_nat (length (List.filter (Fs.is_file fs) deleted))
              +:+ " files.").
Proof.
  intros Hdel Hroot Hs Hnd.
  destruct (plan_ret st_mtime globbed (Args.strategy args) Hnd Hs)
    as (keep & deleted & Hplan).
  destruct (plan_spec _ _ _ _ _ Hnd Hplan) as (Hkd & Hmem & _).
  pose proof Hkd as (_ & Hdisj & Hd)%NoDup_app.
  destruct (main_run st_mtime text fs globbed args keep deleted Hroot Hplan)
    as (r & fs1 & Hr & _ & Hfs1 & Hlog & _ & _ & Hlast); [done|].
  exists r, keep, deleted. split; [done|]. split; [done|].
  assert (∀ p, Args.log args ≠ Some p →
            disk r !! p =
              if decide (p ∈ deleted ∧ Fs.is_file fs p = true) then None
              else fs !! p) as Hdisk.
  { intros p Hp. rewrite (Hlog p Hp), Hfs1.
    destruct (decide (p ∈ deleted ∧ Fs.is_file fs p = true)) as [?|?];
      [by rewrite decide_True|rewrite decide_False; [done|tauto]]. }
  split; [done|]. split; [|by apply Hlast].
  intros p Hp Hkeep. rewrite (Hdisk p Hp). rewrite decide_False; [done|].
  intros [Hin _]. destruct Hkeep as [Hk|Hg].
  - by apply (Hdisj p).
  - apply Hg. assert (p ∈ keep ++ deleted) as Hin' by (apply elem_of_app; by right).
    by apply Hmem in Hin' as [? _].
Qed.

Lemma main_delete_witness :
  Args.delete prune_args = true ∧ Fs.is_dir prune_fs (Args.root prune_args) = true ∧
  Args.strategy prune_args ∈ STRATEGIES ∧ NoDup example_population ∧
  ∃ r keep deleted,
    main example_mtime length prune_fs example_population prune_args = Ret r ∧
    plan example_mtime example_population (Args.strategy prune_args)
      = Ret (keep, deleted) ∧
    last (stdout r) =
      Some ("Deleted "
              +:+ PyStr.of_nat (length (List.filter (Fs.is_file prune_fs) deleted))
              +:+ " files.").
Proof.
  assert (Args.delete prune_args = true) as H0 by reflexivity.
  assert (Fs.is_dir prune_fs (Args.root prune_args) = true) as H1.
  { vm_compute. reflexivity. }
  assert (Args.strategy prune_args ∈ STRATEGIES) as H2.
  { apply (bool_decide_unpack _). vm_compute. exact I. }
  assert (NoDup example_population) as H3.
  { apply (bool_decide_unpack _). vm_compute. exact I. }
  split; [exact H0|]. split; [exact H1|]. split; [exact H2|]. split; [exact H3|].
  destruct (main_delete example_mtime length prune_fs example_population
              prune_args H0 H1 H2 H3) as (r & keep & deleted & Hr & Hp & _ & _ & Hl).
  exists r, keep, deleted. split; [exact Hr|]. split; [exact Hp|exact Hl].
Defined.

(** X23.  Running the pruner again finds nothing to delete.  After a run with
    [--delete] over regular files, none of them the log, a second run over
    what [glob] then yields (files of the first listing that still exist)
    ends with exit code 0 and leaves the disk as the first run left it,
    whatever its strategy and the modification times then are. *)
Theorem main_rerun (st_mtime st_mtime' : Path → Z) (text text' : list string → nat)
    (fs : FS) (globbed globbed' : list Path) (args args' : Args.t) :
  Args.delete args = true → Fs.is_dir fs (Args.root args) = true →
  Args.strategy args ∈ STRATEGIES → NoDup globbed →
  Forall (λ f, Fs.is_file fs f = true ∧ Args.log args ≠ Some f) globbed →
  ∃ r,
    main st_mtime text fs globbed args = Ret r ∧
    (NoDup globbed' →
     (∀ f, f ∈ globbed' → f ∈ globbed ∧ Fs.exists_ (disk r) f = true) →
     Fs.is_dir (disk r) (Args.root args') = true → Args.log args' = None →
     ∃ r', main st_mtime' text' (disk r) globbed' args' = Ret r' ∧
           code r' = 0%Z ∧ disk r' = disk r ∧ stderr r' = []).
Proof.
  intros Hdel Hroot Hs Hnd Hfiles.
  destruct (plan_ret st_mtime globbed (Args.strategy args) Hnd Hs)
    as (keep & deleted & Hplan).
  destruct (plan_spec _ _ _ _ _ Hnd Hplan) as (Hkd & Hmem & _).
  pose proof Hkd as (_ & _ & Hd)%NoDup_app.
  destruct (main_run st_mtime text fs globbed args keep deleted Hroot Hplan)
    as (r & fs1 & Hr & _ & Hfs1 & Hlog & _); [done|].
  exists r. split; [done|]. intros Hnd' Hsub Hroot' Hlog'.
  assert (∀ f, f ∈ globbed' → f ∈ globbed ∧ f ∉ deleted) as Hrest.
  { intros f Hf. destruct (Hsub f Hf) as [Hin He]. split; [done|]. intros Hdl.
    destruct (proj1 (Forall_forall _ _) Hfiles f Hin) as [Hfile Hnl].
    apply bool_decide_eq_true in He as [x Hx].
    rewrite (Hlog f Hnl), Hfs1, decide_True in Hx by done. done. }
  destruct (plan_single_buckets st_mtime' globbed' (Args.strategy args') Hnd'
              (plan_rest_single _ _ _ _ _ _ Hnd Hplan Hnd' Hrest))
    as (keep' & Hplan' & _).
  destruct (main_run st_mtime' text' (disk r) globbed' args' keep' [] Hroot' Hplan')
    as (r' & fs1' & Hr' & Hcode' & Hfs1' & _ & Hnolog & _); [by constructor|].
  exists r'. split; [done|]. split; [done|].
  unfold main in Hr'. rewrite Hroot', Hplan', Hlog' in Hr'. simpl in Hr'.
  destruct (Args.delete args'); simpl in Hr'; by injection Hr' as <-.
Qed.

Lemma main_rerun_witness :
  Args.delete prune_args = true ∧ Fs.is_dir prune_fs (Args.root prune_args) = true ∧
  Args.strategy prune_args ∈ STRATEGIES ∧ NoDup example_population ∧
  Forall (λ f, Fs.is_file prune_fs f = true ∧ Args.log prune_args ≠ Some f)
         example_population ∧
  ∃ r, main example_mtime length prune_fs example_population prune_args = Ret r.
Proof.
  assert (Args.delete prune_args = true) as H0 by reflexivity.
  assert (Fs.is_dir prune_fs (Args.root prune_args) = true) as H1.
  { vm_compute. reflexivity. }
  assert (Args.strategy prune_args ∈ STRATEGIES) as H2.
  { apply (bool_decide_unpack _). vm_compute. exact I. }
  assert (NoDup example_population) as H3.
  { apply (bool_decide_unpack _). vm_compute. exact I. }
  assert (Forall (λ f, Fs.is_file prune_fs f = true ∧ Args.log prune_args ≠ Some f)
                 example_population) as H4.
  { apply (bool_decide_unpack _). vm_compute. exact I. }
  split; [exact H0|]. split; [exact H1|]. split; [exact H2|]. split; [exact H3|].
  split; [exact H4|].
  destruct (main_rerun example_mtime example_mtime length length prune_fs
              example_population [] prune_args prune_args H0 H1 H2 H3 H4)
    as (r & Hr & _).
  exists r. exact Hr.
Defined.

(** ** Ties in [choose_keep] *)

(** [min] returns the first of the elements whose key is the least:
    [before] and [between] are the elements already seen on either side of
    the best one so far. *)
Lemma min_from_first {A} (key : A → Z) (before : list A) (best : A)
    (between l : list A) :
  Forall (λ x, (key best < key x)%Z) before →
  Forall (λ x, (key best ≤ key x)%Z) between →
  ∃ l1 l2,
    before ++ best :: between ++ l = l1 ++ min_from key best l :: l2 ∧
    Forall (λ x, (key (min_from key best l) < key x)%Z) l1 ∧
    Forall (λ x, (key (min_from key best l) ≤ key x)%Z) l2.
Proof.
  revert before best between. induction l as [|x l IH];
    intros before best between Hb Hm; simpl.
  { exists before, between. by rewrite app_nil_r. }
  destruct (Z.ltb_spec (key x) (key best)) as [Hlt|Hge].
  - destruct (IH (before ++ best :: between) x []) as (l1 & l2 & E & H1 & H2).
    + apply Forall_app. split.
      * eapply Forall_impl; [exact Hb|]. intros y Hy. simpl in Hy. lia.
      * constructor; [lia|]. eapply Forall_impl; [exact Hm|].
        intros y Hy. simpl in Hy. lia.
    + constructor.
    + exists l1, l2. split; [|done]. rewrite <- E. simpl.
      by rewrite <- !app_assoc.
  - destruct (IH before best (between ++ [x])) as (l1 & l2 & E & H1 & H2).
    + done.
    + apply Forall_app. split; [done|]. by constructor.
    + exists l1, l2. split; [|done]. rewrite <- E. by rewrite <- !app_assoc.
Qed.

Lemma max_from_first {A} (key : A → Z) (before : list A) (best : A)
    (between l : list A) :
  Forall (λ x, (key x < key best)%Z) before →
  Forall (λ x, (key x ≤ key best)%Z) between →
  ∃ l1 l2,
    before ++ best :: between ++ l = l1 ++ max_from key best l :: l2 ∧
    Forall (λ x, (key x < key (max_from key best l))%Z) l1 ∧
    Forall (λ x, (key x ≤ key (max_from key best l))%Z) l2.
Proof.
  revert before best between. induction l as [|x l IH];
    intros before best between Hb Hm; simpl.
  { exists before, between. by rewrite app_nil_r. }
  destruct (Z.ltb_spec (key best) (key x)) as [Hlt|Hge].
  - destruct (IH (before ++ best :: between) x []) as (l1 & l2 & E & H1 & H2).
    + apply Forall_app. split.
      * eapply Forall_impl; [exact Hb|]. intros y Hy. simpl in Hy. lia.
      * constructor; [lia|]. eapply Forall_impl; [exact Hm|].
        intros y Hy. simpl in Hy. lia.
    + constructor.
    + exists l1, l2. split; [|done]. rewrite <- E. simpl.
      by rewrite <- !app_assoc.
  - destruct (IH before best (between ++ [x])) as (l1 & l2 & E & H1 & H2).
    + done.
    + apply Forall_app. split; [done|]. by constructor.
    + exists l1, l2. split; [|done]. rewrite <- E. by rewrite <- !app_assoc.
Qed.

(** X24.  Ties are broken by position: among the files with the least
    modification time ['oldest'] keeps the first, among those with the
    greatest ['newest'] keeps the first, and ['first_seen'] keeps the first of
    all.  As [plan] hands over the files of a minute sorted by path, of several
    files with the chosen time the one with the least path is kept. *)
Theorem choose_keep_ties (st_mtime : Path → Z) (files : list Path)
    (strategy : string) (c : Path) :
  choose_keep st_mtime files strategy = Ret c →
  (∃ l1 l2,
     files = l1 ++ c :: l2 ∧
     (strategy = "first_seen" → l1 = []) ∧
     (strategy = "oldest" →
      Forall (λ f, (st_mtime c < st_mtime f)%Z) l1 ∧
      Forall (λ f, (st_mtime c ≤ st_mtime f)%Z) l2) ∧
     (strategy = "newest" →
      Forall (λ f, (st_mtime f < st_mtime c)%Z) l1 ∧
      Forall (λ f, (st_mtime f ≤ st_mtime c)%Z) l2)) ∧
  (StronglySorted PyPath.le files →
   ∀ f, f ∈ files → st_mtime f = st_mtime c → PyPath.le c f).
Proof.
  intros Hc.
  assert (∃ l1 l2,
     files = l1 ++ c :: l2 ∧
     (strategy = "first_seen" → l1 = []) ∧
     (strategy = "oldest" →
      Forall (λ f, (st_mtime c < st_mtime f)%Z) l1 ∧
      Forall (λ f, (st_mtime c ≤ st_mtime f)%Z) l2) ∧
     (strategy = "newest" →
      Forall (λ f, (st_mtime f < st_mtime c)%Z) l1 ∧
      Forall (λ f, (st_mtime f ≤ st_mtime c)%Z) l2)) as Hsplit.
  { unfold choose_keep in Hc.
    destruct (decide (strategy = "first_seen")) as [->|H1].
    { destruct files as [|f files]; [done|]. injection Hc as ->.
      exists [], files. split; [done|]. split; [done|].
      split; intros [=]. }
    destruct (decide (strategy = "oldest")) as [->|H2].
    { destruct files as [|f files]; [done|]. injection Hc as <-.
      destruct (min_from_first st_mtime [] f [] files) as (l1 & l2 & E & Ha & Hb);
        [constructor..|].
      exists l1, l2. split; [exact E|]. split; [done|]. split; [done|].
      intros [=]. }
    destruct (decide (strategy = "newest")) as [->|H3]; [|done].
    destruct files as [|f files]; [done|]. injection Hc as <-.
    destruct (max_from_first st_mtime [] f [] files) as (l1 & l2 & E & Ha & Hb);
      [constructor..|].
    exists l1, l2. split; [exact E|]. split; [done|]. split; [|done].
    intros [=]. }
  split; [done|].
  destruct Hsplit as (l1 & l2 & -> & Hfirst & Hold & Hnew).
  intros Hsorted f Hf Heq.
  apply choose_keep_spec in Hc as (Hs & _).
  apply elem_of_app in Hf as [Hf|Hf].
  - exfalso. revert Hs. unfold STRATEGIES.
    rewrite !elem_of_union, !elem_of_singleton. intros [[->| ->]| ->].
    + rewrite Hfirst in Hf by done. by apply elem_of_nil in Hf.
    + destruct Hold as [Ha _]; [done|].
      pose proof (proj1 (Forall_forall _ _) Ha f Hf) as Hlt. simpl in Hlt. lia.
    + destruct Hnew as [Ha _]; [done|].
      pose proof (proj1 (Forall_forall _ _) Ha f Hf) as Hlt. simpl in Hlt. lia.
  - apply elem_of_cons in Hf as [->|Hf]; [apply path_le_refl|].
    apply StronglySorted_app_1_r, StronglySorted_cons in Hsorted as [Hle _].
    by apply (proj1 (Forall_forall _ _) Hle).
Qed.

Lemma choose_keep_ties_witness :
  choose_keep (λ _, 5%Z) [p060130; p060153] "newest" = Ret p060130 ∧
  StronglySorted PyPath.le [p060130; p060153] ∧
  PyPath.le p060130 p060153.
Proof.
  assert (choose_keep (λ _, 5%Z) [p060130; p060153] "newest" = Ret p060130) as H1
    by reflexivity.
  assert (StronglySorted PyPath.le [p060130; p060153]) as H2.
  { repeat constructor. }
  split; [exact H1|]. split; [exact H2|].
  destruct (choose_keep_ties _ _ _ _ H1) as [_ H].
  apply (H H2); [|reflexivity].
  apply list_elem_of_further, list_elem_of_here.
Defined.

(** ** The client errors of [classify] *)

(** X25.  [classify] answers 400 'Invalid category' exactly when the category is
    not valid, 400 'Bad image id' exactly when the category is valid and the
    id has no bar, and the 404 exactly when both are in order and the path
    after the first bar does not exist, the category being looked at first;
    a call that ends in one of these has changed nothing. *)
Theorem classify_client_errors (public_dir : Path) (CAT_NAMES : list string)
    (st : state) (req_image_id req_category : string) :
  let r := classify public_dir CAT_NAMES st req_image_id req_category in
  (r.1 = Raise InvalidCategory ↔ req_category ∉ VALID_CATEGORIES CAT_NAMES) ∧
  (r.1 = Raise MalformedReference ↔
   req_category ∈ VALID_CATEGORIES CAT_NAMES ∧
   PyStr.split_once "|" req_image_id = None) ∧
  (r.1 = Raise SourceNotFound ↔
   req_category ∈ VALID_CATEGORIES CAT_NAMES ∧
   ∃ u s, PyStr.split_once "|" req_image_id = Some (u, s) ∧
          Fs.exists_ (fs st) (PyPath.of_str s) = false) ∧
  (∀ status_code detail,
     r.1 = Raise (HTTPException status_code detail) → status_code < 500 → r.2 = st).
Proof.
  unfold classify.
  destruct (decide (req_category ∈ VALID_CATEGORIES CAT_NAMES)) as [Hv|Hv].
  2: { rewrite bool_decide_eq_false_2 by done. simpl.
       split; [done|]. split; [split; [done|by intros [? _]]|].
       split; [split; [done|by intros [? _]]|done]. }
  rewrite bool_decide_eq_true_2 by done. simpl negb. cbv iota.
  destruct (PyStr.split_once "|" req_image_id) as [[u s]|] eqn:Es.
  2: { simpl. split; [split; [done|by intros ?]|]. split; [done|].
       split; [split; [done|by intros (_ & ? & ? & ? & _)]|done]. }
  destruct (Fs.exists_ (fs st) (PyPath.of_str s)) eqn:He; simpl negb; cbv iota.
  2: { simpl. split; [split; [done|by intros ?]|].
       split; [split; [done|by intros [_ ?]]|].
       split; [|done]. split; [|done]. intros _. split; [done|]. by exists u, s. }
  assert (∀ o : outcome classified * state,
            (o.1 = Raise OSError ∨ o.1 = Raise ValueError ∨
             o.1 = Raise RelocationFailed ∨ o.1 = Diverge ∨ ∃ x, o.1 = Ret x) →
            (o.1 = Raise InvalidCategory ↔ req_category ∉ VALID_CATEGORIES CAT_NAMES) ∧
            (o.1 = Raise MalformedReference ↔
             req_category ∈ VALID_CATEGORIES CAT_NAMES ∧ Some (u, s) = None) ∧
            (o.1 = Raise SourceNotFound ↔
             req_category ∈ VALID_CATEGORIES CAT_NAMES ∧
             ∃ u' s', Some (u, s) = Some (u', s') ∧
                      Fs.exists_ (fs st) (PyPath.of_str s') = false) ∧
            (∀ status_code detail,
               o.1 = Raise (HTTPException status_code detail) → status_code < 500 →
               o.2 = st)) as Hlate.
  { intros o Ho.
    split; [split; [|done]; intros E; rewrite E in Ho;
            by destruct Ho as [?|[?|[?|[?|[? ?]]]]]|].
    split; [split; [|by intros [_ ?]]; intros E; rewrite E in Ho;
            by destruct Ho as [?|[?|[?|[?|[? ?]]]]]|].
    split.
    - split.
      + intros E; rewrite E in Ho. by destruct Ho as [?|[?|[?|[?|[? ?]]]]].
      + intros (_ & u' & s' & [= <- <-] & He'). congruence.
    - intros code detail E Hlt. rewrite E in Ho.
      destruct Ho as [?|[?|[Hr|[?|[? ?]]]]]; try done.
      injection Hr as -> _. lia. }
  simpl. destruct (Fs.mkdir (fs st) _) as [fs1|]; [|apply Hlate; auto].
  destruct (_unique_path fs1 _) as [t|e|] eqn:Eu.
  - destruct (Fs.move fs1 (PyPath.of_str s) t); [|apply Hlate; auto].
    destruct (PyPath.relative_to t _); apply Hlate; simpl; eauto 10.
  - apply unique_path_raise in Eu as ->. apply Hlate. auto.
  - apply Hlate. auto.
Qed.

(** ** The URLs of [list_images] *)

Lemma replace_absent (a b : ascii) (s : string) :
  PyStr.has_char a s = false → PyStr.replace a b s = s.
Proof.
  induction s as [|c s IH]; simpl; [done|].
  intros [Hc Hs]%orb_false_iff. apply bool_decide_eq_false in Hc.
  by rewrite decide_False, IH.
Qed.

Lemma has_char_join (c : ascii) (sep : string) (ws : list string) :
  PyStr.has_char c sep = false → Forall (λ w, PyStr.has_char c w = false) ws →
  PyStr.has_char c (PyStr.join sep ws) = false.
Proof.
  intros Hsep. induction 1 as [|w ws Hw Hws IH]; [done|].
  destruct ws as [|w' ws]; [done|].
  change (PyStr.join sep (w :: w' :: ws))
    with (w +:+ sep +:+ PyStr.join sep (w' :: ws)).
  by rewrite !has_char_app, Hw, Hsep, IH.
Qed.

Lemma split_has_char (c sep : ascii) (s : string) :
  PyStr.has_char c s = false →
  Forall (λ w, PyStr.has_char c w = false) (PyStr.split sep s).
Proof.
  induction s as [|x s IH]; simpl; [by repeat constructor|].
  intros [Hx Hs]%orb_false_iff. specialize (IH Hs).
  destruct (decide (x = sep)); [by constructor|].
  destruct (PyStr.split sep s) as [|w ws]; [repeat constructor; simpl; by rewrite Hx|].
  inversion IH; subst. constructor; [|done]. simpl. by rewrite Hx.
Qed.

Lemma of_str_plain_parts (c : ascii) (w : string) :
  plain_name w → PyStr.has_char c w = false →
  Forall proper_part (PyPath.of_str w) ∧
  Forall (λ x, PyStr.has_char c x = false) (PyPath.of_str w).
Proof.
  intros Hp Hc. unfold PyPath.of_str. rewrite Hp. split.
  - pose proof (of_str_parts w) as Hs. apply Forall_forall. intros x Hx.
    split; [by apply filter_elem_of in Hx as [_ ?]|].
    by apply (proj1 (Forall_forall _ _) Hs).
  - apply Forall_forall. intros x [Hx _]%filter_elem_of.
    by apply (proj1 (Forall_forall _ _) (split_has_char c "/" w Hc)).
Qed.

(** X26.  The [url] of an item is a slash and the path of the file relative to
    the public directory, the directory served at [/]: read back as a path
    and joined to the public directory it is the listed file.  The feeder,
    the source and the file name have no backslash, which [list_images] would
    turn into a slash. *)
Theorem list_images_url (public_dir : Path) (uuid4 : nat → string) (fs : FS)
    (feeder source : string) (offset limit : Z) (page : listing) (img : image) :
  plain_name feeder → plain_name source →
  PyStr.has_char "\" feeder = false → PyStr.has_char "\" source = false →
  map_Forall (λ p _, normal_path p) fs →
  list_images public_dir uuid4 fs feeder source offset limit = Ret page →
  img ∈ images page → PyStr.has_char "\" (filename img) = false →
  ∃ u,
    url img = "/" +:+ u ∧
    public_dir ++ PyPath.of_str u
      = (ROOT public_dir // feeder // source) ++ [filename img] ∧
    Fs.is_file fs (public_dir ++ PyPath.of_str u) = true.
Proof.
  intros Hf Hs Hbf Hbs Hnorm Hl Himg Hbn.
  destruct (list_images_item _ _ _ _ _ _ _ _ _ Hf Hs Hl Himg)
    as (j & p & Hin & Hp & _ & Hurl & Hname).
  apply all_files_elem_of in Hin as (_ & _ & Hfile & _).
  destruct (of_str_plain_parts "\" feeder Hf Hbf) as [Hpf Hcf].
  destruct (of_str_plain_parts "\" source Hs Hbs) as [Hps Hcs].
  assert (proper_part (PyPath.name p)) as Hpn.
  { unfold Fs.is_file in Hfile. destruct (fs !! p) as [x|] eqn:Ep; [|done].
    pose proof (Hnorm _ _ Ep) as Hn. rewrite Hp in Hn.
    apply normal_path_last in Hn; [done|].
    rewrite feeder_path_eq by done. intros E. apply (f_equal length) in E.
    rewrite !length_app in E. simpl in E. lia. }
  set (rel := ["cat_pics"] ++ PyPath.of_str feeder ++ PyPath.of_str source
                ++ [PyPath.name p]) in *.
  assert (PyPath.to_str rel = PyStr.join "/" rel) as Hto by done.
  assert (PyStr.has_char "\" (PyPath.to_str rel) = false) as Hno.
  { rewrite Hto. apply has_char_join; [done|]. unfold rel.
    constructor; [done|]. rewrite !Forall_app. split; [done|]. split; [done|].
    constructor; [by rewrite <- Hname|constructor]. }
  assert (normal_path rel) as Hnr.
  { split; [by right|]. rewrite !Forall_app. split; [constructor|].
    split; [done|]. split; [done|]. constructor; [done|constructor]. }
  exists (PyPath.to_str rel). split; [by rewrite Hurl, replace_absent|].
  rewrite of_str_to_str by done. rewrite Hname.
  assert (public_dir ++ rel = p) as Hrel.
  { transitivity ((ROOT public_dir // feeder // source) ++ [PyPath.name p]);
      [|by symmetry].
    rewrite feeder_path_eq by done. unfold rel. by rewrite <- !app_assoc. }
  rewrite Hrel. split; [done|done].
Qed.

Lemma list_images_url_witness :
  plain_name "officefeeder1" ∧ plain_name "cats" ∧
  PyStr.has_char "\" "officefeeder1" = false ∧ PyStr.has_char "\" "cats" = false ∧
  map_Forall (λ p _, normal_path p) feeder_fs ∧
  list_images ["/"; "pub"] (λ _, "u") feeder_fs "officefeeder1" "cats" 0 1
    = Ret first_page ∧
  first_image ∈ images first_page ∧
  PyStr.has_char "\" (filename first_image) = false ∧
  ∃ u, url first_image = "/" +:+ u ∧
       Fs.is_file feeder_fs (["/"; "pub"] ++ PyPath.of_str u) = true.
Proof.
  assert (plain_name "officefeeder1") as H1 by reflexivity.
  assert (plain_name "cats") as H2 by reflexivity.
  assert (PyStr.has_char "\" "officefeeder1" = false) as H3 by reflexivity.
  assert (PyStr.has_char "\" "cats" = false) as H4 by reflexivity.
  assert (map_Forall (λ p _, normal_path p) feeder_fs) as H5.
  { apply (bool_decide_unpack _). vm_compute. exact I. }
  assert (list_images ["/"; "pub"] (λ _, "u") feeder_fs "officefeeder1" "cats" 0 1
          = Ret first_page) as H6.
  { vm_compute. reflexivity. }
  assert (first_image ∈ images first_page) as H7 by apply list_elem_of_here.
  assert (PyStr.has_char "\" (filename first_image) = false) as H8 by reflexivity.
  split; [exact H1|]. split; [exact H2|]. split; [exact H3|]. split; [exact H4|].
  split; [exact H5|]. split; [exact H6|]. split; [exact H7|]. split; [exact H8|].
  destruct (list_images_url ["/"; "pub"] (λ _, "u") feeder_fs "officefeeder1" "cats"
              0 1 first_page first_image H1 H2 H3 H4 H5 H6 H7 H8)
    as (u & Hu & _ & Hf).
  exists u. split; [exact Hu|exact Hf].
Defined.

(** ** [classify], [undo] and the listing *)

(** The listing of a directory depends on the regular files only. *)
Lemma all_files_same (fs fs' : FS) (d : Path) :
  (∀ q, Fs.is_file fs' q = Fs.is_file fs q) → Fs.is_dir fs' d = Fs.is_dir fs d →
  all_files fs' d = all_files fs d.
Proof.
  intros Hf Hd. apply (StronglySorted_unique PyPath.le); [apply all_files_sorted..|].
  apply NoDup_Permutation; [apply all_files_NoDup..|].
  intros p. by rewrite !all_files_elem_of, Hf, Hd.
Qed.

(** X27.  [classify] followed by [undo] is invisible to the listing: on a
    well-formed disk, after a regular file has been classified and the move
    undone, the history is as before, the regular files are the same, and
    [list_images] answers for every existing directory what it answered
    before.  Only the directories made for the category remain. *)
Theorem classify_undo_listing (public_dir : Path) (CAT_NAMES : list string)
    (st st1 : state) (req_image_id req_category u s : string) (c : nat)
    (r : classified) :
  Fs.wf (fs st) →
  PyStr.split_once "|" req_image_id = Some (u, s) →
  fs st !! PyPath.of_str s = Some (File c) →
  classify public_dir CAT_NAMES st req_image_id req_category = (Ret r, st1) →
  ∃ un st2,
    undo st1 req_image_id = (Ret un, st2) ∧
    MOVE_HISTORY st2 = MOVE_HISTORY st ∧
    (∀ q x, fs st !! q = Some x → fs st2 !! q = Some x) ∧
    (∀ q c', fs st2 !! q = Some (File c') ↔ fs st !! q = Some (File c')) ∧
    ∀ uuid4 feeder source offset limit,
      Fs.exists_ (fs st) (ROOT public_dir // feeder // source) = true →
      list_images public_dir uuid4 (fs st2) feeder source offset limit
        = list_images public_dir uuid4 (fs st) feeder source offset limit.
Proof.
  intros Hwf Hs Hsrc Hcl.
  destruct (undo_after_classify _ _ _ _ _ _ _ _ _ _ Hwf Hs Hsrc Hcl)
    as (fs1 & t & Hmk & _ & _ & _ & _ & Hun).
  eexists _, _. split; [exact Hun|]. simpl. split; [done|].
  assert (∀ q c', fs1 !! q = Some (File c') ↔ fs st !! q = Some (File c')) as Hfiles
    by (intros q c'; apply (mkdir_files _ _ _ _ _ Hmk)).
  split; [intros q x; apply (mkdir_from_keeps _ _ _ _ _ _ Hmk)|].
  split; [done|].
  intros uuid4 feeder source offset limit He. unfold list_images.
  apply bool_decide_eq_true in He as [x Hx].
  pose proof (mkdir_from_keeps _ _ _ _ _ _ Hmk Hx) as Hx1.
  unfold Fs.exists_. rewrite Hx, Hx1.
  rewrite (all_files_same (fs st) fs1); [done| |].
  - intros q. unfold Fs.is_file.
    destruct (fs1 !! q) as [[c'|]|] eqn:E1.
    + by rewrite (proj1 (Hfiles q c') E1).
    + destruct (fs st !! q) as [[c'|]|] eqn:E0; [|done..].
      apply Hfiles in E0. congruence.
    + destruct (fs st !! q) as [[c'|]|] eqn:E0; [|done..].
      apply Hfiles in E0. congruence.
  - unfold Fs.is_dir. by rewrite Hx, Hx1.
Qed.

Lemma classify_undo_listing_witness :
  Fs.wf (fs feeder_state) ∧
  PyStr.split_once "|" (id first_image)
    = Some ("u", "/pub/cat_pics/officefeeder1/cats/a.jpg") ∧
  fs feeder_state !! PyPath.of_str "/pub/cat_pics/officefeeder1/cats/a.jpg"
    = Some (File 1) ∧
  classify ["/"; "pub"] ["milo"] feeder_state (id first_image) "unknown"
    = (Ret {| stored_at := "cat_pics/classified/unknown/a.jpg" |},
       (classify ["/"; "pub"] ["milo"] feeder_state (id first_image) "unknown").2) ∧
  ∃ un st2,
    undo (classify ["/"; "pub"] ["milo"] feeder_state (id first_image) "unknown").2
         (id first_image) = (Ret un, st2) ∧
    MOVE_HISTORY st2 = MOVE_HISTORY feeder_state.
Proof.
  assert (Fs.wf (fs feeder_state)) as H1.
  { apply (bool_decide_unpack _). vm_compute. exact I. }
  assert (PyStr.split_once "|" (id first_image)
          = Some ("u", "/pub/cat_pics/officefeeder1/cats/a.jpg")) as H2
    by reflexivity.
  assert (fs feeder_state !! PyPath.of_str "/pub/cat_pics/officefeeder1/cats/a.jpg"
          = Some (File 1)) as H3.
  { reflexivity. }
  assert (classify ["/"; "pub"] ["milo"] feeder_state (id first_image) "unknown"
    = (Ret {| stored_at := "cat_pics/classified/unknown/a.jpg" |},
       (classify ["/"; "pub"] ["milo"] feeder_state (id first_image) "unknown").2))
    as H4.
  { reflexivity. }
  split; [exact H1|]. split; [exact H2|]. split; [exact H3|]. split; [exact H4|].
  destruct (classify_undo_listing _ _ _ _ _ _ _ _ _ _ H1 H2 H3 H4)
    as (un & st2 & Hu & Hh & _).
  exists un, st2. split; [exact Hu|exact Hh].
Defined.

(** ** The name [classify] stores a file under *)

(** [mkdir] makes nothing inside the directory it is asked for. *)
Lemma mkdir_below (fs fs1 : FS) (d : Path) (w : string) :
  Fs.mkdir fs d = Some fs1 → fs1 !! (d ++ [w]) = fs !! (d ++ [w]).
Proof.
  intros Hmk. destruct (fs1 !! (d ++ [w])) as [n|] eqn:E1.
  - destruct (mkdir_from_added _ _ _ _ _ _ Hmk E1) as [?|[_ Hq]]; [done|].
    apply prefixes_from_take in Hq as (k & Hk & Hq). simpl in Hq.
    apply (f_equal length) in Hq. rewrite length_app, length_take in Hq.
    simpl in Hq. lia.
  - destruct (fs !! (d ++ [w])) as [n|] eqn:E0; [|done].
    by rewrite (mkdir_from_keeps _ _ _ _ _ _ Hmk E0) in E1.
Qed.

(** What a successful [classify] answers. *)
Lemma classify_answer (public_dir : Path) (CAT_NAMES : list string)
    (st st1 : state) (req_image_id req_category u s : string) (r : classified) :
  PyStr.split_once "|" req_image_id = Some (u, s) →
  classify public_dir CAT_NAMES st req_image_id req_category = (Ret r, st1) →
  ∃ fs1 t rel n,
    fs st !! PyPath.of_str s = Some n ∧
    Fs.mkdir (fs st) (CLASSIFIED_ROOT public_dir // req_category) = Some fs1 ∧
    _unique_path fs1
      (CLASSIFIED_ROOT public_dir // req_category // PyPath.name (PyPath.of_str s))
      = Ret t ∧
    PyPath.relative_to t (PyPath.parent (ROOT public_dir)) = Some rel ∧
    stored_at r = PyPath.to_str rel ∧
    fs st1 = <[t := n]> (delete (PyPath.of_str s) fs1) ∧
    MOVE_HISTORY st1 = MOVE_HISTORY st ++
      [{| image_id := req_image_id; original_path := PyPath.of_str s;
          new_path := t |}].
Proof.
  intros Hs. unfold classify.
  destruct (bool_decide (req_category ∈ VALID_CATEGORIES CAT_NAMES)); [|done].
  simpl negb. cbv iota. rewrite Hs.
  destruct (Fs.exists_ (fs st) (PyPath.of_str s)) eqn:He; [|done].
  simpl negb. cbv iota. apply bool_decide_eq_true in He as [n Hn].
  destruct (Fs.mkdir (fs st) _) as [fs1|] eqn:Hmk; [|done].
  destruct (_unique_path fs1 _) as [t| |] eqn:Hu; [|done..].
  pose proof (mkdir_from_keeps _ _ _ _ _ _ Hmk Hn) as Hn1.
  unfold Fs.move. rewrite Hn1.
  destruct (Fs.is_dir fs1 t && _); [done|].
  assert (Fs.is_dir fs1 t = false) as ->.
  { apply unique_path_fresh, exists_false in Hu. unfold Fs.is_dir.
    rewrite Hu. by apply bool_decide_eq_false_2. }
  destruct (Fs.is_dir fs1 (PyPath.parent t)); [|done].
  destruct (PyPath.relative_to t _) as [rel|] eqn:Hrel; [|done].
  intros [= <- <-]. by exists fs1, t, rel, n.
Qed.

(** X28.  [classify] never stores a file over another: the file goes to
    [CLASSIFIED_ROOT/category/name] when nothing is there, and otherwise,
    what is there being left alone, to the numbered sibling [name_k] with the
    least [k >= 1] that is free.  The answer [stored_at] is that place,
    relative to the public directory. *)
Theorem classify_collision_naming (public_dir : Path) (CAT_NAMES : list string)
    (st st1 : state) (req_image_id req_category u s : string) (r : classified) :
  PyStr.split_once "|" req_image_id = Some (u, s) →
  PyPath.name (PyPath.of_str s) ≠ "" →
  classify public_dir CAT_NAMES st req_image_id req_category = (Ret r, st1) →
  let candidate :=
    CLASSIFIED_ROOT public_dir // req_category // PyPath.name (PyPath.of_str s) in
  ∃ t rel,
    fs st1 !! t = fs st !! PyPath.of_str s ∧
    PyPath.relative_to t public_dir = Some rel ∧ stored_at r = PyPath.to_str rel ∧
    (fs st !! candidate = None → t = candidate) ∧
    (is_Some (fs st !! candidate) →
     ∃ k, 1 ≤ k ∧ t = numbered candidate k ∧ fs st !! numbered candidate k = None ∧
          ∀ m, 1 ≤ m < k → is_Some (fs st !! numbered candidate m)).
Proof.
  intros Hs Hname Hcl candidate.
  destruct (classify_answer _ _ _ _ _ _ _ _ _ Hs Hcl)
    as (fs1 & t & rel & n & Hn & Hmk & Hu & Hrel & Hr & Hfs & _).
  fold candidate in Hu. rewrite parent_ROOT in Hrel.
  destruct (name_of_str s Hname) as [Ho Hroot].
  assert (candidate = (CLASSIFIED_ROOT public_dir // req_category)
                        ++ [PyPath.name (PyPath.of_str s)]) as Hcand.
  { unfold candidate.
    rewrite (joinpath_relative _ (PyPath.name _))
      by apply no_slash_root_of, name_no_slash.
    by rewrite Ho. }
  assert (PyPath.name candidate ≠ "") as Hcn.
  { rewrite Hcand, name_snoc by done. done. }
  assert (∀ k, numbered candidate k =
               (CLASSIFIED_ROOT public_dir // req_category)
                 ++ [numbered_name candidate k]) as Hnum.
  { intros k. unfold numbered. by rewrite Hcand at 1; rewrite removelast_last. }
  assert (fs1 !! candidate = fs st !! candidate) as Hsame.
  { rewrite Hcand. by apply mkdir_below. }
  assert (∀ k, fs1 !! numbered candidate k = fs st !! numbered candidate k) as Hsamek.
  { intros k. rewrite Hnum. by apply mkdir_below. }
  exists t, rel. split; [by rewrite Hfs, lookup_insert_eq|].
  split; [done|]. split; [done|]. split.
  - intros Hfree. unfold _unique_path in Hu.
    rewrite (proj2 (exists_false fs1 candidate)) in Hu by by rewrite Hsame.
    simpl in Hu. by injection Hu as <-.
  - intros Hocc.
    destruct (unique_path_occupied fs1 candidate Hcn) as (k & Hk & Hu' & Hfree & Hbelow).
    { apply bool_decide_eq_true. by rewrite Hsame. }
    rewrite Hu in Hu'. injection Hu' as ->.
    exists k. split; [done|]. split; [done|]. split.
    + apply exists_false in Hfree. by rewrite <- Hsamek.
    + intros m Hm. specialize (Hbelow m Hm).
      apply bool_decide_eq_true in Hbelow. by rewrite <- Hsamek.
Qed.

Lemma classify_collision_naming_witness :
  PyStr.split_once "|" "u|/pub/cat_pics/f/cats/a.jpg"
    = Some ("u", "/pub/cat_pics/f/cats/a.jpg") ∧
  PyPath.name (PyPath.of_str "/pub/cat_pics/f/cats/a.jpg") ≠ "" ∧
  classify ["/"; "pub"] ["milo"] collision_state
    "u|/pub/cat_pics/f/cats/a.jpg" "unknown"
  = (Ret {| stored_at := "cat_pics/classified/unknown/a_1.jpg" |},
     (classify ["/"; "pub"] ["milo"] collision_state
        "u|/pub/cat_pics/f/cats/a.jpg" "unknown").2) ∧
  ∃ t rel,
    PyPath.relative_to t ["/"; "pub"] = Some rel ∧
    "cat_pics/classified/unknown/a_1.jpg" = PyPath.to_str rel.
Proof.
  assert (PyStr.split_once "|" "u|/pub/cat_pics/f/cats/a.jpg"
          = Some ("u", "/pub/cat_pics/f/cats/a.jpg")) as H1 by reflexivity.
  assert (PyPath.name (PyPath.of_str "/pub/cat_pics/f/cats/a.jpg") ≠ "") as H2.
  { apply (bool_decide_unpack _). vm_compute. exact I. }
  assert (classify ["/"; "pub"] ["milo"] collision_state
            "u|/pub/cat_pics/f/cats/a.jpg" "unknown"
          = (Ret {| stored_at := "cat_pics/classified/unknown/a_1.jpg" |},
             (classify ["/"; "pub"] ["milo"] collision_state
                "u|/pub/cat_pics/f/cats/a.jpg" "unknown").2)) as H3.
  { reflexivity. }
  split; [exact H1|]. split; [exact H2|]. split; [exact H3|].
  destruct (classify_collision_naming _ _ _ _ _ _ _ _ _ H1 H2 H3)
    as (t & rel & _ & Hrel & Hr & _).
  exists t, rel. split; [exact Hrel|exact Hr].
Defined.
